(** * MichaelAI2.3.py: a shallow embedding and its checked properties

    The program is a Tk chat client for a local Ollama daemon.  Its pure
    parts (model recommendation, text scraping of vendor tools) are
    embedded as functions; its effectful parts (HTTP probes, subprocesses,
    widgets, the preference file) are embedded as functions of an explicit
    environment that answer with a result and the list of effects they
    performed, in program order. *)

From Stdlib Require Import ZArith QArith String Ascii List Bool Lia DecimalString.
From stdpp Require Import gmap strings list fin_maps.
Import ListNotations.

#[local] Set Warnings "-register-all".

Local Open Scope Z_scope.
Local Open Scope string_scope.
Local Open Scope list_scope.

(** ** Python numbers

    [vram_gb] and [ram_gb] are Python floats (or the int [0]): IEEE 754
    doubles.  A finite double is kept as the exact rational it denotes, next
    to the two infinities and NaN.  Every comparison with NaN is false.  The
    operations of the program that make a float (an int divided by an int,
    [float] of a string, a float divided by 1024) round their exact result
    to the nearest double, ties to even: [round_double]. *)

Inductive pynum : Type :=
  | Fin (q : Q)
  | PosInf
  | NegInf
  | NaN.

Definition num_lt (x y : pynum) : bool :=
  match x, y with
  | NaN, _ | _, NaN => false
  | Fin a, Fin b => match Qcompare a b with Lt => true | _ => false end
  | NegInf, NegInf => false
  | NegInf, _ => true
  | _, NegInf => false
  | PosInf, _ => false
  | Fin _, PosInf => true
  end.

Definition num_le (x y : pynum) : bool :=
  match x, y with
  | NaN, _ | _, NaN => false
  | Fin a, Fin b => match Qcompare a b with Gt => false | _ => true end
  | NegInf, _ => true
  | _, PosInf => true
  | PosInf, _ => false
  | Fin _, NegInf => false
  end.

Definition num_gt (x y : pynum) : bool := num_lt y x.
Definition num_ge (x y : pynum) : bool := num_le y x.

Definition num_eq (x y : pynum) : bool :=
  match x, y with
  | Fin a, Fin b => match Qcompare a b with Eq => true | _ => false end
  | PosInf, PosInf | NegInf, NegInf => true
  | _, _ => false
  end.

Definition of_int (n : Z) : pynum := Fin (inject_Z n).

(** [m * 2^t], in lowest terms. *)
Definition scaled (m t : Z) : Q :=
  Qred (if (0 <=? t)%Z then inject_Z (m * 2 ^ t) else m # Z.to_pos (2 ^ (- t))).

(** The double nearest to [a / b]: [e] is the binary exponent of the
    quotient, [t] the exponent of the last of its 53 bits (no lower than
    that of the subnormals), [m] the quotient in units of [2^t], rounded
    half to even.  From [2^1024] on the result is the infinity. *)
Definition round_pos (a b : positive) : pynum :=
  let a := Zpos a in
  let b := Zpos b in
  let e0 := Z.log2 a - Z.log2 b in
  let e := if (a * 2 ^ Z.max 0 (- e0) <? b * 2 ^ Z.max 0 e0)%Z then e0 - 1 else e0 in
  let t := Z.max (e - 52) (-1074) in
  let n := a * 2 ^ Z.max 0 (- t) in
  let d := b * 2 ^ Z.max 0 t in
  let m := n / d in
  let r := n mod d in
  let m := if (d <? 2 * r)%Z || ((d =? 2 * r)%Z && Z.odd m) then m + 1 else m in
  if (2 ^ 1024 <=? m * 2 ^ Z.max 0 t)%Z then PosInf else Fin (scaled m t).

Definition num_neg (x : pynum) : pynum :=
  match x with
  | Fin q => Fin (- q)
  | PosInf => NegInf
  | NegInf => PosInf
  | NaN => NaN
  end.

Definition round_double (q : Q) : pynum :=
  match Qnum q with
  | Z0 => Fin 0
  | Zpos a => round_pos a (Qden q)
  | Zneg a => num_neg (round_pos a (Qden q))
  end.

(** The quotient [n / 1024] of a Python int, rounded; an infinity stands
    where the division raises OverflowError. *)
Definition div_1024 (n : Z) : pynum := round_double (n # 1024).

(** Not a finite number. *)
Definition overflows (x : pynum) : bool :=
  match x with Fin _ => false | _ => true end.

Definition is_nan (x : pynum) : bool :=
  match x with NaN => true | _ => false end.

(** ** get_recommended_models (lines 1082-1115) *)

(** One recommendation dictionary; [size_gb] is the decimal literal of the
    source. *)
Record recommendation : Type := Recommendation {
  name : string;
  size_gb : Q;
  description : string
}.

Definition get_recommended_models (vram_gb ram_gb : pynum) : list recommendation :=
  let recommendations : list recommendation := [] in
  if num_ge vram_gb (of_int 8) then
    (* High VRAM systems *)
    recommendations ++
      [ Recommendation "llama2" (38 # 10) "Good balance of performance and quality";
        Recommendation "mistral" (41 # 10) "Excellent for coding and reasoning";
        Recommendation "codellama:13b" (73 # 10) "Specialized for programming" ]
  else if num_ge vram_gb (of_int 4) then
    (* Medium VRAM systems *)
    recommendations ++
      [ Recommendation "llama2:7b" (38 # 10) "Standard 7B model";
        Recommendation "gemma:7b" (48 # 10) "Google's efficient model";
        Recommendation "mistral" (41 # 10) "Fast and capable" ]
  else if num_gt vram_gb (of_int 0) || num_ge ram_gb (of_int 8) then
    (* Low VRAM or CPU-only with sufficient RAM *)
    recommendations ++
      [ Recommendation "llama2:3b" (19 # 10) "Lightweight but capable";
        Recommendation "gemma:2b" (16 # 10) "Very fast, minimal resources";
        Recommendation "phi" (16 # 10) "Microsoft's small but smart model" ]
  else
    (* Very limited resources *)
    recommendations ++
      [ Recommendation "tinyllama" (5 # 10) "Smallest usable model";
        Recommendation "phi:mini" (14 # 10) "Mini version of Phi";
        Recommendation "gemma:2b" (16 # 10) "Efficient 2B model" ].

Definition names (l : list recommendation) : list string := map name l.

(** The four tiers as the specification names them. *)
Definition high_vram_list : list string := ["llama2"; "mistral"; "codellama:13b"].
Definition medium_list : list string := ["llama2:7b"; "gemma:7b"; "mistral"].
Definition low_resource_list : list string := ["llama2:3b"; "gemma:2b"; "phi"].
Definition minimal_list : list string := ["tinyllama"; "phi:mini"; "gemma:2b"].

(** The conditions of the specification, read on Python comparisons. *)
Definition in_high (vram_gb : pynum) : bool := num_ge vram_gb (of_int 8).
Definition in_medium (vram_gb : pynum) : bool :=
  num_le (of_int 4) vram_gb && num_lt vram_gb (of_int 8).
Definition in_low (vram_gb ram_gb : pynum) : bool :=
  num_lt vram_gb (of_int 4) && (num_gt vram_gb (of_int 0) || num_ge ram_gb (of_int 8)).

(** The tier table of the specification: the first three lists under their
    conditions, the minimal list otherwise. *)
Definition spec_tier (vram_gb ram_gb : pynum) : list string :=
  if in_high vram_gb then high_vram_list
  else if in_medium vram_gb then medium_list
  else if in_low vram_gb ram_gb then low_resource_list
  else minimal_list.

(** The same table with the third condition read as the code tests it:
    [vram_gb] failed [>= 4], which holds below 4 and for NaN. *)
Definition in_low_amended (vram_gb ram_gb : pynum) : bool :=
  (num_lt vram_gb (of_int 4) || is_nan vram_gb)
  && (num_gt vram_gb (of_int 0) || num_ge ram_gb (of_int 8)).

(** ** Python strings

    A string is a sequence of characters with code points below 256.  The
    methods below follow CPython's [str] on such strings. *)

Definition code (c : ascii) : nat := nat_of_ascii c.

(** [str.isspace] on one character: TAB..CR, FS..US, space, NEL, NBSP. *)
Definition isspace (c : ascii) : bool :=
  let n := code c in
  ((9 <=? n) && (n <=? 13) || (28 <=? n) && (n <=? 32) || (n =? 133) || (n =? 160))%nat.

Definition is_ascii_digit (c : ascii) : bool :=
  let n := code c in ((48 <=? n) && (n <=? 57))%nat.

(** [str.isdigit] on one character: the ASCII digits and the superscripts
    two, three and one, which [int] and [float] refuse. *)
Definition isdigit_char (c : ascii) : bool :=
  let n := code c in
  (is_ascii_digit c || (n =? 178) || (n =? 179) || (n =? 185))%nat.

Definition chars (s : string) : list ascii := list_ascii_of_string s.
Definition of_chars (l : list ascii) : string := string_of_list_ascii l.

Fixpoint drop_space (l : list ascii) : list ascii :=
  match l with
  | c :: l' => if isspace c then drop_space l' else l
  | [] => []
  end.

(** [s.strip()] *)
Definition strip (s : string) : string :=
  of_chars (rev (drop_space (rev (drop_space (chars s))))).

(** [s.split(sep)] for a one-character separator: never the empty list. *)
Fixpoint split_char (sep : ascii) (s : string) : list string :=
  match s with
  | EmptyString => [EmptyString]
  | String c s' =>
      if Ascii.eqb c sep then EmptyString :: split_char sep s'
      else match split_char sep s' with
           | w :: ws => String c w :: ws
           | [] => [String c EmptyString]
           end
  end.

Definition newline : ascii := ascii_of_nat 10.
Definition split_lines (s : string) : list string := split_char newline s.

(** [s.split()]: the maximal runs of characters that are not whitespace;
    [cur] is the run being read. *)
Fixpoint split_from (cur : string) (s : string) : list string :=
  match s with
  | EmptyString => match cur with EmptyString => [] | _ => [cur] end
  | String c s' =>
      if isspace c then
        match cur with
        | EmptyString => split_from EmptyString s'
        | _ => cur :: split_from EmptyString s'
        end
      else split_from (String.append cur (String c EmptyString)) s'
  end.

Definition str_split (s : string) : list string := split_from EmptyString s.

(** [needle in hay] *)
Fixpoint contains (needle hay : string) : bool :=
  String.prefix needle hay ||
  match hay with
  | EmptyString => false
  | String _ hay' => contains needle hay'
  end.

(** [s.isdigit()]: not empty and every character a digit. *)
Definition isdigit (s : string) : bool :=
  match chars s with
  | [] => false
  | l => forallb isdigit_char l
  end.

(** [s.replace('.', '')] *)
Definition remove_dots (s : string) : string :=
  of_chars (List.filter (fun c => negb (Ascii.eqb c ".")) (chars s)).

Definition digit_value (c : ascii) : Z := Z.of_nat (code c) - 48.

(** The value of a run of ASCII digits read after [acc]. *)
Definition digits_value (acc : Z) (l : list ascii) : Z :=
  fold_left (fun a c => 10 * a + digit_value c) l acc.

(** Digits with single underscores between them, as [int] accepts them:
    [prev_digit] tells whether the character before was a digit. *)
Fixpoint int_body (prev_digit : bool) (acc : Z) (l : list ascii) : option Z :=
  match l with
  | [] => if prev_digit then Some acc else None
  | c :: l' =>
      if is_ascii_digit c then int_body true (10 * acc + digit_value c) l'
      else if Ascii.eqb c "_" then
        if prev_digit then int_body false acc l' else None
      else None
  end.

(** The whitespace [int] skips around the literal: TAB..CR, space, NEL and
    NBSP, but not FS..US, which [str.strip] removes. *)
Definition is_int_space (c : ascii) : bool :=
  let n := code c in
  ((9 <=? n) && (n <=? 13) || (n =? 32) || (n =? 133) || (n =? 160))%nat.

Fixpoint drop_int_space (l : list ascii) : list ascii :=
  match l with
  | c :: l' => if is_int_space c then drop_int_space l' else l
  | [] => []
  end.

(** The literal without its sign: [true] for a minus. *)
Definition unsigned (l : list ascii) : bool * list ascii :=
  match l with
  | "-"%char :: l' => (true, l')
  | "+"%char :: l' => (false, l')
  | _ => (false, l)
  end.

Definition count_digits (l : list ascii) : nat := length (List.filter is_ascii_digit l).

(** [sys.int_max_str_digits], at its default. *)
Definition int_max_str_digits : nat := 4300.

(** [int(s)] in base 10: [None] stands for [ValueError], raised on a string
    that is no literal and on a literal of more than 4300 digits. *)
Definition py_int (s : string) : option Z :=
  let '(minus, l) := unsigned (rev (drop_int_space (rev (drop_int_space (chars s))))) in
  if (int_max_str_digits <? count_digits l)%nat then None
  else option_map (fun n => if minus then - n else n) (int_body false 0 l).

(** [repr(s)]: quoted, with the backslash, the quote in use, the control
    characters and the characters that are not printable escaped. *)
Definition double_quote : ascii := ascii_of_nat 34.
Definition backslash : ascii := ascii_of_nat 92.

Definition hex_digit (n : nat) : ascii := nth n (chars "0123456789abcdef") "0"%char.

Definition printable (c : ascii) : bool :=
  let n := code c in
  negb ((n <? 32) || (127 <=? n) && (n <=? 160) || (n =? 173))%nat.

Definition repr_char (quote c : ascii) : list ascii :=
  let n := code c in
  if Ascii.eqb c quote || Ascii.eqb c backslash then [backslash; c]
  else if (n =? 9)%nat then [backslash; "t"%char]
  else if (n =? 10)%nat then [backslash; "n"%char]
  else if (n =? 13)%nat then [backslash; "r"%char]
  else if printable c then [c]
  else [backslash; "x"%char; hex_digit (n / 16); hex_digit (n mod 16)].

Definition py_repr (s : string) : string :=
  let l := chars s in
  let quote :=
    if existsb (Ascii.eqb "'") l && negb (existsb (Ascii.eqb double_quote) l)
    then double_quote else "'"%char in
  of_chars (quote :: flat_map (repr_char quote) l ++ [quote]).

Fixpoint str_take_chars (n : nat) (l : list ascii) : list ascii :=
  match n, l with
  | S n', c :: l' => c :: str_take_chars n' l'
  | _, _ => []
  end.

(** The digits [int] scans before it looks at their number: a run of
    digits with single underscores inside, counted without the underscores;
    [None] where an underscore is doubled or ends the run. *)
Fixpoint scan_digits (prev_underscore : bool) (digits : nat) (l : list ascii)
  : option nat :=
  match l with
  | c :: l' =>
      if is_ascii_digit c then scan_digits false (S digits) l'
      else if Ascii.eqb c "_" then
        if prev_underscore then None else scan_digits true digits l'
      else if prev_underscore then None else Some digits
  | [] => if prev_underscore then None else Some digits
  end.

Definition too_many_digits (l : list ascii) : option nat :=
  match l with
  | "_"%char :: _ => None
  | _ =>
      match scan_digits false 0 l with
      | Some digits => if (int_max_str_digits <? digits)%nat then Some digits else None
      | None => None
      end
  end.

(** The run of digits of [s] that is over the limit, with its number. *)
Definition over_limit (s : string) : option nat :=
  too_many_digits (snd (unsigned (drop_int_space (chars s)))).

(** [float(s)] on the strings the program hands to it, which hold digits
    and dots only: ASCII digits around at most one dot, at least one digit.
    [None] stands for [ValueError].  [float_int] gives the exact decimal,
    which [float] rounds to the nearest double: the infinity from 2^1024 on,
    zero below the smallest subnormal. *)
Fixpoint float_frac (num : Z) (den : positive) (l : list ascii) : option Q :=
  match l with
  | [] => Some (num # den)
  | c :: l' =>
      if is_ascii_digit c then float_frac (10 * num + digit_value c) (10 * den) l'
      else None
  end.

Fixpoint float_int (acc : Z) (l : list ascii) : option Q :=
  match l with
  | [] => Some (acc # 1)
  | c :: l' =>
      if is_ascii_digit c then float_int (10 * acc + digit_value c) l'
      else if Ascii.eqb c "." then float_frac acc 1 l'
      else None
  end.

Definition py_float (s : string) : option pynum :=
  if existsb is_ascii_digit (chars s)
  then option_map round_double (float_int 0 (chars s))
  else None.

(** ** Exceptions

    The classes the handlers of the program tell apart, and the text
    [str(e)] shows. *)

Inductive exn_class : Type :=
  | TimeoutExpired          (* subprocess.TimeoutExpired *)
  | FileNotFoundError
  | ValueError
  | JSONDecodeError         (* what response.json() and json.load raise *)
  | AttributeError
  | TypeError
  | RequestsConnectionError (* requests.exceptions.ConnectionError *)
  | RequestsConnectTimeout  (* both a ConnectionError and a Timeout *)
  | RequestsReadTimeout     (* a Timeout only *)
  | OSError
  | OtherException.

Record exn : Type := Exn { exn_class_of : exn_class; exn_text : string }.

Definition is_timeout_expired (e : exn) : bool :=
  match exn_class_of e with TimeoutExpired => true | _ => false end.

Definition is_connection_error (e : exn) : bool :=
  match exn_class_of e with
  | RequestsConnectionError | RequestsConnectTimeout => true
  | _ => false
  end.

Definition is_requests_timeout (e : exn) : bool :=
  match exn_class_of e with
  | RequestsConnectTimeout | RequestsReadTimeout => true
  | _ => false
  end.

(** [except (ValueError, IndexError)]: JSONDecodeError is a ValueError. *)
Definition is_value_error (e : exn) : bool :=
  match exn_class_of e with
  | ValueError | JSONDecodeError => true
  | _ => false
  end.

(** ** Control flow with effects

    A block of statements ends by falling through with a value ([Next]), by
    [break], by [return], or by raising; it also leaves the list of effects
    it performed. *)

Inductive flow (R A : Type) : Type :=
  | Next (a : A)
  | Brk
  | Ret (r : R)
  | Throw (e : exn).
Arguments Next {R A} a.
Arguments Brk {R A}.
Arguments Ret {R A} r.
Arguments Throw {R A} e.

Definition prog (E R A : Type) : Type := flow R A * list E.

Definition pure {E R A} (a : A) : prog E R A := (Next a, []).
Definition emit {E R} (e : E) : prog E R unit := (Next tt, [e]).
Definition ret {E R A} (r : R) : prog E R A := (Ret r, []).
Definition raise {E R A} (e : exn) : prog E R A := (Throw e, []).
Definition break {E R A} : prog E R A := (Brk, []).

Definition bind {E R A B} (m : prog E R A) (k : A -> prog E R B) : prog E R B :=
  match m with
  | (Next a, l) => let (f, l') := k a in (f, l ++ l')
  | (Brk, l) => (Brk, l)
  | (Ret r, l) => (Ret r, l)
  | (Throw e, l) => (Throw e, l)
  end.

Notation "x <- m ;; k" := (bind m (fun x => k))
  (at level 100, m at next level, right associativity).
Notation "m ;;; k" := (bind m (fun _ => k))
  (at level 100, right associativity).

(** [try: m except: h]: [h e] is [None] when no clause matches [e]. *)
Definition try_except {E R A} (m : prog E R A) (h : exn -> option (prog E R A))
  : prog E R A :=
  match m with
  | (Throw e, l) =>
      match h e with
      | Some k => let (f, l') := k in (f, l ++ l')
      | None => (Throw e, l)
      end
  | other => other
  end.

(** [for x in xs: body], with a loop variable [s] for what the body
    assigns; [break] ends the loop. *)
Fixpoint for_each {E R X S} (xs : list X) (s : S) (body : S -> X -> prog E R S)
  : prog E R S :=
  match xs with
  | [] => pure s
  | x :: xs' =>
      match body s x with
      | (Next s', l) => let (f, l') := for_each xs' s' body in (f, l ++ l')
      | (Brk, l) => (Next s, l)
      | (Ret r, l) => (Ret r, l)
      | (Throw e, l) => (Throw e, l)
      end
  end.

(** How a call ends. *)
Inductive outcome (R : Type) : Type :=
  | Returned (r : R)
  | Raised (e : exn).
Arguments Returned {R} r.
Arguments Raised {R} e.

(** A call inside a block: its effects, then its value or its exception. *)
Definition invoke {E R A} (c : outcome A * list E) : prog E R A :=
  match c with
  | (Returned a, l) => (Next a, l)
  | (Raised e, l) => (Throw e, l)
  end.

(** A function body: falling off the end returns [dflt] (Python's None). *)
Definition call {E R} (dflt : R) (body : prog E R unit) : outcome R * list E :=
  match body with
  | (Next _, l) | (Brk, l) => (Returned dflt, l)
  | (Ret r, l) => (Returned r, l)
  | (Throw e, l) => (Raised e, l)
  end.

(** ** Python values and JSON documents

    Numbers are integers: no claim reads a fractional number out of a
    response or out of the preference file. *)

Inductive pyval : Type :=
  | PNone
  | PBool (b : bool)
  | PInt (n : Z)
  | PStr (s : string)
  | PList (items : list pyval)
  | PTuple (items : list pyval)
  | PDict (entries : list (string * pyval)).

Inductive json : Type :=
  | JNull
  | JBool (b : bool)
  | JInt (n : Z)
  | JStr (s : string)
  | JArr (items : list json)
  | JObj (members : list (string * json)).

(** [d.get(key, default)] on a dictionary kept as its list of entries. *)
Fixpoint dict_get (entries : list (string * pyval)) (key : string) (default : pyval)
  : pyval :=
  match entries with
  | [] => default
  | (k, v) :: rest => if String.eqb k key then v else dict_get rest key default
  end.

(** Decimal text of an integer, as [str] and f-strings write it. *)
Definition str_of_Z (n : Z) : string := DecimalString.NilZero.string_of_int (Z.to_int n).

(** ** Effects *)

(** The AmigaOSStyle printers, and the bare [print]. *)
Inductive level : Type := Header | Success | Error | Warning | Info | Plain.

(** A printed line: literal text, and floats shown with one decimal
    ([{x:.1f}]), whose digits are not computed here. *)
Inductive fragment : Type :=
  | Lit (s : string)
  | Float1 (x : pynum)
  | FloatRepr (x : pynum).      (* [{x}] *)

(** The JSON body of a generate request (lines 792-803). *)
Record generate_request : Type := GenerateRequest {
  model : string;
  prompt : string;
  stream : bool;
  temperature : Q;
  num_predict : Z;
  num_gpu : Z;
  main_gpu : Z;
  num_thread : Z
}.

(** What [root.after] can be asked to call. *)
Inductive callback : Type :=
  | DisplayAiResponse (response_text : pyval)
  | DisplayError (error_msg : string).

Inductive effect : Type :=
  | Run (argv : list string) (timeout : option Z)
  | Print (lv : level) (msg : list fragment)
  | Sleep (seconds : Z)
  | HttpGet (url : string) (timeout : Z)
  | HttpPost (url : string) (payload : generate_request) (timeout : Z)
  | Popen (argv : list string)
  | Poll
  | Communicate (timeout : option Z)
  | StderrRead
  | Terminate
  | Input (prompt : string)
  | After (delay_ms : Z) (cb : callback).

Definition print {R} (lv : level) (text : string) : prog effect R unit :=
  emit (Print lv [Lit text]).

(** ** SystemChecker.detect_vram (lines 108-180) *)

(** A finished subprocess ([subprocess.CompletedProcess]). *)
Record completed : Type := Completed {
  returncode : Z;
  stdout : string;
  stderr : string
}.

(** What the machine answers to the three tools: each either finishes or
    makes [subprocess.run] raise (tool not installed, time limit hit). *)
Record gpu_env : Type := GpuEnv {
  nvidia_smi : outcome completed;
  rocm_smi : outcome completed;
  sys_platform : string;
  system_profiler : outcome completed
}.

Definition run {R} (argv : list string) (timeout : option Z) (answer : outcome completed)
  : prog effect R completed :=
  emit (Run argv timeout) ;;;
  match answer with
  | Returned c => pure c
  | Raised e => raise e
  end.

Definition nvidia_argv : list string :=
  ["nvidia-smi"; "--query-gpu=memory.total"; "--format=csv,noheader,nounits"].
Definition rocm_argv : list string := ["rocm-smi"; "--showmeminfo"; "vram"].
Definition profiler_argv : list string := ["system_profiler"; "SPDisplaysDataType"].

Definition nonempty (s : string) : bool :=
  match s with EmptyString => false | _ => true end.

Definition enumerate {A} (l : list A) : list (nat * A) :=
  combine (seq 0 (length l)) l.

(** [x / 1024] on a float. *)
Definition num_div_1024 (x : pynum) : pynum :=
  match x with
  | Fin q => round_double (q / inject_Z 1024)
  | other => other
  end.

(** The ValueError of [int(s)] on an [s] it refuses.  The digits are
    counted before the rest of the string is looked at; the other message
    shows the first 200 characters of [repr(s)]. *)
Definition int_error (s : string) : exn :=
  match over_limit s with
  | Some digits =>
      Exn ValueError
        (String.append "Exceeds the limit (4300 digits) for integer string conversion: value has "
           (String.append (str_of_Z (Z.of_nat digits))
              " digits; use sys.set_int_max_str_digits() to increase the limit"))
  | None =>
      Exn ValueError
        (String.append "invalid literal for int() with base 10: "
           (of_chars (str_take_chars 200 (chars (py_repr s)))))
  end.

(** The error of [float(s)]; no handler of the program shows it. *)
Definition float_error (s : string) : exn :=
  Exn ValueError (String.append "could not convert string to float: " (py_repr s)).

(** [vram_mb / 1024] on an int: OverflowError where the quotient is beyond
    the doubles. *)
Definition overflow_error : exn :=
  Exn OtherException "integer division result too large for a float".

Definition int_div_1024 {R} (n : Z) : prog effect R pynum :=
  match div_1024 n with
  | Fin q => pure (Fin q)
  | _ => raise overflow_error
  end.

(** Lines 118-123. *)
Definition nvidia_block (nvidia_result : completed) : prog effect pynum unit :=
  if (returncode nvidia_result =? 0)%Z then
    let lines := split_lines (strip (stdout nvidia_result)) in
    match lines with
    | l0 :: _ =>
        if nonempty l0 then
          match py_int l0 with
          | None => raise (int_error l0)
          | Some vram_mb =>
              vram_gb <- int_div_1024 vram_mb ;;
              emit (Print Success [Lit "Detected NVIDIA GPU with "; Float1 vram_gb;
                                   Lit "GB VRAM"]) ;;;
              ret vram_gb
          end
        else pure tt
    | [] => pure tt
    end
  else pure tt.

(** Lines 135-139: the token [part] at place [i] of the line. *)
Definition amd_turn (parts : list string) (ip : nat * string) : prog effect pynum unit :=
  let '(i, part) := ip in
  if isdigit part && (0 <? i)%nat && String.eqb (nth (i - 1) parts "") "Total" then
    match py_int part with
    | None => raise (int_error part)
    | Some vram_mb =>
        vram_gb <- int_div_1024 vram_mb ;;
        emit (Print Success [Lit "Detected AMD GPU with "; Float1 vram_gb;
                             Lit "GB VRAM"]) ;;;
        ret vram_gb
    end
  else pure tt.

(** Lines 133-139: the tokens of one line of [rocm-smi]. *)
Definition amd_line (line : string) : prog effect pynum unit :=
  let parts := str_split line in
  for_each (enumerate parts) tt (fun _ ip => amd_turn parts ip).

(** Lines 128-141. *)
Definition amd_block (amd_result : completed) : prog effect pynum unit :=
  if (returncode amd_result =? 0)%Z then
    for_each (split_lines (stdout amd_result)) tt (fun _ line =>
      if contains "Total" line && contains "MB" line then
        try_except (amd_line line)
          (fun e => if is_value_error e then Some (pure tt) else None)
      else pure tt)
  else pure tt.

(** Lines 152-155 and 157-161: the first token that is digits once its dots
    are removed, read as a float. *)
Definition first_number (line : string) : prog effect pynum (option pynum) :=
  match find (fun part => isdigit (remove_dots part)) (str_split line) with
  | None => pure None
  | Some part =>
      match py_float part with
      | None => raise (float_error part)
      | Some x => pure (Some x)
      end
  end.

(** Lines 149-166: one line of [system_profiler]. *)
Definition apple_line (vram_gb : pynum) (line : string) : prog effect pynum pynum :=
  if contains "VRAM" line || contains "Memory" line then
    try_except
      (vram_gb' <-
         (if contains "GB" line then
            found <- first_number line ;;
            pure (match found with Some x => x | None => vram_gb end)
          else if contains "MB" line then
            found <- first_number line ;;
            pure (match found with Some vram_mb => num_div_1024 vram_mb | None => vram_gb end)
          else pure vram_gb) ;;
       if num_gt vram_gb' (of_int 0) then
         emit (Print Success [Lit "Detected Apple GPU with "; Float1 vram_gb';
                              Lit "GB VRAM"]) ;;;
         ret vram_gb'
       else pure vram_gb')
      (fun e => if is_value_error e then Some (pure vram_gb) else None)
  else pure vram_gb.

(** Lines 144-168. *)
Definition apple_block (env : gpu_env) (vram_gb : pynum) : prog effect pynum pynum :=
  if String.eqb (sys_platform env) "darwin" then
    try_except
      (result <- run profiler_argv (Some 10) (system_profiler env) ;;
       for_each (split_lines (stdout result)) vram_gb apple_line)
      (fun _ => Some (pure vram_gb))
  else pure vram_gb.

(** The whole function.  No statement that can raise follows an assignment
    to [vram_gb] outside the innermost handlers, so the two outer handlers
    see the initial value. *)
Definition detect_vram (env : gpu_env) : outcome pynum * list effect :=
  let vram_gb := of_int 0 in
  call vram_gb
    (vram_gb' <-
       try_except
         (nvidia_result <- run nvidia_argv (Some 10) (nvidia_smi env) ;;
          nvidia_block nvidia_result ;;;
          amd_result <- run rocm_argv (Some 10) (rocm_smi env) ;;
          amd_block amd_result ;;;
          vram_gb' <- apple_block env vram_gb ;;
          if num_eq vram_gb' (of_int 0) then
            print Warning "No dedicated GPU detected - using CPU mode" ;;;
            ret (of_int 0)
          else pure vram_gb')
         (fun e =>
            if is_timeout_expired e then
              Some (print Warning "GPU detection timed out" ;;; pure vram_gb)
            else
              Some (print Warning (String.append "Could not detect VRAM: " (exn_text e)) ;;;
                    pure vram_gb)) ;;
     ret vram_gb').

(** ** The HTTP client

    A response carries its status code and what [response.json()] gives:
    the decoded Python value, or a JSONDecodeError on a body that is not
    JSON. *)

Inductive decoded : Type :=
  | Json (v : pyval)
  | NotJsonBody (text : string).   (* JSONDecodeError, with its text *)

Record response : Type := Response {
  status_code : Z;
  body : decoded
}.

Definition tags_url : string := "http://localhost:11434/api/tags".
Definition generate_url : string := "http://localhost:11434/api/generate".

(** [requests.get(url, timeout=t)]: [answer] is what the network does. *)
Definition http_get {R} (url : string) (timeout : Z) (answer : outcome response)
  : prog effect R response :=
  emit (HttpGet url timeout) ;;;
  match answer with
  | Returned r => pure r
  | Raised e => raise e
  end.

(** [requests.post(url, json=payload, timeout=t)] *)
Definition http_post {R} (url : string) (payload : generate_request) (timeout : Z)
  (answer : outcome response) : prog effect R response :=
  emit (HttpPost url payload timeout) ;;;
  match answer with
  | Returned r => pure r
  | Raised e => raise e
  end.

(** [response.json()] *)
Definition response_json {R} (r : response) : prog effect R pyval :=
  match body r with
  | Json v => pure v
  | NotJsonBody text => raise (Exn JSONDecodeError text)
  end.

(** [data.get(key, default)]: only a dict has the method. *)
Definition type_name (v : pyval) : string :=
  match v with
  | PNone => "NoneType"
  | PBool _ => "bool"
  | PInt _ => "int"
  | PStr _ => "str"
  | PList _ => "list"
  | PTuple _ => "tuple"
  | PDict _ => "dict"
  end.

Definition no_get (v : pyval) : exn :=
  Exn AttributeError
    (String.append "'" (String.append (type_name v) "' object has no attribute 'get'")).

Definition py_get {R} (data : pyval) (key : string) (default : pyval)
  : prog effect R pyval :=
  match data with
  | PDict entries => pure (dict_get entries key default)
  | other => raise (no_get other)
  end.

(** Truth value of a Python value ([if not models]). *)
Definition truthy (v : pyval) : bool :=
  match v with
  | PNone => false
  | PBool b => b
  | PInt n => negb (n =? 0)%Z
  | PStr s => nonempty s
  | PList l | PTuple l => match l with [] => false | _ => true end
  | PDict l => match l with [] => false | _ => true end
  end.

(** ** start_ollama_server (lines 902-994) *)

(** The subprocess handle, as the function observes it. *)
Record server_env : Type := ServerEnv {
  first_probe : outcome response;            (* line 908 *)
  srv_platform : string;
  kill_answer : outcome completed;           (* lines 918, 920 *)
  popen_answer : option exn;                 (* line 930: [Some e] when Popen raises *)
  poll_after_start : option Z;               (* line 941 *)
  communicate_early : string * string;       (* line 942 *)
  probe : nat -> outcome response;           (* line 951, by attempt *)
  poll_in_attempt : nat -> option Z;         (* line 960, by attempt *)
  stderr_read : string;                      (* line 962 *)
  communicate_late : outcome (string * string) (* line 983 *)
}.

Definition max_attempts : nat := 45.

Definition str_of_nat (n : nat) : string := str_of_Z (Z.of_nat n).

Definition waiting_message (attempt : nat) : string :=
  String.append "Waiting for server... ("
    (String.append (str_of_nat (attempt + 1))
       (String.append "/" (String.append (str_of_nat max_attempts) ")"))).

(** Lines 970-972 and 974-976: progress every fifth attempt, then one second
    of sleep. *)
Definition wait_a_second (attempt : nat) : prog effect bool unit :=
  (if (attempt mod 5 =? 0)%nat then print Info (waiting_message attempt)
   else pure tt) ;;;
  emit (Sleep 1).

(** Lines 950-976: the body of the polling loop. *)
Definition poll_once (env : server_env) (attempt : nat) : prog effect bool unit :=
  try_except
    (response <- http_get tags_url 2 (probe env attempt) ;;
     if (status_code response =? 200)%Z then
       print Success "Ollama server started successfully!" ;;;
       emit (Sleep 2) ;;;
       ret true
     else pure tt)
    (fun e =>
       if is_connection_error e then
         Some (emit Poll ;;;
               match poll_in_attempt env attempt with
               | Some _ =>
                   emit StderrRead ;;;
                   (if nonempty (stderr_read env)
                    then print Error (String.append "Ollama process died: " (stderr_read env))
                    else print Error "Ollama process died with no error output") ;;;
                   ret false
               | None => wait_a_second attempt
               end)
       else Some (wait_a_second attempt)).

(** Lines 978-990: the loop ran out. *)
Definition loop_ran_out (env : server_env) : prog effect bool unit :=
  print Error "Failed to start Ollama server - timeout" ;;;
  (* Try to get error output *)
  try_except
    (emit (Communicate (Some 1)) ;;;
     match communicate_late env with
     | Returned (_, stderr) =>
         if nonempty stderr then print Error (String.append "Server error: " stderr)
         else pure tt
     | Raised e => raise e
     end)
    (fun _ => Some (pure tt)) ;;;
  emit Terminate ;;;
  ret false.

(** Lines 947-990: the polling loop and what follows it. *)
Definition wait_for_server (env : server_env) : prog effect bool unit :=
  for_each (seq 0 max_attempts) tt (fun _ attempt => poll_once env attempt) ;;;
  loop_ran_out env.

Definition start_ollama_server (env : server_env) : outcome bool * list effect :=
  call false
    (print Header "STARTING OLLAMA SERVER" ;;;
     (* First, check if server is already running *)
     try_except
       (response <- http_get tags_url 5 (first_probe env) ;;
        if (status_code response =? 200)%Z then
          print Success "Ollama server is already running" ;;;
          ret true
        else pure tt)
       (fun _ => Some (pure tt)) ;;;
     (* Stop any existing Ollama processes *)
     try_except
       ((if String.eqb (srv_platform env) "win32"
         then run ["taskkill"; "/f"; "/im"; "ollama.exe"] None (kill_answer env)
         else run ["pkill"; "-f"; "ollama"] None (kill_answer env)) ;;;
        emit (Sleep 2))
       (fun _ => Some (pure tt)) ;;;
     (* Start the server *)
     try_except
       (print Info "Starting Ollama server..." ;;;
        emit (Popen ["ollama"; "serve"]) ;;;
        match popen_answer env with
        | Some e => raise e
        | None =>
            emit (Sleep 5) ;;;
            emit Poll ;;;
            match poll_after_start env with
            | Some _ =>
                emit (Communicate None) ;;;
                (let '(_, stderr) := communicate_early env in
                 if nonempty stderr
                 then print Error (String.append "Ollama server failed to start: " stderr)
                 else pure tt) ;;;
                ret false
            | None => wait_for_server env
            end
        end)
       (fun e =>
          Some (print Error (String.append "Error starting Ollama server: " (exn_text e)) ;;;
                ret false))).

(** ** get_available_models (lines 996-1032) *)

Definition max_retries : nat := 3.

Definition retrying_message (what : string) (attempt : nat) : string :=
  String.append what
    (String.append (str_of_nat (attempt + 1))
       (String.append "/" (String.append (str_of_nat max_retries) ")"))).

(** One turn of the loop; the value tells whether the turn ended in
    [continue] (a retry) or reached the [break] of line 1030. *)
Definition fetch_once (fetch : nat -> outcome response) (attempt : nat)
  : prog effect pyval bool :=
  try_except
    (response <- http_get tags_url 30 (fetch attempt) ;;
     (if (status_code response =? 200)%Z then
        data <- response_json response ;;
        models <- py_get data "models" (PList []) ;;
        (if negb (truthy models) then
           print Warning "No models found. You need to pull models first." ;;;
           print Info "Try: ollama pull llama2"
         else pure tt) ;;;
        ret models
      else
        print Error (String.append "Server returned status code: "
                       (str_of_Z (status_code response)))) ;;;
     pure false)
    (fun e =>
       if is_connection_error e then
         Some (if (attempt <? max_retries - 1)%nat then
                 print Warning (retrying_message "Connection failed, retrying... (" attempt) ;;;
                 emit (Sleep 2) ;;;
                 pure true
               else
                 print Error "Cannot connect to Ollama server. Is it running?" ;;;
                 print Info "Try: ollama serve" ;;;
                 pure false)
       else if is_requests_timeout e then
         Some (if (attempt <? max_retries - 1)%nat then
                 print Warning (retrying_message "Request timeout, retrying... (" attempt) ;;;
                 emit (Sleep 2) ;;;
                 pure true
               else
                 print Error "Request to Ollama server timed out" ;;;
                 pure false)
       else
         Some (print Error (String.append "Error fetching models: " (exn_text e)) ;;;
               pure false)).

Definition get_available_models (fetch : nat -> outcome response)
  : outcome pyval * list effect :=
  call PNone
    (for_each (seq 0 max_retries) tt (fun _ attempt =>
       retry <- fetch_once fetch attempt ;;
       if retry then pure tt else break) ;;;
     ret (PList [])).

(** ** ChatGUI.process_ai_response (lines 782-817)

    The worker thread: [model_name] and [uploaded_content] are what it reads
    of the object ([hasattr(self, 'uploaded_content')]), [answer] what the
    daemon does.  [root.after] only queues the call. *)

Definition line_feed : string := String newline EmptyString.

Definition process_ai_response (model_name : string) (uploaded_content : option string)
  (answer : outcome response) (user_input : string) : outcome unit * list effect :=
  call tt
    (try_except
       ((* Prepare context with uploaded file if available *)
        let context :=
          match uploaded_content with
          | Some content =>
              String.append "File content: "
                (String.append content
                   (String.append line_feed
                      (String.append line_feed
                         (String.append "User question: " user_input))))
          | None => user_input
          end in
        response <- http_post generate_url
                      (GenerateRequest model_name context false (7 # 10) 1000 50 0 8)
                      120 answer ;;
        if (status_code response =? 200)%Z then
          data <- response_json response ;;
          response_text <- py_get data "response" (PStr "No response received") ;;
          emit (After 0 (DisplayAiResponse response_text))
        else
          emit (After 0 (DisplayError
                           (String.append "API error: " (str_of_Z (status_code response))))))
       (fun e =>
          Some (emit (After 0 (DisplayError (String.append "Error: " (exn_text e))))))).

(** ** ChatGUI: the window as a record

    Each widget is kept by what the program sets and reads of it.  Calls on
    widgets are state updates; the Tk calls themselves are taken not to
    fail. *)

Inductive widget_state : Type := NORMAL | DISABLED.

(** One [chat_text.insert]: the text, and the colour and font of its tag if
    it has one.  The tag's name (built from the length of the text) only
    carries these two; the formatted message [f"{message}"] is kept as the
    value formatted. *)
Record insertion : Type := Insertion {
  ins_prefix : string;
  ins_value : option pyval;
  ins_suffix : string;
  ins_tag : option (pyval * pyval)
}.

Record gui : Type := Gui {
  model_name : string;
  config : gmap string pyval;
  chat_text : list insertion;
  chat_state : widget_state;
  input_entry : string;
  send_btn : widget_state;
  upload_btn : widget_state;
  status_label : string * string;          (* text, fg *)
  uploaded : option string;                (* the attribute uploaded_content, once set *)
  dialogs : list (string * string);        (* messagebox.showerror(title, message) *)
  threads : list string;                   (* started workers, by their user_input *)
  after_queue : list callback              (* calls queued by root.after *)
}.

(** Lines 360-367. *)
Definition default_config : gmap string pyval :=
  <["user_font" := PTuple [PStr "Arial"; PInt 12]]>
  (<["user_color" := PStr "#00ff00"]>
  (<["agent_font" := PTuple [PStr "Arial"; PInt 12]]>
  (<["agent_color" := PStr "#ff4444"]>
  (<["bg_color" := PStr "#2b2b2b"]>
  (<["text_color" := PStr "#ffffff"]> ∅))))).

(** [self.config[key]]; the six keys are always present. *)
Definition config_at (st : gui) (key : string) : pyval :=
  default PNone (config st !! key).

Definition set_chat (st : gui) (text : list insertion) (state : widget_state) : gui :=
  Gui (model_name st) (config st) text state (input_entry st) (send_btn st)
      (upload_btn st) (status_label st) (uploaded st) (dialogs st) (threads st)
      (after_queue st).

Definition set_input (st : gui) (text : string) : gui :=
  Gui (model_name st) (config st) (chat_text st) (chat_state st) text (send_btn st)
      (upload_btn st) (status_label st) (uploaded st) (dialogs st) (threads st)
      (after_queue st).

Definition set_status (st : gui) (text fg : string) : gui :=
  Gui (model_name st) (config st) (chat_text st) (chat_state st) (input_entry st)
      (send_btn st) (upload_btn st) (text, fg) (uploaded st) (dialogs st) (threads st)
      (after_queue st).

Definition set_buttons (st : gui) (state : widget_state) : gui :=
  Gui (model_name st) (config st) (chat_text st) (chat_state st) (input_entry st)
      state state (status_label st) (uploaded st) (dialogs st) (threads st)
      (after_queue st).

Definition set_uploaded (st : gui) (content : string) : gui :=
  Gui (model_name st) (config st) (chat_text st) (chat_state st) (input_entry st)
      (send_btn st) (upload_btn st) (status_label st) (Some content) (dialogs st)
      (threads st) (after_queue st).

Definition show_error (st : gui) (title message : string) : gui :=
  Gui (model_name st) (config st) (chat_text st) (chat_state st) (input_entry st)
      (send_btn st) (upload_btn st) (status_label st) (uploaded st)
      (dialogs st ++ [(title, message)]) (threads st) (after_queue st).

Definition set_threads (st : gui) (ts : list string) : gui :=
  Gui (model_name st) (config st) (chat_text st) (chat_state st) (input_entry st)
      (send_btn st) (upload_btn st) (status_label st) (uploaded st) (dialogs st) ts
      (after_queue st).

Definition set_after_queue (st : gui) (q : list callback) : gui :=
  Gui (model_name st) (config st) (chat_text st) (chat_state st) (input_entry st)
      (send_btn st) (upload_btn st) (status_label st) (uploaded st) (dialogs st)
      (threads st) q.

(** add_message (lines 728-753); [color] is [None] when left out. *)
Definition add_message (st : gui) (sender : string) (message : pyval)
  (color : option string) : gui :=
  let st := set_chat st (chat_text st) NORMAL in
  let '(tag_color, tag_font) :=
    if String.eqb sender "You" then
      (config_at st "user_color", config_at st "user_font")
    else if String.eqb sender "Agent" then
      (config_at st "agent_color", config_at st "agent_font")
    else
      (PStr (match color with
             | Some c => if nonempty c then c else "#ffff00"
             | None => "#ffff00"
             end),
       PTuple [PStr "Arial"; PInt 10]) in
  (* Insert the message *)
  let text := chat_text st
                ++ [Insertion (String.append sender ": ") None "" (Some (tag_color, tag_font))]
                ++ [Insertion "" (Some message) (String.append line_feed line_feed) None] in
  set_chat st text DISABLED.

(** clear_chat (lines 755-760) *)
Definition clear_chat (st : gui) : gui :=
  let st := set_chat st (chat_text st) NORMAL in
  let st := set_chat st [] NORMAL in
  let st := set_chat st (chat_text st) DISABLED in
  add_message st "System" (PStr "Chat cleared") (Some "#ffff00").

(** send_message (lines 762-780) *)
Definition send_message (st : gui) : gui :=
  let user_input := strip (input_entry st) in
  if negb (nonempty user_input) then st
  else
    (* Clear input *)
    let st := set_input st "" in
    (* Add user message to chat *)
    let st := add_message st "You" (PStr user_input) None in
    (* Update status *)
    let st := set_status st "Thinking..." "#ffff00" in
    let st := set_buttons st DISABLED in
    (* Send to AI in separate thread *)
    set_threads st (threads st ++ [user_input]).

(** display_ai_response (lines 819-824) *)
Definition display_ai_response (st : gui) (response_text : pyval) : gui :=
  let st := add_message st "Agent" response_text None in
  let st := set_status st "Ready" "#00ff00" in
  set_buttons st NORMAL.

(** display_error (lines 826-831) *)
Definition display_error (st : gui) (error_msg : string) : gui :=
  let st := add_message st "System" (PStr error_msg) (Some "#ff4444") in
  let st := set_status st "Error" "#ff4444" in
  set_buttons st NORMAL.

(** [os.path.basename] on a POSIX path: what follows the last slash. *)
Fixpoint basename_from (cur : string) (s : string) : string :=
  match s with
  | EmptyString => cur
  | String c s' =>
      if Ascii.eqb c "/" then basename_from EmptyString s'
      else basename_from (String.append cur (String c EmptyString)) s'
  end.
Definition basename (path : string) : string := basename_from EmptyString path.

(** [content[:n]] *)
Definition str_take (n : nat) (s : string) : string := String.substring 0 n s.

(** upload_file (lines 547-573): [file_path] is the answer of the file
    dialog (empty when cancelled), [read] what opening and reading that file
    gives. *)
(** The opening of the message of line 566: the characters u-umlaut,
    i-grave and e-acute and the text after them.  The source has the
    character U+F8FF before them, which is beyond the characters kept here
    (code points below 256) and is left out. *)
Definition uploaded_tag : string :=
  String (ascii_of_nat 252) (String (ascii_of_nat 236) (String (ascii_of_nat 233)
    " Uploaded file: ")).

Definition upload_file (st : gui) (file_path : string) (read : outcome string) : gui :=
  if nonempty file_path then
    match read with
    | Returned content =>
        (* Add file info to chat *)
        let st := add_message st "System"
                    (PStr (String.append uploaded_tag
                             (String.append (basename file_path)
                                (String.append line_feed
                                   (String.append "Content preview: "
                                      (String.append (str_take 200 content) "..."))))))
                    (Some "#ffff00") in
        (* Store file content for context *)
        let st := set_uploaded st content in
        set_status st (String.append "File uploaded: " (basename file_path)) "#ffff00"
    | Raised e =>
        show_error st "Upload Error" (String.append "Could not read file: " (exn_text e))
    end
  else st.

(** ** The window as an event-driven machine

    What can happen to the window between two moments: the user types in
    the entry, presses Return in it (bound to send_message, line 485),
    clicks a button (a disabled button ignores the click), the [i]-th
    pending worker thread does its request, or the event loop runs the next
    queued call. *)

Inductive event : Type :=
  | TypeText (text : string)
  | PressReturn
  | ClickSend
  | ClickUpload (file_path : string) (read : outcome string)
  | ClickClear
  | WorkerRuns (i : nat) (answer : outcome response)
  | RunQueued.

(** The calls a worker queued, out of its effects. *)
Fixpoint queued (log : list effect) : list callback :=
  match log with
  | [] => []
  | After _ cb :: rest => cb :: queued rest
  | _ :: rest => queued rest
  end.

Definition step (st : gui) (ev : event) : gui :=
  match ev with
  | TypeText text => set_input st text
  | PressReturn => send_message st
  | ClickSend =>
      match send_btn st with NORMAL => send_message st | DISABLED => st end
  | ClickUpload file_path read =>
      match upload_btn st with NORMAL => upload_file st file_path read | DISABLED => st end
  | ClickClear => clear_chat st
  | WorkerRuns i answer =>
      match threads st !! i with
      | None => st
      | Some user_input =>
          let '(_, log) := process_ai_response (model_name st) (uploaded st) answer user_input in
          set_after_queue (set_threads st (delete i (threads st)))
            (after_queue st ++ queued log)
      end
  | RunQueued =>
      match after_queue st with
      | [] => st
      | cb :: rest =>
          let st := set_after_queue st rest in
          match cb with
          | DisplayAiResponse response_text => display_ai_response st response_text
          | DisplayError error_msg => display_error st error_msg
          end
      end
  end.

Definition run_events (st : gui) (evs : list event) : gui := fold_left step evs st.

(** Requests sent whose answer is not on display yet. *)
Definition in_flight (st : gui) : nat := length (threads st) + length (after_queue st).

(** The window when setup_gui returns (lines 443-536). *)
Definition initial_gui (name : string) (cfg : gmap string pyval) : gui :=
  Gui name cfg [] DISABLED "" NORMAL NORMAL ("Ready", "#00ff00") None [] [] [].

(** ** The preference file: save_config and load_config (lines 372-388)

    [json.dump] writes lists and tuples alike as arrays; [json.load] reads
    an array as a list.  The encoder and the decoder of the [json] module
    are taken to be inverse on documents, so the file is kept as the
    document it holds. *)

Fixpoint to_json (v : pyval) : json :=
  match v with
  | PNone => JNull
  | PBool b => JBool b
  | PInt n => JInt n
  | PStr s => JStr s
  | PList items | PTuple items => JArr (map to_json items)
  | PDict entries => JObj (map (fun kv => (fst kv, to_json (snd kv))) entries)
  end.

Fixpoint of_json (j : json) : pyval :=
  match j with
  | JNull => PNone
  | JBool b => PBool b
  | JInt n => PInt n
  | JStr s => PStr s
  | JArr items => PList (map of_json items)
  | JObj members => PDict (map (fun kv => (fst kv, of_json (snd kv))) members)
  end.

(** What a value becomes on its way through the file. *)
Fixpoint listified (v : pyval) : pyval :=
  match v with
  | PList items | PTuple items => PList (map listified items)
  | PDict entries => PDict (map (fun kv => (fst kv, listified (snd kv))) entries)
  | other => other
  end.

(** No tuple anywhere in the value. *)
Fixpoint tuple_free (v : pyval) : bool :=
  match v with
  | PTuple _ => false
  | PList items => forallb tuple_free items
  | PDict entries => forallb (fun kv => tuple_free (snd kv)) entries
  | _ => true
  end.

(** chat_config.json: absent, holding text that is not JSON, holding an
    object (what save_config writes), or holding any JSON document, such as
    an array in a file edited by hand. *)
Inductive config_file : Type :=
  | Absent
  | NotJson
  | Document (members : list (string * json))
  | OtherDocument (j : json).

(** save_config: [writable] tells whether [open(..., 'w')] succeeds; a
    failure is swallowed by the bare [except].  The config is one whose keys
    are strings. *)
Definition save_config (cfg : gmap string pyval) (writable : bool) (file : config_file)
  : config_file :=
  if writable
  then Document (map (fun kv => (fst kv, to_json (snd kv))) (map_to_list cfg))
  else file.

(** [self.config.update(saved_config)] *)
Definition dict_update (cfg : gmap string pyval) (saved : list (string * pyval))
  : gmap string pyval :=
  fold_left (fun m kv => <[fst kv := snd kv]> m) saved cfg.

(** The keys of a decoded object, each once, in the order of their first
    entry. *)
Fixpoint distinct_keys (members : list (string * json)) : list string :=
  match members with
  | [] => []
  | (k, _) :: rest =>
      k :: List.filter (fun k' => negb (String.eqb k' k)) (distinct_keys rest)
  end.

(** What [dict.update] makes of one element of a sequence: a key and a
    value when the element is a sequence of two (an array of two, a string
    of two characters, an object of two keys) whose first can be hashed. *)
Inductive update_item : Type :=
  | Entry (key : string) (value : pyval)
  | OtherKey               (* a key that is no string: None, a boolean, a number *)
  | Refused.               (* TypeError or ValueError *)

Definition pair_of (item : json) : update_item :=
  match item with
  | JArr [key; value] =>
      match key with
      | JStr k => Entry k (of_json value)
      | JNull | JBool _ | JInt _ => OtherKey
      | JArr _ | JObj _ => Refused
      end
  | JStr s =>
      match chars s with
      | [a; b] => Entry (of_chars [a]) (PStr (of_chars [b]))
      | _ => Refused
      end
  | JObj members =>
      match distinct_keys members with
      | [k1; k2] => Entry k1 (PStr k2)
      | _ => Refused
      end
  | _ => Refused
  end.

(** [self.config.update(items)] on a list: the elements are taken in order
    up to the first one refused, whose exception the bare [except] of
    load_config swallows; what was set before it stays. *)
Fixpoint update_pairs (cfg : gmap string pyval) (items : list json) : gmap string pyval :=
  match items with
  | [] => cfg
  | item :: rest =>
      match pair_of item with
      | Entry k v => update_pairs (<[k := v]> cfg) rest
      | OtherKey => update_pairs cfg rest
      | Refused => cfg
      end
  end.

(** [self.config.update(saved_config)] on what [json.load] gives.  A string,
    a number, true, false or null makes it raise before anything is set (the
    empty string sets nothing).  [self.config] is kept by its entries under
    string keys, the ones the program reads; an array can also set entries
    under None, a boolean or a number, which are not kept here. *)
Definition update_from (cfg : gmap string pyval) (j : json) : gmap string pyval :=
  match j with
  | JObj members => dict_update cfg (map (fun kv => (fst kv, of_json (snd kv))) members)
  | JArr items => update_pairs cfg items
  | _ => cfg
  end.

(** load_config: [readable] tells whether [open(..., 'r')] succeeds. *)
Definition load_config (cfg : gmap string pyval) (readable : bool) (file : config_file)
  : gmap string pyval :=
  match file with
  | Absent => cfg
  | NotJson => cfg
  | Document members =>
      if readable
      then dict_update cfg (map (fun kv => (fst kv, of_json (snd kv))) members)
      else cfg
  | OtherDocument j => if readable then update_from cfg j else cfg
  end.

(** The string keys a document can set. *)
Definition document_keys (j : json) : list string :=
  match j with
  | JObj members => map fst members
  | JArr items =>
      flat_map (fun item => match pair_of item with Entry k _ => [k] | _ => [] end) items
  | _ => []
  end.

Definition file_keys (file : config_file) : list string :=
  match file with
  | Document members => map fst members
  | OtherDocument j => document_keys j
  | _ => []
  end.

(** ** install_recommended_models (lines 1117-1165) *)

(** get_system_info (lines 85-106): [ram] is [None] without psutil, and
    otherwise what [psutil.virtual_memory()] gives, total and available
    bytes. *)
Record system_info : Type := SystemInfo {
  ram_total_gb : pynum;
  ram_available_gb : pynum;
  vram_gb : pynum
}.

(** [bytes / (1024**3)] on an int, rounded; an infinity stands where the
    division raises OverflowError. *)
Definition gib (bytes : Z) : pynum := round_double (bytes # (1024 * 1024 * 1024)).

Definition get_system_info (ram : option (outcome (Z * Z))) (env : gpu_env)
  : prog effect (option string) system_info :=
  let '(total, available) :=
    match ram with
    | Some (Returned (total, available)) =>
        match gib total, gib available with
        | Fin total_gb, Fin available_gb => (Fin total_gb, Fin available_gb)
        | _, _ => (of_int 4, of_int 2)          (* OverflowError: default assumption *)
        end
    | Some (Raised _) => (of_int 4, of_int 2)   (* Default assumption *)
    | None => (of_int 4, of_int 2)              (* Default assumption *)
    end in
  (* Get VRAM info *)
  v <- invoke (detect_vram env) ;;
  pure (SystemInfo total available v).

(** What the user does at an [input()] prompt. *)
Inductive keyboard : Type :=
  | Line (text : string)
  | Interrupt                       (* KeyboardInterrupt *)
  | EndOfInput.                     (* EOFError *)

Definition no_suitable_models : string := "No suitable models found for your system.".

Definition recommendation_line (i : nat) (m : recommendation) : list fragment :=
  [Lit (str_of_nat i); Lit ". "; Lit (name m); Lit " ("; FloatRepr (Fin (size_gb m));
   Lit "GB) - "; Lit (description m)].

(** Lines 1143-1165: the menu, over what is typed; [install] is
    install_specific_model.  Running out of typed lines is [EOFError], which
    no clause catches. *)
Definition eof : exn := Exn OtherException "EOF when reading a line".
Definition select_prompt : string :=
  String.append line_feed "Select model to install (1-5): ".
Definition name_prompt : string := "Enter model name (e.g., 'llama2:7b'): ".

Fixpoint select_model (install : string -> option string)
  (recommendations : list recommendation) (typed : list keyboard)
  : prog effect (option string) unit :=
  match typed with
  | [] => emit (Input select_prompt) ;;; raise eof
  | EndOfInput :: _ => emit (Input select_prompt) ;;; raise eof
  | Interrupt :: _ => emit (Input select_prompt) ;;; ret None
  | Line text :: rest =>
      emit (Input select_prompt) ;;;
      let choice := strip text in
      if String.eqb choice "5" then ret None
      else if String.eqb choice "4" then
        emit (Input name_prompt) ;;;
        match rest with
        | [] => raise eof
        | EndOfInput :: _ => raise eof
        | Interrupt :: _ => ret None
        | Line text' :: rest' =>
            let model_name := strip text' in
            if nonempty model_name then ret (install model_name)
            else print Error "Invalid model name" ;;; select_model install recommendations rest'
        end
      else
        match py_int choice with
        | None => print Error "Please enter a number" ;;;
                  select_model install recommendations rest
        | Some n =>
            let index := n - 1 in
            if (0 <=? index)%Z && (index <? Z.of_nat (length recommendations))%Z then
              match nth_error recommendations (Z.to_nat index) with
              | Some selected => ret (install (name selected))
              | None => raise (Exn OtherException "list index out of range")
              end
            else print Error "Invalid selection" ;;;
                 select_model install recommendations rest
        end
  end.

Definition install_recommended_models (ram : option (outcome (Z * Z))) (env : gpu_env)
  (install : string -> option string) (typed : list keyboard)
  : outcome (option string) * list effect :=
  call None
    (print Header "MODEL RECOMMENDATION" ;;;
     (* Get system info *)
     system_info <- get_system_info ram env ;;
     let vram_gb := vram_gb system_info in
     let ram_gb := ram_total_gb system_info in
     emit (Print Info [Lit "Detected System: "; Float1 vram_gb; Lit "GB VRAM, ";
                       Float1 ram_gb; Lit "GB RAM"]) ;;;
     (* Get recommendations *)
     let recommendations := get_recommended_models vram_gb ram_gb in
     match recommendations with
     | [] =>
         print Error no_suitable_models ;;;
         ret None
     | _ =>
         (* Display recommendations *)
         print Info "Recommended models for your system:" ;;;
         for_each (combine (seq 1 (length recommendations)) recommendations) tt
           (fun _ im => emit (Print Plain (recommendation_line (fst im) (snd im)))) ;;;
         print Plain "4. Manual model entry" ;;;
         print Plain "5. Skip model installation" ;;;
         select_model install recommendations typed
     end).

(** The line install_recommended_models prints when it has nothing to
    recommend. *)
Definition is_no_suitable (e : effect) : bool :=
  match e with
  | Print Error [Lit text] => String.eqb text no_suitable_models
  | _ => false
  end.

Definition quiet (e : effect) : Prop := is_no_suitable e = false.

(** A block that does not end by raising. *)
Definition safe {E R A} (m : prog E R A) : Prop :=
  match fst m with
  | Throw _ => False
  | _ => True
  end.

(** The commands handed to [subprocess.run], in order. *)
Fixpoint commands (log : list effect) : list (list string) :=
  match log with
  | [] => []
  | Run argv _ :: rest => argv :: commands rest
  | _ :: rest => commands rest
  end.

(** A machine with an AMD card: no [nvidia-smi] to run, and a [rocm-smi]
    that reports 8192 MB. *)
Definition amd_machine : gpu_env :=
  GpuEnv (Raised (Exn FileNotFoundError "[Errno 2] No such file or directory: 'nvidia-smi'"))
         (Returned (Completed 0 "GPU[0] : VRAM Total 8192 MB" ""))
         "linux"
         (Raised (Exn FileNotFoundError "[Errno 2] No such file or directory: 'system_profiler'")).

(** The same card on a machine where [nvidia-smi] is installed and finds no
    device. *)
Definition amd_machine_with_nvidia_smi : gpu_env :=
  GpuEnv (Returned (Completed 9 "" "NVIDIA-SMI has failed"))
         (rocm_smi amd_machine) (sys_platform amd_machine) (system_profiler amd_machine).

Definition is_run (e : effect) : bool :=
  match e with Run _ _ => true | _ => false end.

(** A block that runs the commands [L] in order: all of them when it falls
    through, a first part of them when it ends otherwise. *)
Definition runs_in_order {R A} (L : list (list string)) (m : prog effect R A) : Prop :=
  (exists rest, L = commands (snd m) ++ rest) /\
  (forall a, fst m = Next a -> commands (snd m) = L).

(** The tools detect_vram may run on a platform. *)
Definition tools_of (platform : string) : list (list string) :=
  [nvidia_argv; rocm_argv] ++
  (if String.eqb platform "darwin" then [profiler_argv] else []).

(** ** Observations on the polling loop of start_ollama_server *)

(** The attempt was answered with HTTP 200. *)
Definition ok_200 (answer : outcome response) : bool :=
  match answer with
  | Returned r => (status_code r =? 200)%Z
  | Raised _ => false
  end.

(** The attempt met a connection error and found the process exited. *)
Definition died_at (env : server_env) (attempt : nat) : bool :=
  match probe env attempt with
  | Raised e =>
      is_connection_error e &&
      match poll_in_attempt env attempt with Some _ => true | None => false end
  | Returned _ => false
  end.

(** The attempt raised and the loop went on: any exception but a connection
    error on an exited process. *)
Definition raised_and_waits (env : server_env) (attempt : nat) : bool :=
  match probe env attempt with
  | Raised _ => negb (died_at env attempt)
  | Returned _ => false
  end.

Definition attempts : list nat := seq 0 max_attempts.

(** The loop of lines 949-976 over any list of attempts. *)
Definition poll_loop (env : server_env) (xs : list nat) : prog effect bool unit :=
  for_each xs tt (fun _ attempt => poll_once env attempt).

Definition no_attempt_ok (env : server_env) : bool :=
  forallb (fun i => negb (ok_200 (probe env i))) attempts.

Definition never_died (env : server_env) : bool :=
  forallb (fun i => negb (died_at env i)) attempts.

Definition is_probe (e : effect) : bool :=
  match e with HttpGet _ _ | HttpPost _ _ _ => true | _ => false end.

Definition count_probes (log : list effect) : nat := length (List.filter is_probe log).

Definition is_terminate (e : effect) : bool :=
  match e with Terminate => true | _ => false end.

(** Every request of the log is [GET /api/tags] with the given time limit. *)
Definition only_get_tags (timeout : Z) (e : effect) : Prop :=
  is_probe e = true -> e = HttpGet tags_url timeout.

Definition progress (attempt : nat) : list effect :=
  if (attempt mod 5 =? 0)%nat then [Print Info [Lit (waiting_message attempt)]] else [].

(** A server whose process exits at once: the first probe is refused and
    [poll] finds an exit status. *)
Definition dead_server : server_env :=
  ServerEnv (Raised (Exn RequestsConnectionError "Connection refused")) "linux"
            (Returned (Completed 1 "" "")) None None ("", "")
            (fun _ => Raised (Exn RequestsConnectionError "Connection refused"))
            (fun _ => Some 1) "" (Returned ("", "")).

(** A server that never answers while its process stays up. *)
Definition silent_server : server_env :=
  ServerEnv (Raised (Exn RequestsConnectionError "Connection refused")) "linux"
            (Returned (Completed 1 "" "")) None None ("", "")
            (fun _ => Raised (Exn RequestsConnectionError "Connection refused"))
            (fun _ => None) "" (Returned ("", "")).

(** ** Observations on get_available_models and process_ai_response *)

(** A failure the loop of get_available_models retries. *)
Definition retryable (answer : outcome response) : bool :=
  match answer with
  | Raised e => is_connection_error e || is_requests_timeout e
  | Returned _ => false
  end.

(** The attempt that decides the result: the first one that is not a
    retryable failure, or the third. *)
Definition deciding_attempt (fetch : nat -> outcome response) : nat :=
  if retryable (fetch 0%nat) then
    if retryable (fetch 1%nat) then 2%nat else 1%nat
  else 0%nat.

(** What one answer is turned into. *)
Definition models_of (answer : outcome response) : pyval :=
  match answer with
  | Returned r =>
      if (status_code r =? 200)%Z then
        match body r with
        | Json (PDict entries) => dict_get entries "models" (PList [])
        | _ => PList []
        end
      else PList []
  | Raised _ => PList []
  end.

Definition is_list (v : pyval) : bool :=
  match v with PList _ => true | _ => false end.

(** The answer is HTTP 200 with a JSON object whose "models" entry is
    there and is not a list. *)
Definition models_entry_not_a_list (answer : outcome response) : bool :=
  match answer with
  | Returned r =>
      (status_code r =? 200)%Z &&
      match body r with
      | Json (PDict entries) => negb (is_list (dict_get entries "models" (PList [])))
      | _ => false
      end
  | Raised _ => false
  end.

Definition is_sleep (seconds : Z) (e : effect) : bool :=
  match e with Sleep s => (s =? seconds)%Z | _ => false end.

Definition is_any_sleep (e : effect) : bool :=
  match e with Sleep _ => true | _ => false end.

Definition count (p : effect -> bool) (log : list effect) : nat :=
  length (List.filter p log).

(** How one turn of the loop of get_available_models ends: with a retry
    ([Next true]), at the [break] ([Next false]), or with the models. *)
Definition turn (answer : outcome response) (attempt : nat) : flow pyval bool :=
  if retryable answer then Next (attempt <? 2)%nat
  else
    match answer with
    | Returned r =>
        if (status_code r =? 200)%Z then
          match body r with
          | Json (PDict entries) => Ret (dict_get entries "models" (PList []))
          | _ => Next false
          end
        else Next false
    | Raised _ => Next false
    end.

(** The daemon answers 200 with [{"models": null}]. *)
Definition null_models : nat -> outcome response :=
  fun _ => Returned (Response 200 (Json (PDict [("models", PNone)]))).

(** The prompt sent for a message (lines 786-788). *)
Definition context_of (uploaded_content : option string) (user_input : string) : string :=
  match uploaded_content with
  | Some content =>
      String.append "File content: "
        (String.append content
           (String.append line_feed
              (String.append line_feed
                 (String.append "User question: " user_input))))
  | None => user_input
  end.

(** What process_ai_response asks the window to show, by the answer. *)
Definition shown_for (answer : outcome response) : callback :=
  match answer with
  | Raised e => DisplayError (String.append "Error: " (exn_text e))
  | Returned r =>
      if (status_code r =? 200)%Z then
        match body r with
        | Json (PDict entries) =>
            DisplayAiResponse (dict_get entries "response" (PStr "No response received"))
        | Json other =>
            DisplayError (String.append "Error: " (exn_text (no_get other)))
        | NotJsonBody text => DisplayError (String.append "Error: " text)
        end
      else DisplayError (String.append "API error: " (str_of_Z (status_code r)))
  end.

(** The requests of the program go to the two endpoints of the daemon. *)
Definition daemon_endpoint (e : effect) : Prop :=
  match e with
  | HttpGet url _ => url = tags_url
  | HttpPost url _ _ => url = generate_url
  | _ => True
  end.

(** HTTP 200 with a body that is not JSON. *)
Definition not_json_200 : outcome response :=
  Returned (Response 200 (NotJsonBody "Expecting value: line 1 column 1 (char 0)")).

(** An event by which the user or the window acts; the other two are a
    worker doing its request and the event loop showing a queued answer. *)
Definition user_event (ev : event) : bool :=
  match ev with
  | WorkerRuns _ _ | RunQueued => false
  | _ => true
  end.

(** Only whitespace, or nothing at all. *)
Definition blank (s : string) : Prop := Forall (fun c => isspace c = true) (chars s).

(** Two messages sent with the Return key, none answered in between. *)
Definition two_returns : list event :=
  [TypeText "first"; PressReturn; TypeText "second"; PressReturn].

(** ** check_ollama_installed and install_ollama (lines 838-900)

    The installer is fetched by [curl] and run by [sh], or by [brew]: other
    programs, started with [subprocess.run]. *)

Record install_env : Type := InstallEnv {
  which_ollama : outcome completed;          (* line 841 *)
  local_copy : bool;                         (* line 845 *)
  inst_platform : string;
  curl_script : outcome completed;           (* line 867 *)
  run_script : outcome completed;            (* line 874 *)
  brew_install : outcome completed           (* line 884 *)
}.

Definition check_ollama_installed (env : install_env) : outcome bool * list effect :=
  call false
    (try_except
       (result <- run ["which"; "ollama"] None (which_ollama env) ;;
        if (returncode result =? 0)%Z then ret true
        else if local_copy env then ret true
        else ret false)
       (fun _ => Some (ret false))).

Definition installer_url : string := "https://ollama.ai/install.sh".

Definition install_ollama (env : install_env) : outcome bool * list effect :=
  call false
    (print Header "OLLAMA INSTALLATION" ;;;
     installed <- invoke (check_ollama_installed env) ;;
     (if installed then print Success "Ollama is already installed" ;;; ret true
      else pure tt) ;;;
     print Warning "Ollama not found. Installing..." ;;;
     (* CalledProcessError is never raised: no call passes check=True *)
     try_except
       ((* Install Ollama using the official method *)
        print Info "Downloading Ollama installer..." ;;;
        if String.eqb (inst_platform env) "linux" then
          result <- run ["curl"; "-fsSL"; installer_url] None (curl_script env) ;;
          (if negb (returncode result =? 0)%Z then
             print Error "Failed to download installer" ;;; ret false
           else pure tt) ;;;
          print Info "Running installation script..." ;;;
          install_result <-
            run ["sh"; "-c"; "curl -fsSL https://ollama.ai/install.sh | sh"] None
              (run_script env) ;;
          if (returncode install_result =? 0)%Z then
            print Success "Ollama installed successfully!" ;;; ret true
          else
            print Error (String.append "Installation failed: " (stderr install_result)) ;;;
            ret false
        else if String.eqb (inst_platform env) "darwin" then
          result <- run ["brew"; "install"; "ollama"] None (brew_install env) ;;
          if (returncode result =? 0)%Z then
            print Success "Ollama installed successfully!" ;;; ret true
          else
            print Error (String.append "Homebrew installation failed: " (stderr result)) ;;;
            ret false
        else
          print Error
            "Unsupported platform. Please install Ollama manually from https://ollama.ai" ;;;
          ret false)
       (fun e =>
          Some (print Error
                  (String.append "Unexpected error during installation: " (exn_text e)) ;;;
                ret false))).

(** ** What a block hands on

    [hands_on QR QA m]: when the block [m] returns, its value satisfies
    [QR]; when it falls through, its value satisfies [QA]. *)
Definition hands_on {E R A} (QR : R -> Prop) (QA : A -> Prop) (m : prog E R A) : Prop :=
  match fst m with
  | Next a => QA a
  | Ret r => QR r
  | Brk | Throw _ => True
  end.

(** A float that is not NaN. *)
Definition is_number (x : pynum) : Prop := is_nan x = false.

(** A Mac whose [system_profiler] reports a memory of 400 digits. *)
Definition apple_huge : gpu_env :=
  GpuEnv (Returned (Completed 9 "" "")) (Returned (Completed 1 "" "")) "darwin"
         (Returned (Completed 0
                      (String.append "      VRAM (Total): "
                         (String.append (of_chars (repeat "9"%char 400)) " GB")) "")).

(** The RAM figure install_recommended_models works with (lines 91-101,
    1124). *)
Definition ram_total_of (ram : option (outcome (Z * Z))) : pynum :=
  match ram with
  | Some (Returned (total, available)) =>
      match gib total, gib available with
      | Fin total_gb, Fin _ => Fin total_gb
      | _, _ => of_int 4
      end
  | _ => of_int 4
  end.

(** A machine whose [nvidia-smi] answers the given text with exit status 0. *)
Definition nvidia_machine (text : string) : gpu_env :=
  GpuEnv (Returned (Completed 0 text ""))
         (Raised (Exn FileNotFoundError "[Errno 2] No such file or directory: 'rocm-smi'"))
         "linux"
         (Raised (Exn FileNotFoundError "[Errno 2] No such file or directory: 'system_profiler'")).

(** What select_model may hand to install_specific_model: a recommended
    name, or a name typed at a prompt. *)
Definition picked (recommendations : list recommendation) (typed : list keyboard)
  (x : string) : Prop :=
  In x (names recommendations) \/ exists text, In (Line text) typed /\ x = strip text.

(** The seconds a run spends in [time.sleep]. *)
Fixpoint total_sleep (log : list effect) : Z :=
  match log with
  | [] => 0
  | Sleep seconds :: rest => seconds + total_sleep rest
  | _ :: rest => total_sleep rest
  end.

(** A server that already answers. *)
Definition running_server : server_env :=
  ServerEnv (Returned (Response 200 (Json (PDict [("models", PList [])])))) "linux"
            (Returned (Completed 0 "" "")) None None ("", "")
            (fun _ => Raised (Exn RequestsConnectionError "Connection refused"))
            (fun _ => None) "" (Returned ("", "")).

(** A server that answers at the third probe after its start. *)
Definition slow_server : server_env :=
  ServerEnv (Raised (Exn RequestsConnectionError "Connection refused")) "linux"
            (Returned (Completed 0 "" "")) None None ("", "")
            (fun i => if (i <? 2)%nat
                      then Raised (Exn RequestsConnectionError "Connection refused")
                      else Returned (Response 200 (Json (PDict [("models", PList [])]))))
            (fun _ => None) "" (Returned ("", "")).

(** A server that answers at the last of the 45 probes. *)
Definition late_server : server_env :=
  ServerEnv (Raised (Exn RequestsConnectionError "Connection refused")) "linux"
            (Returned (Completed 0 "" "")) None None ("", "")
            (fun i => if (i <? 44)%nat
                      then Raised (Exn RequestsConnectionError "Connection refused")
                      else Returned (Response 200 (Json (PDict [("models", PList [])]))))
            (fun _ => None) "" (Returned ("", "")).

(** Whether the event makes send_message start a worker in the state. *)
Definition sends (st : gui) (ev : event) : bool :=
  match ev with
  | PressReturn => nonempty (strip (input_entry st))
  | ClickSend =>
      match send_btn st with
      | NORMAL => nonempty (strip (input_entry st))
      | DISABLED => false
      end
  | _ => false
  end.

(** Whether the event puts an answer on display in the state. *)
Definition displays (st : gui) (ev : event) : bool :=
  match ev, after_queue st with
  | RunQueued, _ :: _ => true
  | _, _ => false
  end.

Definition is_run_queued (ev : event) : bool :=
  match ev with RunQueued => true | _ => false end.

Definition is_upload (ev : event) : bool :=
  match ev with ClickUpload _ _ => true | _ => false end.

(** ** ChatGUI.open_config: the tables, get_color_name and apply_config
    (lines 575-713)

    The dialog is kept by what it reads of the config when it opens and by
    what Apply writes back; its widgets and the preview are left out. *)

(** Lines 592-601. *)
Definition colors : list (string * string) :=
  [("Green", "#00ff00"); ("Red", "#ff4444"); ("Blue", "#4444ff"); ("Yellow", "#ffff00");
   ("Cyan", "#00ffff"); ("Magenta", "#ff00ff"); ("White", "#ffffff");
   ("Orange", "#ff8800")].

(** Line 646. *)
Definition bg_colors : list (string * string) :=
  [("Dark", "#2b2b2b"); ("Black", "#000000"); ("Gray", "#404040"); ("Blue", "#1a237e")].

(** [code == color_code], the config holding any value. *)
Definition is_code (color_code : pyval) (code : string) : bool :=
  match color_code with
  | PStr s => String.eqb code s
  | _ => false
  end.

(** KeyError shows the key quoted. *)
Definition key_error (key : string) : exn :=
  Exn OtherException (String.append "'" (String.append key "'")).

(** get_color_name (lines 708-713): the first name whose code is
    [color_code], else the first name of the table; [list(...)[0]] raises
    IndexError on an empty table. *)
Definition get_color_name (color_code : pyval) (color_dict : list (string * string))
  : outcome string :=
  match find (fun item => is_code color_code (snd item)) color_dict with
  | Some (name, _) => Returned name
  | None =>
      match color_dict with
      | (name, _) :: _ => Returned name
      | [] => Raised (Exn OtherException "list index out of range")
      end
  end.

(** [color_dict[key]] *)
Definition dict_item (color_dict : list (string * string)) (key : string) : outcome string :=
  match find (fun item => String.eqb (fst item) key) color_dict with
  | Some (_, code) => Returned code
  | None => Raised (key_error key)
  end.

(** [value[i]] on a font entry: a tuple as the program sets it, or a list
    as the file gives it; a file edited by hand can hold anything else. *)
Definition py_item (value : pyval) (i : nat) : outcome pyval :=
  match value with
  | PList items =>
      match nth_error items i with
      | Some x => Returned x
      | None => Raised (Exn OtherException "list index out of range")
      end
  | PTuple items =>
      match nth_error items i with
      | Some x => Returned x
      | None => Raised (Exn OtherException "tuple index out of range")
      end
  | PStr s =>
      match String.get i s with
      | Some c => Returned (PStr (String c EmptyString))
      | None => Raised (Exn OtherException "string index out of range")
      end
  | PDict _ => Raised (Exn OtherException (str_of_nat i))      (* KeyError: the keys are strings *)
  | PNone | PBool _ | PInt _ => Raised (Exn TypeError "object is not subscriptable")
  end.

(** [self.config[key]] *)
Definition config_item (cfg : gmap string pyval) (key : string) : outcome pyval :=
  match cfg !! key with
  | Some v => Returned v
  | None => Raised (key_error key)
  end.

Definition and_then {A B : Type} (a : outcome A) (k : A -> outcome B) : outcome B :=
  match a with
  | Returned x => k x
  | Raised e => Raised e
  end.

(** The values the seven variables are created with (lines 608-647). *)
Record preselection : Type := Preselection {
  pre_user_font : pyval;
  pre_user_size : pyval;
  pre_user_color : string;
  pre_agent_font : pyval;
  pre_agent_size : pyval;
  pre_agent_color : string;
  pre_bg_color : string
}.

Definition preselected (cfg : gmap string pyval) : outcome preselection :=
  and_then (config_item cfg "user_font") (fun user_font =>
  and_then (py_item user_font 0) (fun user_family =>
  and_then (py_item user_font 1) (fun user_size =>
  and_then (config_item cfg "user_color") (fun user_color =>
  and_then (get_color_name user_color colors) (fun user_color_name =>
  and_then (config_item cfg "agent_font") (fun agent_font =>
  and_then (py_item agent_font 0) (fun agent_family =>
  and_then (py_item agent_font 1) (fun agent_size =>
  and_then (config_item cfg "agent_color") (fun agent_color =>
  and_then (get_color_name agent_color colors) (fun agent_color_name =>
  and_then (config_item cfg "bg_color") (fun bg_color =>
  and_then (get_color_name bg_color bg_colors) (fun bg_color_name =>
  Returned (Preselection user_family user_size user_color_name
                         agent_family agent_size agent_color_name
                         bg_color_name))))))))))))).

(** What [get()] gives on each variable when Apply is pressed: a string on
    a StringVar; on an IntVar an integer, or the TclError raised on text
    that is no number (the boxes can be typed into). *)
Record choices : Type := Choices {
  user_font_var : string;
  user_size_var : outcome Z;
  user_color_var : string;
  agent_font_var : string;
  agent_size_var : outcome Z;
  agent_color_var : string;
  bg_color_var : string
}.

(** The dictionary built at lines 683-689, its values evaluated in the
    order written. *)
Definition chosen_entries (ch : choices) : outcome (list (string * pyval)) :=
  and_then (user_size_var ch) (fun user_size =>
  and_then (dict_item colors (user_color_var ch)) (fun user_color =>
  and_then (agent_size_var ch) (fun agent_size =>
  and_then (dict_item colors (agent_color_var ch)) (fun agent_color =>
  and_then (dict_item bg_colors (bg_color_var ch)) (fun bg_color =>
  Returned [("user_font", PTuple [PStr (user_font_var ch); PInt user_size]);
            ("user_color", PStr user_color);
            ("agent_font", PTuple [PStr (agent_font_var ch); PInt agent_size]);
            ("agent_color", PStr agent_color);
            ("bg_color", PStr bg_color)]))))).

(** apply_config (lines 682-693), on the config and the file.  The
    dictionary is built before [update] is called, so an exception leaves
    both as they were.  apply_new_config and the message box that follow
    act on the widgets. *)
Definition apply_config (cfg : gmap string pyval) (ch : choices) (writable : bool)
  (file : config_file) : outcome unit * (gmap string pyval * config_file) :=
  match chosen_entries ch with
  | Returned entries =>
      let cfg := dict_update cfg entries in
      (Returned tt, (cfg, save_config cfg writable file))
  | Raised e => (Raised e, (cfg, file))
  end.

(** A name of the table. *)
Definition known_name (color_dict : list (string * string)) (name : string) : bool :=
  existsb (fun item => String.eqb (fst item) name) color_dict.

(** A code of the table. *)
Definition known_code (color_dict : list (string * string)) (color_code : pyval) : bool :=
  existsb (fun item => is_code color_code (snd item)) color_dict.

(** The variables as the dialog shows them again. *)
Definition shown (ch : choices) (user_size agent_size : Z) : preselection :=
  Preselection (PStr (user_font_var ch)) (PInt user_size) (user_color_var ch)
               (PStr (agent_font_var ch)) (PInt agent_size) (agent_color_var ch)
               (bg_color_var ch).

(** ** AnimatedGIF (lines 222-329)

    Images are kept by a number each.  What Pillow does with the file is
    the environment: whether the package is there, what [Image.open] and the
    size computation give, and for each frame of the file what converting,
    resizing and wrapping it in a PhotoImage gives and the duration its
    [info] holds.  [seek] is taken to raise nothing but the EOFError that
    ends the file. *)

Record gif_frame : Type := GifFrame {
  photo : outcome nat;
  duration : option Z
}.

Record gif_env : Type := GifEnv {
  has_pil : bool;                                      (* HAS_PIL *)
  open_gif : outcome (gif_frame * list gif_frame);     (* the frames of the opened file *)
  fallback_photo : outcome nat                         (* the ball drawn at lines 284-291 *)
}.

Record animated_gif : Type := AnimatedGif {
  frames : list (option nat);      (* [None]: the placeholder used without Pillow *)
  delays : list Z;
  current_frame : nat;
  animation : option Z             (* the call [root.after] holds, by its delay *)
}.

Inductive gif_effect : Type :=
  | PrintLine (text : string)
  | ConfigureImage (image : option nat)     (* label.configure(image=...) *)
  | ConfigureText                           (* the red dot of line 311 *)
  | AfterAnimate (delay : Z)                (* root.after(delay, self.animate) *)
  | AfterCancel.

(** Lines 227-230. *)
Definition new_gif : animated_gif := AnimatedGif [] [] 0 None.

Definition set_frames (g : animated_gif) (fs : list (option nat)) (ds : list Z)
  : animated_gif :=
  AnimatedGif fs ds (current_frame g) (animation g).

(** create_fallback_image (lines 278-302) *)
Definition create_fallback_image (env : gif_env) (g : animated_gif)
  : animated_gif * list gif_effect :=
  if has_pil env
  then match fallback_photo env with
       | Returned image => (set_frames g [Some image] [1000], [])
       | Raised e =>
           (g, [PrintLine (String.append "Error creating fallback image: " (exn_text e))])
       end
  else (set_frames g [None] [1000], []).

(** The loop of lines 252-271 on the frames left to read; the frame read
    last makes [seek] raise EOFError, which breaks the loop.  An exception
    leaves the frames appended so far. *)
Fixpoint read_frames (first : gif_frame) (rest : list gif_frame) (g : animated_gif)
  : outcome unit * animated_gif :=
  match photo first with
  | Raised e => (Raised e, g)
  | Returned image =>
      let g := set_frames g (frames g ++ [Some image])
                            (delays g ++ [default 100 (duration first)]) in
      match rest with
      | [] => (Returned tt, g)
      | next :: rest => read_frames next rest g
      end
  end.

(** load_gif (lines 235-276) *)
Definition load_gif (env : gif_env) (g : animated_gif) : animated_gif * list gif_effect :=
  if negb (has_pil env)
  then create_fallback_image env g
  else
    let failed (e : exn) (g : animated_gif) :=
      let '(g, printed) := create_fallback_image env g in
      (g, PrintLine (String.append "Error loading GIF: " (exn_text e)) :: printed) in
    match open_gif env with
    | Raised e => failed e g
    | Returned (first, rest) =>
        match read_frames first rest g with
        | (Returned _, g) => (g, [])
        | (Raised e, g) => failed e g
        end
    end.

(** The constructor (lines 223-233). *)
Definition load (env : gif_env) : animated_gif * list gif_effect := load_gif env new_gif.

(** animate (lines 313-323), the label being the one start_animation was
    given. *)
Definition animate (g : animated_gif) : outcome unit * animated_gif * list gif_effect :=
  match frames g with
  | [] | None :: _ => (Returned tt, g, [])
  | Some _ :: _ =>
      match nth_error (frames g) (current_frame g) with
      | None => (Raised (Exn OtherException "list index out of range"), g, [])
      | Some image =>
          let current := (S (current_frame g) mod length (frames g))%nat in
          let delay := if (current <? length (delays g))%nat
                       then nth current (delays g) 100
                       else 100 in
          (Returned tt, AnimatedGif (frames g) (delays g) current (Some delay),
           [ConfigureImage image; AfterAnimate delay])
      end
  end.

(** start_animation (lines 304-311) *)
Definition start_animation (g : animated_gif)
  : outcome unit * animated_gif * list gif_effect :=
  match frames g with
  | Some _ :: _ => animate g
  | _ => (Returned tt, g, [ConfigureText])
  end.

(** stop_animation (lines 325-329) *)
Definition stop_animation (g : animated_gif) : animated_gif * list gif_effect :=
  match animation g with
  | Some _ => (AnimatedGif (frames g) (delays g) (current_frame g) None, [AfterCancel])
  | None => (g, [])
  end.

(** The scheduled call coming due [n] times in a row. *)
Fixpoint animate_times (n : nat) (g : animated_gif)
  : outcome unit * animated_gif * list gif_effect :=
  match n with
  | O => (Returned tt, g, [])
  | S n =>
      match animate g with
      | (Returned _, g, shown) =>
          let '(r, g, later) := animate_times n g in (r, g, shown ++ later)
      | raised => raised
      end
  end.

(** The images put on the label, and the delays asked of [root.after]. *)
Definition images_shown (es : list gif_effect) : list (option nat) :=
  flat_map (fun e => match e with ConfigureImage image => [image] | _ => [] end) es.

Definition delays_asked (es : list gif_effect) : list Z :=
  flat_map (fun e => match e with AfterAnimate delay => [delay] | _ => [] end) es.

(** ** check_gpu_availability (lines 1034-1060)

    The tools are run without arguments here, so what they answer is kept
    apart from what detect_vram is told. *)

Record probe_env : Type := ProbeEnv {
  nvidia_probe : outcome completed;       (* nvidia-smi *)
  rocm_probe : outcome completed;         (* rocm-smi *)
  probe_platform : string;                (* sys.platform *)
  profiler_probe : outcome completed      (* system_profiler SPDisplaysDataType *)
}.

Definition unknown_gpu (e : exn) : string :=
  String.append "Unknown (Error: " (String.append (exn_text e) ")").

Definition check_gpu_availability (env : probe_env) : outcome string * list effect :=
  call ""
    (try_except
       ((* Check for NVIDIA GPU *)
        nvidia_result <- run ["nvidia-smi"] (Some 10) (nvidia_probe env) ;;
        (if (returncode nvidia_result =? 0)%Z then ret "NVIDIA GPU" else pure tt) ;;;
        (* Check for AMD GPU (rocm-smi) *)
        amd_result <- run ["rocm-smi"] (Some 10) (rocm_probe env) ;;
        (if (returncode amd_result =? 0)%Z then ret "AMD GPU" else pure tt) ;;;
        (* Check for Apple Silicon *)
        (if String.eqb (probe_platform env) "darwin" then
           try_except
             (result <- run profiler_argv (Some 10) (profiler_probe env) ;;
              if contains "Apple" (stdout result) then ret "Apple Silicon" else pure tt)
             (fun _ => Some (pure tt))
         else pure tt) ;;;
        ret "CPU Only")
       (fun e => Some (ret (unknown_gpu e)))).

(** The tool ran and ended with exit status 0. *)
Definition succeeded (answer : outcome completed) : bool :=
  match answer with
  | Returned c => (returncode c =? 0)%Z
  | Raised _ => false
  end.

(** ** ensure_ollama_running (lines 1062-1080)

    The machine answers [which] the same each time it is asked.  At the
    prompt Ctrl-C raises KeyboardInterrupt and the end of the input
    EOFError; nothing in the function catches them. *)

Definition keyboard_interrupt : exn := Exn OtherException "KeyboardInterrupt".

Definition ensure_ollama_running (ienv : install_env) (senv : server_env)
  (typed : list keyboard) : outcome bool * list effect :=
  call true
    (installed <- invoke (check_ollama_installed ienv) ;;
     (if negb installed then
        ok <- invoke (install_ollama ienv) ;;
        if negb ok then
          print Error "Failed to install Ollama automatically." ;;;
          print Info "Please install Ollama manually from https://ollama.ai" ;;;
          ret false
        else pure tt
      else pure tt) ;;;
     (* Try to start server *)
     started <- invoke (start_ollama_server senv) ;;
     (if negb started then
        print Error "Automatic server startup failed." ;;;
        print Info "Please start Ollama manually in a terminal:" ;;;
        print Info "1. Open a new terminal" ;;;
        print Info "2. Run: ollama serve" ;;;
        print Info "3. Keep that terminal open" ;;;
        print Info "4. Return here and press Enter to continue" ;;;
        emit (Input "Press Enter after starting Ollama server...") ;;;
        match typed with
        | Line _ :: _ => pure tt
        | Interrupt :: _ => raise keyboard_interrupt
        | EndOfInput :: _ | [] => raise eof
        end
      else pure tt) ;;;
     ret true).

(** ** SystemChecker.install_python_dependencies (lines 59-83)

    With [check=True] a pip that ends with a non-zero exit status makes
    [subprocess.run] raise CalledProcessError, the one exception the loop
    catches.  The same package gets the same answer each time. *)

Inductive pip_outcome : Type :=
  | PipDone                                    (* exit status 0 *)
  | PipCalledProcessError (text : string)      (* non-zero exit status; [str(e)] *)
  | PipRaised (e : exn).                       (* any other exception *)

Record pip_env : Type := PipEnv {
  executable : string;                         (* sys.executable *)
  pip_install : string -> pip_outcome;
  import_psutil : bool                         (* whether [import psutil] succeeds *)
}.

Inductive dep_effect : Type :=
  | Shell (e : effect)
  | ImportPsutil
  | SetHasPsutil.                              (* HAS_PSUTIL = True *)

Definition pip_argv (env : pip_env) (dep : string) : list string :=
  [executable env; "-m"; "pip"; "install"; dep].

Definition install_python_dependencies (env : pip_env) (dependencies : list string)
  : outcome bool * list dep_effect :=
  call true
    (emit (Shell (Print Header [Lit "INSTALLING PYTHON DEPENDENCIES"])) ;;;
     for_each dependencies tt
       (fun _ dep =>
          emit (Shell (Print Info [Lit "Installing "; Lit dep; Lit "..."])) ;;;
          emit (Shell (Run (pip_argv env dep) None)) ;;;
          match pip_install env dep with
          | PipDone =>
              emit (Shell (Print Success [Lit "Successfully installed "; Lit dep]))
          | PipCalledProcessError text =>
              emit (Shell (Print Error [Lit "Failed to install "; Lit dep; Lit ": ";
                                        Lit text])) ;;;
              ret false
          | PipRaised e => raise e
          end) ;;;
     (* Reload modules if psutil was installed *)
     (if existsb (String.eqb "psutil") dependencies then
        emit ImportPsutil ;;;
        if import_psutil env then emit SetHasPsutil
        else emit (Shell (Print Warning [Lit "psutil installed but failed to load"]))
      else pure tt) ;;;
     ret true).

(** One turn of the loop. *)
Definition pip_turn (env : pip_env) (dep : string) : prog dep_effect bool unit :=
  emit (Shell (Print Info [Lit "Installing "; Lit dep; Lit "..."])) ;;;
  emit (Shell (Run (pip_argv env dep) None)) ;;;
  match pip_install env dep with
  | PipDone => emit (Shell (Print Success [Lit "Successfully installed "; Lit dep]))
  | PipCalledProcessError text =>
      emit (Shell (Print Error [Lit "Failed to install "; Lit dep; Lit ": "; Lit text])) ;;;
      ret false
  | PipRaised e => raise e
  end.

Definition pip_done (env : pip_env) (dep : string) : bool :=
  match pip_install env dep with PipDone => true | _ => false end.

(** The packages pip is run for: up to the first one that does not end with
    exit status 0, that one included. *)
Fixpoint attempted (env : pip_env) (dependencies : list string) : list string :=
  match dependencies with
  | [] => []
  | dep :: rest => dep :: (if pip_done env dep then attempted env rest else [])
  end.

(** The pip commands of a log, in order. *)
Definition pip_commands (log : list dep_effect) : list (list string) :=
  flat_map (fun e => match e with Shell (Run argv _) => [argv] | _ => [] end) log.

Definition sets_has_psutil (log : list dep_effect) : bool :=
  existsb (fun e => match e with SetHasPsutil => true | _ => false end) log.

(** What check_ollama_installed finds: [which] ended with exit status 0,
    or it ended otherwise and one of the two paths exists. *)
Definition found (env : install_env) : bool :=
  match which_ollama env with
  | Returned c => (returncode c =? 0)%Z || local_copy env
  | Raised _ => false
  end.

(** The installer of the platform ran through with exit status 0. *)
Definition installer_succeeds (env : install_env) : bool :=
  if String.eqb (inst_platform env) "linux"
  then succeeded (curl_script env) && succeeded (run_script env)
  else if String.eqb (inst_platform env) "darwin"
  then succeeded (brew_install env)
  else false.

(** ** install_specific_model (lines 1167-1199)

    The pull is kept by what the loop of lines 1181-1186 meets turn by
    turn: the line [readline] gives and, when that is empty, what [poll]
    answers.  After the turns listed the output has ended and [poll] finds
    the exit status. *)







(** The processes started, and the text the bare [print] wrote. *)
Definition started (log : list effect) : list (list string) :=
  flat_map (fun e => match e with Popen argv => [argv] | _ => [] end) log.


(** * Properties *)

(** ** Effects of composed blocks *)

Section Logs.

Context {E : Type} (P : E -> Prop).

Lemma Forall_bind {R A B} (m : prog E R A) (k : A -> prog E R B) :
  Forall P (snd m) -> (forall a, Forall P (snd (k a))) -> Forall P (snd (bind m k)).
Proof.
  intros Hm Hk. destruct m as [[a| |r|e] l]; simpl in *; try assumption.
  specialize (Hk a). destruct (k a) as [f l']. simpl in *.
  apply Forall_app. split; assumption.
Qed.

Lemma Forall_try_except {R A} (m : prog E R A) (h : exn -> option (prog E R A)) :
  Forall P (snd m) ->
  (forall e, match h e with Some k => Forall P (snd k) | None => True end) ->
  Forall P (snd (try_except m h)).
Proof.
  intros Hm Hh. destruct m as [[a| |r|e] l]; simpl in *; try assumption.
  specialize (Hh e). destruct (h e) as [[f l']|]; simpl in *; [|assumption].
  apply Forall_app. split; assumption.
Qed.

Lemma Forall_for_each {R X S} (xs : list X) (s : S) (body : S -> X -> prog E R S) :
  (forall s x, Forall P (snd (body s x))) -> Forall P (snd (for_each xs s body)).
Proof.
  intros Hb. revert s. induction xs as [|x xs IH]; intros s; simpl.
  - constructor.
  - specialize (Hb s x). destruct (body s x) as [[s'| |r|e] l]; simpl in *; try assumption.
    specialize (IH s'). destruct (for_each xs s' body) as [f l']. simpl in *.
    apply Forall_app. split; assumption.
Qed.

Lemma Forall_emit {R} (e : E) : P e -> Forall P (snd (@emit E R e)).
Proof. intros H. simpl. constructor; [assumption|constructor]. Qed.

Lemma Forall_invoke {R A} (c : outcome A * list E) :
  Forall P (snd c) -> Forall P (snd (@invoke E R A c)).
Proof. destruct c as [[a|e] l]; simpl; trivial. Qed.

Lemma Forall_call {R} (d : R) (body : prog E R unit) :
  Forall P (snd body) -> Forall P (snd (call d body)).
Proof. destruct body as [[a| |r|e] l]; simpl; trivial. Qed.

End Logs.

Ltac log_step :=
  lazymatch goal with
  | |- Forall _ (snd (call _ _)) => apply Forall_call
  | |- Forall _ (snd (invoke _)) => apply Forall_invoke
  | |- Forall _ (snd (bind _ _)) => apply Forall_bind; [|intros]
  | |- Forall _ (snd (try_except _ _)) => apply Forall_try_except; [|intros]
  | |- Forall _ (snd (for_each _ _ _)) => apply Forall_for_each; intros
  | |- Forall _ (snd (emit _)) => apply Forall_emit
  | |- Forall _ (snd (print _ _)) => apply Forall_emit
  | |- Forall _ (snd (pure _)) => constructor
  | |- Forall _ (snd (ret _)) => constructor
  | |- Forall _ (snd (raise _)) => constructor
  | |- Forall _ (snd break) => constructor
  | |- Forall _ (snd (let '(_, _) := ?x in _)) => destruct x
  | |- Forall _ (snd (if ?b then _ else _)) => destruct b
  | |- Forall _ (snd (match ?x with _ => _ end)) => destruct x
  | |- match (if ?b then _ else _) with _ => _ end => destruct b
  | |- match Some _ with _ => _ end => cbv iota
  end.



Section Order.

Lemma num_le_Fin (a b : Q) : num_le (Fin a) (Fin b) = true <-> (a <= b)%Q.
Proof.
  unfold num_le. rewrite Qle_alt.
  destruct (Qcompare a b); split; congruence.
Qed.

Lemma num_lt_Fin (a b : Q) : num_lt (Fin a) (Fin b) = true <-> (a < b)%Q.
Proof.
  unfold num_lt. rewrite Qlt_alt.
  destruct (Qcompare a b); split; congruence.
Qed.

Lemma num_le_Fin_false (a b : Q) : num_le (Fin a) (Fin b) = false <-> (b < a)%Q.
Proof.
  rewrite <- not_true_iff_false, num_le_Fin. split.
  - apply Qnot_le_lt.
  - apply Qlt_not_le.
Qed.

Lemma num_lt_Fin_false (a b : Q) : num_lt (Fin a) (Fin b) = false <-> (b <= a)%Q.
Proof.
  rewrite <- not_true_iff_false, num_lt_Fin. split.
  - apply Qnot_lt_le.
  - apply Qle_not_lt.
Qed.

End Order.

(** C10 (first half): every call returns exactly three recommendations. *)
Lemma get_recommended_models_length (vram_gb ram_gb : pynum) :
  length (get_recommended_models vram_gb ram_gb) = 3%nat.
Proof.
  unfold get_recommended_models.
  destruct (num_ge vram_gb (of_int 8)); [reflexivity|].
  destruct (num_ge vram_gb (of_int 4)); [reflexivity|].
  destruct (num_gt vram_gb (of_int 0) || num_ge ram_gb (of_int 8)); reflexivity.
Qed.

Ltac num_cases :=
  repeat match goal with
  | |- context [num_le (Fin ?a) (Fin ?b)] =>
      let E := fresh "E" in
      destruct (num_le (Fin a) (Fin b)) eqn:E;
      [apply num_le_Fin in E | apply num_le_Fin_false in E]
  | |- context [num_lt (Fin ?a) (Fin ?b)] =>
      let E := fresh "E" in
      destruct (num_lt (Fin a) (Fin b)) eqn:E;
      [apply num_lt_Fin in E | apply num_lt_Fin_false in E]
  end.

Lemma tier_of_code (vram_gb ram_gb : pynum) :
  names (get_recommended_models vram_gb ram_gb) =
    if in_high vram_gb then high_vram_list
    else if in_medium vram_gb then medium_list
    else if in_low_amended vram_gb ram_gb then low_resource_list
    else minimal_list.
Proof.
  unfold get_recommended_models, in_high, in_medium, in_low_amended,
    num_ge, num_gt, of_int.
  destruct (num_le (Fin (inject_Z 8)) ram_gb) eqn:Er;
    destruct vram_gb as [q| | |]; try reflexivity.
  all: num_cases; simpl; try reflexivity; exfalso;
    unfold inject_Z, Qlt, Qle in *; simpl in *; lia.
Qed.

Ltac num_contra :=
  exfalso; unfold inject_Z, Qlt, Qle in *; simpl in *; lia.

Lemma in_medium_not_high (v : pynum) : in_medium v = true -> in_high v = false.
Proof.
  unfold in_medium, in_high, num_ge, of_int. intros H.
  destruct v as [q| | |]; try reflexivity; try discriminate H.
  revert H. num_cases; simpl; try reflexivity; try discriminate. num_contra.
Qed.

Lemma in_low_amended_not_high (v r : pynum) :
  in_low_amended v r = true -> in_high v = false.
Proof.
  unfold in_low_amended, in_high, num_ge, of_int. intros H.
  destruct v as [q| | |]; try reflexivity; try discriminate H.
  revert H. num_cases; simpl; try reflexivity; try discriminate. num_contra.
Qed.

Lemma in_low_amended_not_medium (v r : pynum) :
  in_low_amended v r = true -> in_medium v = false.
Proof.
  unfold in_low_amended, in_medium, of_int. intros H.
  destruct v as [q| | |]; try reflexivity; try discriminate H.
  revert H. num_cases; simpl; try reflexivity; try discriminate. num_contra.
Qed.

(** On numbers the table of the specification is the code's. *)
Lemma tier_of_code_number (vram_gb ram_gb : pynum) :
  is_nan vram_gb = false ->
  names (get_recommended_models vram_gb ram_gb) = spec_tier vram_gb ram_gb.
Proof.
  intros H. rewrite tier_of_code. unfold spec_tier.
  unfold in_low_amended, in_low. rewrite H, orb_false_r. reflexivity.
Qed.

Lemma in_low_number (vram_gb ram_gb : pynum) :
  is_nan vram_gb = false -> in_low_amended vram_gb ram_gb = in_low vram_gb ram_gb.
Proof. intros H. unfold in_low_amended, in_low. rewrite H, orb_false_r. reflexivity. Qed.

(** C1.  For every [vram_gb] that is a number, finite or infinite (a float
    that is not NaN; detect_vram hands on no other), and every [ram_gb], the
    names returned are those of the tier table: the high-VRAM list when
    [vram_gb >= 8]; the medium list when [4 <= vram_gb < 8]; the
    low-resource list when [vram_gb < 4] and [vram_gb > 0 or ram_gb >= 8];
    the minimal list when none of the three conditions holds. *)
Theorem C1_tier_selection (vram_gb ram_gb : pynum) :
  is_nan vram_gb = false ->
  names (get_recommended_models vram_gb ram_gb) = spec_tier vram_gb ram_gb /\
  (in_high vram_gb = true ->
     names (get_recommended_models vram_gb ram_gb) = high_vram_list) /\
  (in_medium vram_gb = true ->
     names (get_recommended_models vram_gb ram_gb) = medium_list) /\
  (in_low vram_gb ram_gb = true ->
     names (get_recommended_models vram_gb ram_gb) = low_resource_list) /\
  (in_high vram_gb = false -> in_medium vram_gb = false ->
   in_low vram_gb ram_gb = false ->
     names (get_recommended_models vram_gb ram_gb) = minimal_list).
Proof.
  intros Hnumber. split; [exact (tier_of_code_number _ _ Hnumber)|].
  rewrite tier_of_code, (in_low_number _ _ Hnumber).
  pose proof (in_low_number vram_gb ram_gb Hnumber) as Hlow. repeat split.
  - intros ->. reflexivity.
  - intros H. rewrite (in_medium_not_high _ H), H. reflexivity.
  - intros H. rewrite <- Hlow in H.
    rewrite (in_low_amended_not_high _ _ H), (in_low_amended_not_medium _ _ H).
    rewrite Hlow in H. rewrite H. reflexivity.
  - intros -> -> ->. reflexivity.
Qed.

Lemma C1_tier_selection_witness :
  names (get_recommended_models (Fin (15 # 2)) (of_int 64)) = medium_list.
Proof.
  apply (C1_tier_selection (Fin (15 # 2)) (of_int 64)); reflexivity.
Defined.

(** NaN is the one float outside the table: it fails [>= 4] without being
    below 4, so with [ram_gb >= 8] the code answers the low-resource list
    where the table reaches its last row.  No float of the program is
    NaN. *)
Remark nan_is_outside_the_table :
  names (get_recommended_models NaN (of_int 16)) = low_resource_list /\
  spec_tier NaN (of_int 16) = minimal_list /\
  low_resource_list <> minimal_list.
Proof. repeat split. discriminate. Qed.

(** The four tiers, each at an input that reaches it. *)
Example tiers_reached :
  names (get_recommended_models (of_int 12) (of_int 16)) = high_vram_list /\
  names (get_recommended_models (of_int 8) (of_int 0)) = high_vram_list /\
  names (get_recommended_models (Fin (15 # 2)) (of_int 64)) = medium_list /\
  names (get_recommended_models (of_int 4) (of_int 4)) = medium_list /\
  names (get_recommended_models (Fin (1 # 2)) (of_int 2)) = low_resource_list /\
  names (get_recommended_models (of_int 0) (of_int 8)) = low_resource_list /\
  names (get_recommended_models (of_int 0) (of_int 4)) = minimal_list /\
  names (get_recommended_models NaN (of_int 4)) = minimal_list /\
  names (get_recommended_models PosInf NaN) = high_vram_list.
Proof. repeat split. Qed.

(** ** get_recommended_models never leaves install_recommended_models
    without a menu *)

Lemma detect_vram_quiet (env : gpu_env) : Forall quiet (snd (detect_vram env)).
Proof.
  unfold detect_vram, nvidia_block, amd_block, amd_line, amd_turn, int_div_1024, apple_block,
    apple_line,
    first_number, run.
  repeat (log_step; try reflexivity).
Qed.

Lemma select_model_quiet (install : string -> option string)
  (recommendations : list recommendation) (typed : list keyboard) :
  Forall quiet (snd (select_model install recommendations typed)).
Proof.
  remember (length typed) as n eqn:Hn.
  revert typed Hn. induction n as [n IH] using lt_wf_ind. intros typed Hn.
  destruct typed as [|[text| |] rest]; cbn [select_model];
    repeat (log_step; try reflexivity).
  all: eapply IH; [|reflexivity]; subst n; simpl; lia.
Qed.

(** C10.  get_recommended_models returns exactly three entries for every
    [vram_gb] and [ram_gb], and no run of install_recommended_models prints
    "No suitable models found for your system.": the branch of line 1131 is
    never taken. *)
Theorem C10_three_recommendations :
  (forall vram_gb ram_gb : pynum,
     length (get_recommended_models vram_gb ram_gb) = 3%nat) /\
  (forall ram env install typed,
     ~ In (Print Error [Lit no_suitable_models])
          (snd (install_recommended_models ram env install typed))).
Proof.
  split; [exact get_recommended_models_length|].
  intros ram env install typed Hin.
  assert (H : Forall quiet (snd (install_recommended_models ram env install typed))).
  { unfold install_recommended_models, get_system_info.
    log_step. log_step; [log_step; reflexivity|].
    log_step.
    - destruct ram as [[[total available]|e]|];
        [destruct (gib total), (gib available)| |]; cbn iota;
        (log_step; [log_step; apply detect_vram_quiet|log_step]).
    - log_step; [log_step; reflexivity|].
      pose proof (get_recommended_models_length (vram_gb a0) (ram_total_gb a0)) as Hlen.
      destruct (get_recommended_models (vram_gb a0) (ram_total_gb a0)) as [|m ms] eqn:Hrec;
        [discriminate Hlen|].
      repeat (log_step; try reflexivity).
      apply select_model_quiet. }
  rewrite List.Forall_forall in H. specialize (H _ Hin). discriminate H.
Qed.

(** ** Blocks that do not raise *)

Section Safe.

Context {E R : Type}.

Lemma safe_bind {A B} (m : prog E R A) (k : A -> prog E R B) :
  safe m -> (forall a, safe (k a)) -> safe (bind m k).
Proof.
  unfold safe. intros Hm Hk. destruct m as [[a| |r|e] l]; simpl in *; trivial.
  specialize (Hk a). destruct (k a) as [f l']. exact Hk.
Qed.

Lemma safe_try_except {A} (m : prog E R A) (h : exn -> option (prog E R A)) :
  (forall e, match h e with Some k => safe k | None => False end) ->
  safe (try_except m h).
Proof.
  unfold safe. intros Hh. destruct m as [[a| |r|e] l]; simpl in *; trivial.
  specialize (Hh e). destruct (h e) as [[f l']|]; simpl in *; [exact Hh|contradiction].
Qed.

Lemma safe_for_each {X S} (xs : list X) (s : S) (body : S -> X -> prog E R S) :
  (forall s x, safe (body s x)) -> safe (for_each xs s body).
Proof.
  unfold safe. intros Hb. revert s. induction xs as [|x xs IH]; intros s; simpl; trivial.
  specialize (Hb s x). destruct (body s x) as [[s'| |r|e] l]; simpl in *; trivial.
  specialize (IH s'). destruct (for_each xs s' body) as [f l']. exact IH.
Qed.

Lemma call_safe (d : R) (body : prog E R unit) :
  safe body -> exists r, fst (call d body) = Returned r.
Proof.
  unfold safe. destruct body as [[a| |r|e] l]; simpl; intros H;
    [exists d|exists d|exists r|contradiction]; reflexivity.
Qed.

End Safe.

Ltac safe_step :=
  lazymatch goal with
  | |- safe (bind _ _) => apply safe_bind; [|intros]
  | |- safe (try_except _ _) => apply safe_try_except; intros
  | |- safe (for_each _ _ _) => apply safe_for_each; intros
  | |- safe (emit _) => exact I
  | |- safe (print _ _) => exact I
  | |- safe (pure _) => exact I
  | |- safe (ret _) => exact I
  | |- safe break => exact I
  | |- safe (if ?b then _ else _) => destruct b
  | |- safe (match ?x with _ => _ end) => destruct x
  | |- match (if ?b then _ else _) with _ => _ end => destruct b
  | |- match Some _ with _ => _ end => cbv iota
  end.

(** ** SystemChecker.detect_vram *)

(** detect_vram answers with a number whatever the tools do. *)
Lemma detect_vram_returns (env : gpu_env) :
  exists v, fst (detect_vram env) = Returned v.
Proof.
  unfold detect_vram. apply call_safe.
  safe_step; [|exact I]. repeat safe_step.
Qed.

(** [vram_mb / 1024], by whether the quotient fits a double. *)
Lemma int_div_1024_fits {R} (n : Z) (q : Q) :
  div_1024 n = Fin q -> @int_div_1024 R n = (Next (Fin q), []).
Proof. intros H. unfold int_div_1024. rewrite H. reflexivity. Qed.

Lemma int_div_1024_overflows {R} (n : Z) :
  overflows (div_1024 n) = true -> @int_div_1024 R n = (Throw overflow_error, []).
Proof.
  unfold int_div_1024. destruct (div_1024 n); [discriminate|reflexivity..].
Qed.

(** The NVIDIA case: exit status 0 and a first line that reads as an
    integer whose quotient by 1024 fits a double. *)
Lemma detect_vram_nvidia (env : gpu_env) (c : completed) (l0 : string)
  (ls : list string) (vram_mb : Z) (q : Q) :
  nvidia_smi env = Returned c ->
  returncode c = 0 ->
  split_lines (strip (stdout c)) = l0 :: ls ->
  nonempty l0 = true ->
  py_int l0 = Some vram_mb ->
  div_1024 vram_mb = Fin q ->
  detect_vram env =
    (Returned (Fin q),
     [Run nvidia_argv (Some 10);
      Print Success [Lit "Detected NVIDIA GPU with "; Float1 (Fin q); Lit "GB VRAM"]]).
Proof.
  intros Hrun Hrc Hlines Hne Hint Hfits.
  unfold detect_vram, run. rewrite Hrun.
  assert (Hblock : nvidia_block c =
            (Ret (Fin q),
             [Print Success [Lit "Detected NVIDIA GPU with "; Float1 (Fin q);
                             Lit "GB VRAM"]])).
  { unfold nvidia_block. rewrite Hrc, Hlines, Hne, Hint, (int_div_1024_fits _ _ Hfits).
    reflexivity. }
  cbn [emit pure bind]. rewrite Hblock. reflexivity.
Qed.

Lemma detect_vram_nvidia_witness :
  fst (detect_vram (GpuEnv (Returned (Completed 0 "24576" "")) (rocm_smi amd_machine)
                      "linux" (system_profiler amd_machine)))
  = Returned (Fin 24).
Proof.
  rewrite (detect_vram_nvidia _ (Completed 0 "24576" "") "24576" [] 24576 24);
    reflexivity.
Defined.

(** The same case with a quotient beyond the doubles: the OverflowError of
    the division reaches the outer handler. *)
Lemma detect_vram_nvidia_overflow (env : gpu_env) (c : completed) (l0 : string)
  (ls : list string) (vram_mb : Z) :
  nvidia_smi env = Returned c ->
  returncode c = 0 ->
  split_lines (strip (stdout c)) = l0 :: ls ->
  nonempty l0 = true ->
  py_int l0 = Some vram_mb ->
  overflows (div_1024 vram_mb) = true ->
  detect_vram env =
    (Returned (of_int 0),
     [Run nvidia_argv (Some 10);
      Print Warning
        [Lit "Could not detect VRAM: integer division result too large for a float"]]).
Proof.
  intros Hrun Hrc Hlines Hne Hint Hover.
  unfold detect_vram, run. rewrite Hrun.
  assert (Hblock : nvidia_block c = (Throw overflow_error, [])).
  { unfold nvidia_block.
    rewrite Hrc, Hlines, Hne, Hint, (int_div_1024_overflows _ Hover). reflexivity. }
  cbn [emit pure bind]. rewrite Hblock. reflexivity.
Qed.

(** C7, at the failing input.  On a machine where [nvidia-smi] is not
    installed, [subprocess.run] raises; the outer handler answers 0 and
    [rocm-smi] is never run, although it would report 8192 MB.  Where
    [nvidia-smi] runs and fails, the same card is read as 8192/1024. *)
Theorem C7_amd_unreached_without_nvidia_smi :
  detect_vram amd_machine =
    (Returned (of_int 0),
     [Run nvidia_argv (Some 10);
      Print Warning
        [Lit "Could not detect VRAM: [Errno 2] No such file or directory: 'nvidia-smi'"]])
  /\ fst (detect_vram amd_machine_with_nvidia_smi) = Returned (div_1024 8192)
  /\ commands (snd (detect_vram amd_machine_with_nvidia_smi)) = [nvidia_argv; rocm_argv].
Proof. repeat split. Qed.

Lemma commands_app (l1 l2 : list effect) :
  commands (l1 ++ l2) = commands l1 ++ commands l2.
Proof.
  induction l1 as [|e l1 IH]; simpl; [reflexivity|].
  destruct e; simpl; rewrite ?IH; reflexivity.
Qed.

Lemma commands_none (l : list effect) :
  Forall (fun e => is_run e = false) l -> commands l = [].
Proof.
  induction 1 as [|e l He _ IH]; simpl; [reflexivity|].
  destruct e; try discriminate He; exact IH.
Qed.

Lemma nvidia_block_runs (c : completed) : commands (snd (nvidia_block c)) = [].
Proof.
  apply commands_none. unfold nvidia_block, int_div_1024.
  repeat (log_step; try reflexivity).
Qed.

Lemma amd_block_runs (c : completed) : commands (snd (amd_block c)) = [].
Proof.
  apply commands_none. unfold amd_block, amd_line, amd_turn, int_div_1024.
  repeat (log_step; try reflexivity).
Qed.

Lemma apple_lines_runs (lines : list string) (v : pynum) :
  commands (snd (for_each lines v apple_line)) = [].
Proof.
  apply commands_none. unfold apple_line, first_number.
  repeat (log_step; try reflexivity).
Qed.

Lemma commands_bind {R A B} (m : prog effect R A) (k : A -> prog effect R B) :
  commands (snd (bind m k)) =
    commands (snd m) ++ match fst m with Next a => commands (snd (k a)) | _ => [] end.
Proof.
  destruct m as [[a| |r|e] l]; simpl; rewrite ?app_nil_r; try reflexivity.
  destruct (k a) as [f l']. simpl. apply commands_app.
Qed.

Lemma commands_try_except {R A} (m : prog effect R A) (h : exn -> option (prog effect R A)) :
  commands (snd (try_except m h)) =
    commands (snd m) ++
    match fst m with
    | Throw e => match h e with Some k => commands (snd k) | None => [] end
    | _ => []
    end.
Proof.
  destruct m as [[a| |r|e] l]; simpl; rewrite ?app_nil_r; try reflexivity.
  destruct (h e) as [[f l']|]; simpl; rewrite ?app_nil_r; [apply commands_app|reflexivity].
Qed.

Lemma commands_call {R} (d : R) (body : prog effect R unit) :
  commands (snd (call d body)) = commands (snd body).
Proof. destruct body as [[a| |r|e] l]; reflexivity. Qed.

Section Order_of_runs.

Context {R : Type}.

Lemma runs_in_order_bind {A B} (L1 L2 : list (list string))
  (m : prog effect R A) (k : A -> prog effect R B) :
  runs_in_order L1 m -> (forall a, runs_in_order L2 (k a)) ->
  runs_in_order (L1 ++ L2) (bind m k).
Proof.
  intros [[rest Hrest] Hnext] Hk. unfold runs_in_order.
  rewrite commands_bind.
  destruct m as [[a| |r|e] l]; simpl in *.
  - specialize (Hnext a eq_refl). destruct (Hk a) as [[rest' Hrest'] Hnext'].
    rewrite Hnext. split.
    + exists rest'. rewrite <- app_assoc. f_equal. exact Hrest'.
    + intros b Hb. f_equal. apply (Hnext' b).
      destruct (k a) as [f l']. exact Hb.
  - split; [|discriminate]. exists (rest ++ L2).
    rewrite app_nil_r, Hrest, <- app_assoc. reflexivity.
  - split; [|discriminate]. exists (rest ++ L2).
    rewrite app_nil_r, Hrest, <- app_assoc. reflexivity.
  - split; [|discriminate]. exists (rest ++ L2).
    rewrite app_nil_r, Hrest, <- app_assoc. reflexivity.
Qed.

Lemma runs_in_order_none {A} (m : prog effect R A) :
  commands (snd m) = [] -> runs_in_order [] m.
Proof. intros H. unfold runs_in_order. rewrite H. split; [exists []|]; reflexivity. Qed.

Lemma runs_in_order_run (argv : list string) (timeout : option Z)
  (answer : outcome completed) :
  runs_in_order [argv] (@run R argv timeout answer).
Proof.
  unfold runs_in_order, run. destruct answer; simpl; split; try (exists []); reflexivity.
Qed.

End Order_of_runs.

Lemma apple_block_order (env : gpu_env) (v : pynum) :
  runs_in_order (if String.eqb (sys_platform env) "darwin" then [profiler_argv] else [])
    (apple_block env v).
Proof.
  unfold apple_block. destruct (String.eqb (sys_platform env) "darwin").
  - unfold runs_in_order, run. destruct (system_profiler env) as [c|e].
    + pose proof (apple_lines_runs (split_lines (stdout c)) v) as Hl.
      cbn [bind emit pure].
      destruct (for_each (split_lines (stdout c)) v apple_line) as [f l].
      simpl in Hl. destruct f; simpl; rewrite ?commands_app, Hl; simpl;
        split; try (exists []); reflexivity.
    + simpl. split; try (exists []); reflexivity.
  - apply runs_in_order_none. reflexivity.
Qed.

(** The tools are run in the order of the source: [nvidia-smi] first and
    always, then [rocm-smi], then, on macOS only, [system_profiler]; a later
    tool is run only after the earlier ones. *)
Lemma detect_vram_order (env : gpu_env) :
  exists later not_run,
    commands (snd (detect_vram env)) = nvidia_argv :: later /\
    tools_of (sys_platform env) = commands (snd (detect_vram env)) ++ not_run.
Proof.
  unfold detect_vram. rewrite commands_call, commands_bind, commands_try_except.
  match goal with
  | |- context [try_except ?body _] =>
      assert (Hbody : runs_in_order (tools_of (sys_platform env)) body);
      [|set (m := body) in *]
  end.
  { assert (Heq : tools_of (sys_platform env) =
              [nvidia_argv] ++ [] ++ [rocm_argv] ++ [] ++
              (if String.eqb (sys_platform env) "darwin" then [profiler_argv] else []) ++ []).
    { unfold tools_of. rewrite app_nil_r. reflexivity. }
    rewrite Heq.
    apply runs_in_order_bind; [apply runs_in_order_run|intros c].
    apply runs_in_order_bind;
      [apply runs_in_order_none, nvidia_block_runs|intros _].
    apply runs_in_order_bind; [apply runs_in_order_run|intros c'].
    apply runs_in_order_bind;
      [apply runs_in_order_none, amd_block_runs|intros _].
    apply runs_in_order_bind; [apply apple_block_order|intros v].
    apply runs_in_order_none. destruct (num_eq v (of_int 0)); reflexivity. }
  assert (Hfirst : exists later, commands (snd m) = nvidia_argv :: later).
  { subst m. rewrite commands_bind. unfold run at 1.
    destruct (nvidia_smi env); simpl; eauto. }
  destruct Hbody as [[rest Hrest] _]. destruct Hfirst as [later Hlater].
  assert (Hquiet : forall l : list (list string),
            (l ++ match fst m with
                  | Throw e =>
                      match (if is_timeout_expired e
                             then Some (print Warning "GPU detection timed out" ;;;
                                        @pure effect pynum pynum (of_int 0))
                             else Some (print Warning
                                          (String.append "Could not detect VRAM: " (exn_text e)) ;;;
                                        pure (of_int 0))) with
                      | Some k => commands (snd k)
                      | None => []
                      end
                  | _ => []
                  end) = l).
  { intros l. destruct (fst m) as [a| |r|e]; rewrite ?app_nil_r; try reflexivity.
    destruct (is_timeout_expired e); simpl; apply app_nil_r. }
  rewrite Hquiet.
  assert (Htail : forall l : list (list string),
            l ++ match fst (try_except m (fun e =>
                          if is_timeout_expired e
                          then Some (print Warning "GPU detection timed out" ;;;
                                     @pure effect pynum pynum (of_int 0))
                          else Some (print Warning
                                       (String.append "Could not detect VRAM: " (exn_text e)) ;;;
                                     pure (of_int 0)))) with
                 | Next a => commands (snd (@ret effect pynum unit a))
                 | _ => []
                 end = l).
  { intros l. destruct (fst (try_except m _)); apply app_nil_r. }
  rewrite Htail.
  exists later, rest. split; [exact Hlater|exact Hrest].
Qed.

(** ** The AMD case, where it is reached *)

(** A loop whose first turns do nothing and whose next turn returns. *)
Lemma for_each_returns {E R X} (before after : list X) (x : X)
  (body : unit -> X -> prog E R unit) (r : R) (l : list E) :
  Forall (fun y => body tt y = (Next tt, [])) before ->
  body tt x = (Ret r, l) ->
  for_each (before ++ x :: after) tt body = (Ret r, l).
Proof.
  intros Hbefore Hx. induction Hbefore as [|y before Hy _ IH]; cbn [app for_each].
  - rewrite Hx. reflexivity.
  - rewrite Hy, IH. reflexivity.
Qed.

(** A loop whose first turns do nothing and whose next turn raises. *)
Lemma for_each_throws {E R X} (before after : list X) (x : X)
  (body : unit -> X -> prog E R unit) (e : exn) (l : list E) :
  Forall (fun y => body tt y = (Next tt, [])) before ->
  body tt x = (Throw e, l) ->
  for_each (before ++ x :: after) tt body = (Throw e, l).
Proof.
  intros Hbefore Hx. induction Hbefore as [|y before Hy _ IH]; cbn [app for_each].
  - rewrite Hx. reflexivity.
  - rewrite Hy, IH. reflexivity.
Qed.

Lemma combine_seq_app {A} (l1 l2 : list A) (k : nat) :
  combine (seq k (length (l1 ++ l2))) (l1 ++ l2) =
    combine (seq k (length l1)) l1 ++ combine (seq (k + length l1) (length l2)) l2.
Proof.
  revert k. induction l1 as [|x l1 IH]; intros k; cbn [app length seq combine].
  - rewrite Nat.add_0_r. reflexivity.
  - rewrite IH. replace (S k + length l1)%nat with (k + S (length l1))%nat by lia.
    reflexivity.
Qed.

Lemma enumerate_app {A} (l1 l2 : list A) :
  enumerate (l1 ++ l2) =
    enumerate l1 ++ combine (seq (length l1) (length l2)) l2.
Proof. unfold enumerate. apply (combine_seq_app l1 l2 0). Qed.

(** A token that is not digits is passed over. *)
Lemma amd_turn_skips (parts ps : list string) (k : nat) :
  Forall (fun p => isdigit p = false) ps ->
  Forall (fun ip => amd_turn parts ip = (Next tt, [])) (combine (seq k (length ps)) ps).
Proof.
  intros Hps. revert k. induction Hps as [|p ps Hp _ IH]; intros k;
    cbn [length seq combine]; constructor; [|apply IH].
  unfold amd_turn. rewrite Hp. reflexivity.
Qed.

(** The tokens of a line that reads [... Total <digits> ...], no token
    before being digits: amd_line divides the digits by 1024. *)
Lemma amd_line_total (line : string) (ps qs : list string) (tok : string) (n : Z) :
  str_split line = ps ++ "Total" :: tok :: qs ->
  Forall (fun p => isdigit p = false) ps ->
  isdigit tok = true ->
  py_int tok = Some n ->
  amd_line line =
    match div_1024 n with
    | Fin q =>
        (Ret (Fin q),
         [Print Success [Lit "Detected AMD GPU with "; Float1 (Fin q); Lit "GB VRAM"]])
    | _ => (Throw overflow_error, [])
    end.
Proof.
  intros Hsplit Hps Htok Hint. unfold amd_line. rewrite Hsplit.
  set (parts := ps ++ "Total" :: tok :: qs).
  assert (Henum : enumerate parts =
            (enumerate ps ++ [(length ps, "Total")]) ++
            (S (length ps), tok) :: combine (seq (S (S (length ps))) (length qs)) qs).
  { unfold parts. rewrite enumerate_app. cbn [length seq combine].
    rewrite <- app_assoc. reflexivity. }
  rewrite Henum.
  assert (Hfirst : Forall (fun ip => amd_turn parts ip = (Next tt, []))
                     (enumerate ps ++ [(length ps, "Total")])).
  { apply Forall_app. split; [apply amd_turn_skips; exact Hps|].
    constructor; [reflexivity|constructor]. }
  assert (Hturn : amd_turn parts (S (length ps), tok) =
            match div_1024 n with
            | Fin q =>
                (Ret (Fin q),
                 [Print Success [Lit "Detected AMD GPU with "; Float1 (Fin q);
                                 Lit "GB VRAM"]])
            | _ => (Throw overflow_error, [])
            end).
  { unfold amd_turn. rewrite Htok. cbn [andb Nat.ltb Nat.leb].
    replace (S (length ps) - 1)%nat with (length ps) by lia.
    unfold parts. rewrite nth_middle. cbn [String.eqb Ascii.eqb Bool.eqb].
    rewrite Hint. unfold int_div_1024. destruct (div_1024 n); reflexivity. }
  destruct (div_1024 n);
    [apply for_each_returns|apply for_each_throws..]; assumption.
Qed.

(** The AMD case: [nvidia-smi] ran and reported nothing, [rocm-smi] exits 0,
    and the first line holding both "Total" and "MB" reads
    [... Total <digits> ...]. *)
Lemma detect_vram_amd (env : gpu_env) (c c' : completed) (before after : list string)
  (line : string) (ps qs : list string) (tok : string) (n : Z) :
  nvidia_smi env = Returned c ->
  returncode c <> 0 ->
  rocm_smi env = Returned c' ->
  returncode c' = 0 ->
  split_lines (stdout c') = before ++ line :: after ->
  Forall (fun l => contains "Total" l && contains "MB" l = false) before ->
  contains "Total" line = true ->
  contains "MB" line = true ->
  str_split line = ps ++ "Total" :: tok :: qs ->
  Forall (fun p => isdigit p = false) ps ->
  isdigit tok = true ->
  py_int tok = Some n ->
  fst (detect_vram env) =
    Returned (match div_1024 n with Fin q => Fin q | _ => of_int 0 end).
Proof.
  intros Hnv Hrc Hamd Hrc' Hlines Hbefore HT HM Hsplit Hps Htok Hint.
  assert (Hnvb : nvidia_block c = (Next tt, [])).
  { unfold nvidia_block. apply Z.eqb_neq in Hrc. rewrite Hrc. reflexivity. }
  assert (Hamdb : amd_block c' =
            match div_1024 n with
            | Fin q =>
                (Ret (Fin q),
                 [Print Success [Lit "Detected AMD GPU with "; Float1 (Fin q);
                                 Lit "GB VRAM"]])
            | _ => (Throw overflow_error, [])
            end).
  { unfold amd_block. rewrite Hrc', Hlines. cbn [Z.eqb].
    pose proof (amd_line_total line ps qs tok n Hsplit Hps Htok Hint) as Hline.
    destruct (div_1024 n).
    - apply for_each_returns.
      + eapply Forall_impl; [exact Hbefore|]. intros l Hl. cbn beta. rewrite Hl. reflexivity.
      + rewrite HT, HM. cbn [andb]. rewrite Hline. reflexivity.
    - apply for_each_throws.
      + eapply Forall_impl; [exact Hbefore|]. intros l Hl. cbn beta. rewrite Hl. reflexivity.
      + rewrite HT, HM. cbn [andb]. rewrite Hline. reflexivity.
    - apply for_each_throws.
      + eapply Forall_impl; [exact Hbefore|]. intros l Hl. cbn beta. rewrite Hl. reflexivity.
      + rewrite HT, HM. cbn [andb]. rewrite Hline. reflexivity.
    - apply for_each_throws.
      + eapply Forall_impl; [exact Hbefore|]. intros l Hl. cbn beta. rewrite Hl. reflexivity.
      + rewrite HT, HM. cbn [andb]. rewrite Hline. reflexivity. }
  unfold detect_vram, run. rewrite Hnv, Hamd. cbn [emit pure bind].
  rewrite Hnvb. cbn [emit pure bind app]. rewrite Hamdb.
  destruct (div_1024 n); reflexivity.
Qed.

(** No tool reports: [nvidia-smi] and [rocm-smi] run and fail, and the
    platform is not macOS; the answer is 0. *)
Lemma detect_vram_no_gpu (env : gpu_env) (c c' : completed) :
  nvidia_smi env = Returned c -> returncode c <> 0 ->
  rocm_smi env = Returned c' -> returncode c' <> 0 ->
  String.eqb (sys_platform env) "darwin" = false ->
  fst (detect_vram env) = Returned (of_int 0).
Proof.
  intros Hnv Hrc Hamd Hrc' Hplat.
  unfold detect_vram, run, nvidia_block, amd_block, apple_block.
  apply Z.eqb_neq in Hrc, Hrc'. rewrite Hnv, Hamd, Hplat. cbn [emit pure bind].
  rewrite Hrc. cbn [emit pure bind app]. rewrite Hrc'. reflexivity.
Qed.

(** ** The polling loop of start_ollama_server *)

(** What one attempt does, by what it meets. *)
Lemma poll_once_cases (env : server_env) (attempt : nat) :
  poll_once env attempt =
    match probe env attempt with
    | Returned r =>
        if (status_code r =? 200)%Z
        then (Ret true,
              [HttpGet tags_url 2;
               Print Success [Lit "Ollama server started successfully!"];
               Sleep 2])
        else (Next tt, [HttpGet tags_url 2])
    | Raised e =>
        if is_connection_error e then
          match poll_in_attempt env attempt with
          | Some _ =>
              (Ret false,
               [HttpGet tags_url 2; Poll; StderrRead;
                Print Error
                  [Lit (if nonempty (stderr_read env)
                        then String.append "Ollama process died: " (stderr_read env)
                        else "Ollama process died with no error output")]])
          | None => (Next tt, HttpGet tags_url 2 :: Poll :: progress attempt ++ [Sleep 1])
          end
        else (Next tt, HttpGet tags_url 2 :: progress attempt ++ [Sleep 1])
    end.
Proof.
  unfold poll_once, http_get, wait_a_second, progress.
  destruct (probe env attempt) as [r|e]; simpl.
  - destruct (status_code r =? 200)%Z; reflexivity.
  - destruct (is_connection_error e); simpl.
    + destruct (poll_in_attempt env attempt); simpl.
      * destruct (nonempty (stderr_read env)); reflexivity.
      * match goal with |- context [if ?b then _ else _] => destruct b end; reflexivity.
    + match goal with |- context [if ?b then _ else _] => destruct b end; reflexivity.
Qed.

Lemma count_probes_app (l1 l2 : list effect) :
  count_probes (l1 ++ l2) = (count_probes l1 + count_probes l2)%nat.
Proof. unfold count_probes. rewrite List.filter_app, length_app. reflexivity. Qed.

Lemma count_probes_progress (attempt : nat) (l : list effect) :
  count_probes (progress attempt ++ l) = count_probes l.
Proof. unfold progress. destruct (attempt mod 5 =? 0)%nat; reflexivity. Qed.

(** Each attempt sends one request. *)
Lemma poll_once_one_probe (env : server_env) (attempt : nat) :
  count_probes (snd (poll_once env attempt)) = 1%nat.
Proof.
  rewrite poll_once_cases.
  destruct (probe env attempt) as [r|e].
  - destruct (status_code r =? 200)%Z; reflexivity.
  - destruct (is_connection_error e); [destruct (poll_in_attempt env attempt)|];
      cbn [snd]; try reflexivity.
    + change (HttpGet tags_url 2 :: Poll :: progress attempt ++ [Sleep 1])
        with ([HttpGet tags_url 2; Poll] ++ progress attempt ++ [Sleep 1]).
      rewrite count_probes_app, count_probes_progress. reflexivity.
    + change (HttpGet tags_url 2 :: progress attempt ++ [Sleep 1])
        with ([HttpGet tags_url 2] ++ progress attempt ++ [Sleep 1]).
      rewrite count_probes_app, count_probes_progress. reflexivity.
Qed.

(** An attempt that raised, the process being up, ends in one second of
    sleep and lets the loop go on. *)
Lemma poll_once_sleeps (env : server_env) (attempt : nat) :
  raised_and_waits env attempt = true ->
  fst (poll_once env attempt) = Next tt /\
  last (snd (poll_once env attempt)) = Some (Sleep 1).
Proof.
  unfold raised_and_waits, died_at. rewrite poll_once_cases.
  destruct (probe env attempt) as [r|e]; [discriminate|].
  destruct (is_connection_error e); [destruct (poll_in_attempt env attempt)|];
    simpl; try discriminate; intros _; (split; [reflexivity|]).
  - rewrite !last_cons, last_snoc. reflexivity.
  - rewrite !last_cons, last_snoc. reflexivity.
Qed.

(** An attempt that is not answered 200 and meets no death lets the loop go
    on; one that meets a death returns False. *)
Lemma poll_once_flow (env : server_env) (attempt : nat) :
  ok_200 (probe env attempt) = false ->
  fst (poll_once env attempt) = if died_at env attempt then Ret false else Next tt.
Proof.
  unfold ok_200, died_at. rewrite poll_once_cases.
  destruct (probe env attempt) as [r|e].
  - intros ->. reflexivity.
  - intros _. destruct (is_connection_error e); [destruct (poll_in_attempt env attempt)|];
      reflexivity.
Qed.

Section Poll_loop.

Variable env : server_env.

Abbreviation loop := (poll_loop env).

Lemma poll_loop_cons (x : nat) (xs : list nat) :
  loop (x :: xs) =
    match poll_once env x with
    | (Next _, l) => let (f, l') := loop xs in (f, l ++ l')
    | (Brk, l) => (Next tt, l)
    | (Ret r, l) => (Ret r, l)
    | (Throw e, l) => (Throw e, l)
    end.
Proof.
  unfold poll_loop. cbn [for_each].
  destruct (poll_once env x) as [[[]| |r|e] l]; reflexivity.
Qed.

(** The loop sends at most one request per attempt. *)
Lemma poll_loop_probes (xs : list nat) :
  (count_probes (snd (loop xs)) <= length xs)%nat.
Proof.
  induction xs as [|x xs IH]; [cbv; lia|]. rewrite poll_loop_cons.
  pose proof (poll_once_one_probe env x) as H1.
  destruct (poll_once env x) as [[[]| |r|e] l]; cbn [snd length] in *. all: try lia.
  destruct (loop xs) as [f l']. cbn [snd] in *.
  rewrite count_probes_app. lia.
Qed.

(** With no attempt answered 200 and no death, the loop runs to its end, one
    request per attempt. *)
Lemma poll_loop_exhausted (xs : list nat) :
  forallb (fun i => negb (ok_200 (probe env i))) xs = true ->
  forallb (fun i => negb (died_at env i)) xs = true ->
  fst (loop xs) = Next tt /\ count_probes (snd (loop xs)) = length xs.
Proof.
  induction xs as [|x xs IH]; [intros _ _; split; reflexivity|].
  rewrite poll_loop_cons. cbn [forallb length].
  rewrite !andb_true_iff, !negb_true_iff. intros [Hok Hoks] [Hdied Hdieds].
  specialize (IH Hoks Hdieds). destruct IH as [IHf IHc].
  pose proof (poll_once_one_probe env x) as H1.
  pose proof (poll_once_flow env x Hok) as Hf. rewrite Hdied in Hf.
  destruct (poll_once env x) as [f l]. cbn [fst snd] in *. subst f.
  destruct (loop xs) as [f l']. cbn [fst snd] in *.
  rewrite count_probes_app. split; [assumption|lia].
Qed.

(** A death met before any 200 ends the loop with False. *)
Lemma poll_loop_died (xs : list nat) :
  forallb (fun i => negb (ok_200 (probe env i))) xs = true ->
  forallb (fun i => negb (died_at env i)) xs = false ->
  fst (loop xs) = Ret false.
Proof.
  induction xs as [|x xs IH]; [discriminate|].
  rewrite poll_loop_cons. cbn [forallb].
  rewrite andb_true_iff, negb_true_iff. intros [Hok Hoks] Hdied.
  pose proof (poll_once_flow env x Hok) as Hf.
  destruct (died_at env x); cbn [negb andb] in Hdied;
    destruct (poll_once env x) as [f l]; cbn [fst] in Hf; subst f; [reflexivity|].
  specialize (IH Hoks Hdied). destruct (loop xs) as [f l']. exact IH.
Qed.

(** The loop terminates nothing, and all its requests are [GET /api/tags]
    with a time limit of two seconds. *)
Lemma poll_loop_effects (xs : list nat) :
  Forall (fun e => is_terminate e = false /\ only_get_tags 2 e) (snd (loop xs)).
Proof.
  unfold poll_loop, poll_once, http_get, wait_a_second.
  repeat (log_step; try (split; [reflexivity|intros H; first [discriminate H|reflexivity]])).
Qed.

End Poll_loop.

(** What follows the loop: the process is terminated, False is returned. *)
Lemma loop_ran_out_spec (env : server_env) :
  fst (loop_ran_out env) = Ret false /\
  last (snd (loop_ran_out env)) = Some Terminate /\
  count_probes (snd (loop_ran_out env)) = 0%nat /\
  Forall (only_get_tags 2) (snd (loop_ran_out env)).
Proof.
  unfold loop_ran_out.
  destruct (communicate_late env) as [[out err]|e]; [destruct (nonempty err)|];
    cbn; repeat split; repeat constructor; intros H; discriminate H.
Qed.

Lemma wait_for_server_unfold (env : server_env) :
  wait_for_server env = (poll_loop env attempts ;;; loop_ran_out env).
Proof. reflexivity. Qed.

(** C2, as amended.  The loop of start_ollama_server probes
    [GET /api/tags] (time limit 2 s) at most 45 times and nothing else; an
    attempt that raised while the process is up is followed by one second
    of sleep; if no attempt is answered 200 the function returns False:
    after all 45 probes and a call of [process.terminate()] when no
    connection error found the process exited, and at once, without
    terminating, when one did. *)
Theorem C2_polling_gives_up (env : server_env) :
  let result := call false (wait_for_server env) in
  (count_probes (snd result) <= 45)%nat /\
  Forall (only_get_tags 2) (snd result) /\
  (forall i, raised_and_waits env i = true ->
     fst (poll_once env i) = Next tt /\
     last (snd (poll_once env i)) = Some (Sleep 1)) /\
  (no_attempt_ok env = true -> fst result = Returned false) /\
  (no_attempt_ok env = true -> never_died env = true ->
     count_probes (snd result) = 45%nat /\ last (snd result) = Some Terminate) /\
  (no_attempt_ok env = true -> never_died env = false ->
     ~ In Terminate (snd result)).
Proof.
  cbv zeta. rewrite wait_for_server_unfold.
  pose proof (poll_loop_probes env attempts) as Hcount.
  pose proof (poll_loop_effects env attempts) as Heff.
  pose proof (poll_loop_exhausted env attempts) as Hex.
  pose proof (poll_loop_died env attempts) as Hdied.
  destruct (loop_ran_out_spec env) as (Hgf & Hgl & Hgc & Hge).
  change (length attempts) with 45%nat in *.
  fold (no_attempt_ok env) in Hex, Hdied. fold (never_died env) in Hex, Hdied.
  destruct (poll_loop env attempts) as [f l].
  destruct (loop_ran_out env) as [g lg]. cbn [fst snd] in *. subst g.
  split; [|split; [|split; [exact (poll_once_sleeps env)|split; [|split]]]].
  - destruct f; cbn [call bind fst snd]; rewrite ?count_probes_app; lia.
  - assert (Hl : Forall (only_get_tags 2) l).
    { eapply Forall_impl; [exact Heff|]. intros e [_ He]. exact He. }
    destruct f; cbn [call bind fst snd]; try exact Hl. apply Forall_app. split; assumption.
  - intros Hok. destruct (never_died env) eqn:Hn.
    + destruct (Hex Hok eq_refl) as [-> _]. reflexivity.
    + rewrite (Hdied Hok eq_refl). reflexivity.
  - intros Hok Hn. destruct (Hex Hok Hn) as [-> Hc]. cbn [call bind fst snd].
    rewrite count_probes_app, Hc, Hgc. split; [reflexivity|].
    rewrite last_app, Hgl. reflexivity.
  - intros Hok Hn. rewrite (Hdied Hok Hn). cbn [call bind fst snd]. intros Hin.
    rewrite List.Forall_forall in Heff. destruct (Heff _ Hin) as [Ht _]. discriminate Ht.
Qed.

(** A server that never answers, its process staying up: 45 probes, each
    followed by one second of sleep, then the process is terminated. *)
Example silent_server_times_out :
  fst (call false (wait_for_server silent_server)) = Returned false /\
  count_probes (snd (call false (wait_for_server silent_server))) = 45%nat /\
  length (List.filter (fun e => match e with Sleep 1 => true | _ => false end)
            (snd (call false (wait_for_server silent_server)))) = 45%nat /\
  last (snd (call false (wait_for_server silent_server))) = Some Terminate.
Proof. vm_compute. repeat split. Qed.

(** C2, as stated, fails where the process exits at once: no attempt is
    answered 200 and False is returned, after one probe, without any call of
    [process.terminate()]. *)
Lemma C2_counterexample_dead_process :
  no_attempt_ok dead_server = true /\
  call false (wait_for_server dead_server) =
    (Returned false,
     [HttpGet tags_url 2; Poll; StderrRead;
      Print Error [Lit "Ollama process died with no error output"]]) /\
  existsb is_terminate (snd (call false (wait_for_server dead_server))) = false.
Proof. vm_compute. repeat split. Qed.

(** ** get_available_models *)

Lemma only_get_tags_other (timeout : Z) (e : effect) :
  is_probe e = false -> only_get_tags timeout e.
Proof. intros H H'. rewrite H in H'. discriminate H'. Qed.

(** One turn of the loop: the request sent, and how the turn ends. *)
Ltac turn_done :=
  eexists; split; [reflexivity|]; split; [reflexivity|];
  split; [repeat (constructor; [apply only_get_tags_other; reflexivity|]); constructor
         |split; reflexivity].

Lemma fetch_once_turn (fetch : nat -> outcome response) (i : nat) :
  exists l,
    fetch_once fetch i = (turn (fetch i) i, HttpGet tags_url 30 :: l) /\
    count_probes l = 0%nat /\
    Forall (only_get_tags 30) l /\
    count is_any_sleep l = (if retryable (fetch i) && (i <? 2)%nat then 1 else 0)%nat /\
    count (is_sleep 2) l = (if retryable (fetch i) && (i <? 2)%nat then 1 else 0)%nat.
Proof.
  unfold fetch_once, http_get, response_json, py_get, turn, retryable.
  change (max_retries - 1)%nat with 2%nat.
  destruct (fetch i) as [[status [v|text]]|e];
    cbn [bind emit pure raise try_except status_code body].
  - destruct (status =? 200)%Z.
    + destruct v; cbn; try turn_done.
      destruct (truthy (dict_get entries "models" (PList []))); cbn; turn_done.
    + cbn. turn_done.
  - destruct (status =? 200)%Z; cbn; turn_done.
  - destruct (is_connection_error e); [|destruct (is_requests_timeout e)];
      cbn [orb andb]; destruct (i <? 2)%nat; cbn; turn_done.
Qed.

Lemma turn_cases (a : outcome response) (i : nat) :
  (retryable a = true /\ turn a i = Next (i <? 2)%nat /\ models_of a = PList []) \/
  (retryable a = false /\ turn a i = Ret (models_of a)) \/
  (retryable a = false /\ turn a i = Next false /\ models_of a = PList []).
Proof.
  unfold turn. destruct (retryable a) eqn:R.
  - left. destruct a as [r|e]; [discriminate R|]. repeat split.
  - right. destruct a as [[status [[| | | | | |entries]|text]]|e];
      cbn [models_of status_code body];
      try match goal with |- context [if ?b then _ else _] => destruct b end;
      first [left; split; reflexivity | right; repeat split].
Qed.

Lemma models_of_is_list (a : outcome response) :
  models_entry_not_a_list a = false -> is_list (models_of a) = true.
Proof.
  destruct a as [[status [[| | | | | |entries]|text]]|e];
    cbn [models_of models_entry_not_a_list status_code body];
    try match goal with |- context [if ?b then _ else _] => destruct b end;
    cbn [andb]; try reflexivity.
  intros H. apply negb_false_iff in H. exact H.
Qed.

Lemma count_cons (p : effect -> bool) (e : effect) (l : list effect) :
  count p (e :: l) = ((if p e then 1 else 0) + count p l)%nat.
Proof. unfold count. simpl. destruct (p e); reflexivity. Qed.

Lemma count_app (p : effect -> bool) (l l' : list effect) :
  count p (l ++ l') = (count p l + count p l')%nat.
Proof. unfold count. rewrite List.filter_app, length_app. reflexivity. Qed.

Lemma count_nil (p : effect -> bool) : count p [] = 0%nat.
Proof. reflexivity. Qed.

(** get_available_models never raises; it sends one to three requests, all
    [GET /api/tags], retrying only connection errors and timeouts, with one
    sleep of two seconds before each retry and no other sleep; it returns
    what the deciding answer gives: on HTTP 200 with a JSON object, the
    value of the "models" entry (the empty list when the entry is missing),
    and the empty list in every other case.  The value is a list unless the
    object carries a "models" entry that is not one. *)
Lemma get_available_models_cases (fetch : nat -> outcome response) :
  let result := get_available_models fetch in
  let k := deciding_attempt fetch in
  fst result = Returned (models_of (fetch k)) /\
  count_probes (snd result) = S k /\
  (count_probes (snd result) <= 3)%nat /\
  Forall (only_get_tags 30) (snd result) /\
  count is_any_sleep (snd result) = k /\
  count (is_sleep 2) (snd result) = k /\
  (models_entry_not_a_list (fetch k) = false -> is_list (models_of (fetch k)) = true).
Proof.
  cbv zeta. unfold get_available_models, deciding_attempt.
  change (seq 0 max_retries) with [0; 1; 2]%nat. cbn [for_each].
  destruct (fetch_once_turn fetch 0) as (l0 & -> & Hp0 & Hg0 & Hs0 & Ht0).
  destruct (fetch_once_turn fetch 1) as (l1 & -> & Hp1 & Hg1 & Hs1 & Ht1).
  destruct (fetch_once_turn fetch 2) as (l2 & -> & Hp2 & Hg2 & Hs2 & Ht2).
  assert (Hget : only_get_tags 30 (HttpGet tags_url 30)) by (intros _; reflexivity).
  change count_probes with (count is_probe) in *.
  destruct (turn_cases (fetch 0%nat) 0) as [(R0 & T0 & M0)|[(R0 & T0)|(R0 & T0 & M0)]];
    rewrite R0 in *; rewrite T0; cbn [andb Nat.ltb Nat.leb] in *.
  1: destruct (turn_cases (fetch 1%nat) 1) as [(R1 & T1 & M1)|[(R1 & T1)|(R1 & T1 & M1)]];
    rewrite R1 in *; rewrite T1; cbn [andb Nat.ltb Nat.leb] in *.
  1: destruct (turn_cases (fetch 2%nat) 2) as [(R2 & T2 & M2)|[(R2 & T2)|(R2 & T2 & M2)]];
    rewrite R2 in *; rewrite T2; cbn [andb Nat.ltb Nat.leb] in *.
  all: cbn [bind pure break ret call fst snd].
  all: rewrite ?app_nil_r.
  all: repeat first [rewrite count_cons | rewrite count_app | rewrite count_nil].
  all: cbn [is_probe is_any_sleep is_sleep].
  all: rewrite ?Hp0, ?Hp1, ?Hp2, ?Hs0, ?Hs1, ?Hs2, ?Ht0, ?Ht1, ?Ht2.
  all: split; [first [reflexivity | congruence]|].
  all: split; [reflexivity|]; split; [lia|].
  all: split; [repeat first [assumption | apply Forall_app; split | constructor]|].
  all: split; [reflexivity|]; split; [reflexivity|].
  all: apply models_of_is_list.
Qed.


(** C6, at the failing input.  On the answer [{"models": null}] the value
    of the entry is returned as it is: None, which is no list, after the
    warning that no models were found.  The other ways out give the list the
    signature promises: the empty list for an object without the entry, for
    a status other than 200 and for a server that cannot be reached. *)
Theorem C6_null_models_is_returned :
  get_available_models null_models =
    (Returned PNone,
     [HttpGet tags_url 30;
      Print Warning [Lit "No models found. You need to pull models first."];
      Print Info [Lit "Try: ollama pull llama2"]]) /\
  is_list PNone = false /\
  fst (get_available_models (fun _ => Returned (Response 200 (Json (PDict [])))))
    = Returned (PList []) /\
  fst (get_available_models (fun _ => Returned (Response 500 (Json (PDict [])))))
    = Returned (PList []) /\
  fst (get_available_models
         (fun _ => Raised (Exn RequestsConnectionError "Connection refused")))
    = Returned (PList []).
Proof. repeat split. Qed.

(** ** process_ai_response and upload_file *)

(** The worker sends its one request and queues one call, whatever the
    daemon does. *)
Lemma process_ai_response_log (name : string) (uploaded_content : option string)
  (answer : outcome response) (user_input : string) :
  process_ai_response name uploaded_content answer user_input =
    (Returned tt,
     [HttpPost generate_url
        (GenerateRequest name (context_of uploaded_content user_input) false (7 # 10)
           1000 50 0 8) 120;
      After 0 (shown_for answer)]).
Proof.
  unfold process_ai_response, http_post, response_json, py_get, shown_for, context_of.
  destruct answer as [[status [v|text]]|e];
    cbn [bind emit pure raise try_except call status_code body fst snd app].
  - destruct (status =? 200)%Z; [destruct v|]; reflexivity.
  - destruct (status =? 200)%Z; reflexivity.
  - reflexivity.
Qed.

(** C3.  process_ai_response never raises and queues exactly one call for
    the window: display_error with the status code on a status other than
    200; display_error with the text of the exception on any exception,
    which is the one of the request when it raises, and on a 200 answer the
    one of [response.json()] (a body that is not JSON) or of [data.get] (a
    JSON value that is no object), both inside the same [try];
    display_ai_response on a 200 answer read without exception (with its
    "response" entry, or "No response received").  A read error in
    upload_file only opens the error dialog.  ([root.after] and the widget
    calls are taken not to fail.) *)
Theorem C3_failures_are_displayed (name : string) (uploaded_content : option string)
  (answer : outcome response) (user_input : string) :
  fst (process_ai_response name uploaded_content answer user_input) = Returned tt /\
  queued (snd (process_ai_response name uploaded_content answer user_input)) =
    [shown_for answer] /\
  (forall r, answer = Returned r -> status_code r <> 200 ->
     shown_for answer =
       DisplayError (String.append "API error: " (str_of_Z (status_code r)))) /\
  (forall e, answer = Raised e ->
     shown_for answer = DisplayError (String.append "Error: " (exn_text e))) /\
  (forall r text, answer = Returned r -> status_code r = 200 ->
     body r = NotJsonBody text ->
     shown_for answer = DisplayError (String.append "Error: " text)) /\
  (forall r v, answer = Returned r -> status_code r = 200 ->
     body r = Json v -> (forall entries, v <> PDict entries) ->
     shown_for answer = DisplayError (String.append "Error: " (exn_text (no_get v)))) /\
  (forall r entries, answer = Returned r -> status_code r = 200 ->
     body r = Json (PDict entries) ->
     shown_for answer =
       DisplayAiResponse (dict_get entries "response" (PStr "No response received"))) /\
  (forall (st : gui) (file_path : string) (e : exn),
     nonempty file_path = true ->
     upload_file st file_path (Raised e) =
       show_error st "Upload Error" (String.append "Could not read file: " (exn_text e))).
Proof.
  rewrite process_ai_response_log. unfold shown_for.
  split; [reflexivity|]. split; [reflexivity|].
  split; [|split; [|split; [|split; [|split]]]].
  - intros r -> Hne. apply Z.eqb_neq in Hne. rewrite Hne. reflexivity.
  - intros e ->. reflexivity.
  - intros r text -> -> ->. reflexivity.
  - intros r v -> -> -> Hv. destruct v; try reflexivity.
    exfalso. apply (Hv entries). reflexivity.
  - intros r entries -> -> ->. reflexivity.
  - intros st file_path e H. unfold upload_file. rewrite H. reflexivity.
Qed.

(** A 200 answer whose body is not JSON: the JSONDecodeError is shown as
    an error. *)
Example not_json_200_is_shown_as_error :
  queued (snd (process_ai_response "llama2" None not_json_200 "hello")) =
    [DisplayError "Error: Expecting value: line 1 column 1 (char 0)"] /\
  ok_200 not_json_200 = true.
Proof. split; reflexivity. Qed.

(** Shown in the window: display_error appends the message to the chat
    under the sender "System" and sets the status to "Error". *)
Lemma display_error_shows (st : gui) (error_msg : string) :
  chat_text (display_error st error_msg) =
    chat_text st ++
    [Insertion "System: " None "" (Some (PStr "#ff4444", PTuple [PStr "Arial"; PInt 10]));
     Insertion "" (Some (PStr error_msg)) (String.append line_feed line_feed) None] /\
  status_label (display_error st error_msg) = ("Error", "#ff4444").
Proof. split; reflexivity. Qed.

(** ** The requests of the program *)

Lemma start_ollama_server_endpoints (env : server_env) :
  Forall daemon_endpoint (snd (start_ollama_server env)).
Proof.
  unfold start_ollama_server, wait_for_server, loop_ran_out, poll_once, http_get, run,
    wait_a_second.
  repeat (log_step; try exact I; try reflexivity).
Qed.

Lemma get_available_models_endpoints (fetch : nat -> outcome response) :
  Forall daemon_endpoint (snd (get_available_models fetch)).
Proof.
  unfold get_available_models, fetch_once, http_get, response_json, py_get.
  repeat (log_step; try exact I; try reflexivity).
Qed.

Lemma get_available_models_requests (fetch : nat -> outcome response) :
  Forall (only_get_tags 30) (snd (get_available_models fetch)).
Proof.
  unfold get_available_models, fetch_once, http_get, response_json, py_get.
  repeat (log_step; try (intros H; first [discriminate H|reflexivity])).
Qed.

Lemma detect_vram_no_request (env : gpu_env) :
  Forall (fun e => is_probe e = false) (snd (detect_vram env)).
Proof.
  unfold detect_vram, nvidia_block, amd_block, amd_line, amd_turn, int_div_1024, apple_block,
    apple_line,
    first_number, run.
  repeat (log_step; try reflexivity).
Qed.

(** Installing the daemon starts other programs and sends no request of
    its own. *)
Lemma install_ollama_no_request (env : install_env) :
  Forall (fun e => is_probe e = false) (snd (install_ollama env)).
Proof.
  unfold install_ollama, check_ollama_installed, run.
  repeat (log_step; try reflexivity).
Qed.

(** ** send_message and the window *)

Lemma drop_space_blank (l : list ascii) :
  Forall (fun c => isspace c = true) l -> drop_space l = [].
Proof.
  induction 1 as [|c l Hc _ IH]; simpl; [reflexivity|]. rewrite Hc. exact IH.
Qed.

Lemma strip_blank (s : string) : blank s -> strip s = "".
Proof.
  unfold blank, strip. intros H. rewrite (drop_space_blank _ H). reflexivity.
Qed.

(** C8.  If the input field holds only whitespace, or nothing, send_message
    changes nothing: the chat, the input field, both buttons, the status
    label and the started threads are as before. *)
Theorem C8_blank_input_is_ignored (st : gui) :
  blank (input_entry st) -> send_message st = st.
Proof.
  intros H. unfold send_message. rewrite (strip_blank _ H). reflexivity.
Qed.

Lemma C8_blank_input_is_ignored_witness :
  send_message (set_input (initial_gui "llama2" default_config) "   ")
  = set_input (initial_gui "llama2" default_config) "   ".
Proof.
  apply (C8_blank_input_is_ignored (set_input (initial_gui "llama2" default_config) "   ")).
  unfold blank. simpl. repeat constructor.
Defined.

(** What send_message does on an input that is not blank. *)
Lemma send_message_sends (st : gui) :
  nonempty (strip (input_entry st)) = true ->
  threads (send_message st) = threads st ++ [strip (input_entry st)] /\
  send_btn (send_message st) = DISABLED /\
  upload_btn (send_message st) = DISABLED /\
  input_entry (send_message st) = "" /\
  after_queue (send_message st) = after_queue st.
Proof.
  intros H. unfold send_message. rewrite H. cbn. repeat split.
Qed.

(** No event of the user takes a pending request back: the started workers
    stay, in order, and so do the queued answers. *)
Lemma no_cancellation (st : gui) (ev : event) :
  user_event ev = true ->
  (exists more, threads (step st ev) = threads st ++ more) /\
  after_queue (step st ev) = after_queue st.
Proof.
  destruct ev; try discriminate; intros _; cbn [step].
  - split; [exists []; rewrite app_nil_r|]; reflexivity.
  - unfold send_message. destruct (negb (nonempty (strip (input_entry st)))).
    + split; [exists []; rewrite app_nil_r|]; reflexivity.
    + split; [eexists|]; reflexivity.
  - destruct (send_btn st); [|split; [exists []; rewrite app_nil_r|]; reflexivity].
    unfold send_message. destruct (negb (nonempty (strip (input_entry st)))).
    + split; [exists []; rewrite app_nil_r|]; reflexivity.
    + split; [eexists|]; reflexivity.
  - destruct (upload_btn st); [|split; [exists []; rewrite app_nil_r|]; reflexivity].
    unfold upload_file. destruct (nonempty file_path); [destruct read|];
      (split; [exists []; rewrite app_nil_r|]; reflexivity).
  - split; [exists []; rewrite app_nil_r|]; reflexivity.
Qed.

(** The requests of a log are what is left of it once the rest is taken
    out. *)
Lemma requests_of_gets (timeout : Z) (l : list effect) :
  Forall (only_get_tags timeout) l ->
  List.filter is_probe l = repeat (HttpGet tags_url timeout) (count_probes l).
Proof.
  unfold count_probes. induction 1 as [|e l He _ IH]; [reflexivity|].
  cbn [List.filter]. destruct (is_probe e) eqn:E; [|exact IH].
  rewrite (He E). cbn [length repeat]. f_equal. exact IH.
Qed.

(** What a block did first is in its log, whatever came after. *)
Lemma bind_log_prefix {E R A B} (m : prog E R A) (k : A -> prog E R B) :
  exists later, snd (bind m k) = snd m ++ later.
Proof.
  destruct m as [[a| |r|e] l]; cbn [bind snd];
    try (exists []; rewrite app_nil_r; reflexivity).
  destruct (k a) as [f l']. exists l'. reflexivity.
Qed.

Lemma try_except_log_prefix {E R A} (m : prog E R A) (h : exn -> option (prog E R A)) :
  exists later, snd (try_except m h) = snd m ++ later.
Proof.
  destruct m as [[a| |r|e] l]; cbn [try_except snd];
    try (exists []; rewrite app_nil_r; reflexivity).
  destruct (h e) as [[f l']|]; [exists l'|exists []; rewrite app_nil_r]; reflexivity.
Qed.

Lemma call_log {E R} (d : R) (body : prog E R unit) : snd (call d body) = snd body.
Proof. destruct body as [[a| |r|e] l]; reflexivity. Qed.

(** start_ollama_server begins with the probe of line 908. *)
Lemma start_ollama_server_first_probe (env : server_env) :
  exists later,
    List.filter is_probe (snd (start_ollama_server env)) = HttpGet tags_url 5 :: later.
Proof.
  unfold start_ollama_server. rewrite call_log.
  match goal with
  | |- context [bind (print ?lv ?t) ?k] =>
      change (bind (print lv t) k) with
        (let (f, l') := k tt in (f, [Print lv [Lit t]] ++ l'))
  end.
  match goal with
  | |- context [bind (try_except (bind ?m ?k1) ?h) ?k] =>
      destruct (bind_log_prefix (try_except (bind m k1) h) k) as [l1 H1];
      destruct (try_except_log_prefix (bind m k1) h) as [l2 H2];
      destruct (bind_log_prefix m k1) as [l3 H3];
      destruct (bind (try_except (bind m k1) h) k) as [f l]
  end.
  cbn [snd] in *. rewrite H1, H2, H3. unfold http_get.
  destruct (first_probe env); cbn; eexists; reflexivity.
Qed.

(** C5.  A worker sends exactly one request, a POST to
    http://localhost:11434/api/generate with [stream] false and a time limit
    of 120 seconds; each message sent starts one worker; listing the models
    sends GET http://localhost:11434/api/tags, once and up to twice more on
    a connection error or a timeout, and nothing else; waiting for the
    server only sends GET http://localhost:11434/api/tags, starting with the
    probe of line 908; detecting the GPU or installing the daemon sends
    nothing (they start other programs); no event of the user removes a
    started worker or a queued answer. *)
Theorem C5_one_post_per_message :
  (forall name uploaded_content answer user_input,
     List.filter is_probe
       (snd (process_ai_response name uploaded_content answer user_input)) =
       [HttpPost generate_url
          (GenerateRequest name (context_of uploaded_content user_input) false (7 # 10)
             1000 50 0 8) 120]) /\
  (forall st, nonempty (strip (input_entry st)) = true ->
     threads (send_message st) = threads st ++ [strip (input_entry st)]) /\
  (forall fetch,
     List.filter is_probe (snd (get_available_models fetch)) =
       repeat (HttpGet tags_url 30) (S (deciding_attempt fetch)) /\
     (deciding_attempt fetch < 3)%nat) /\
  (forall fetch, Forall daemon_endpoint (snd (get_available_models fetch))) /\
  (forall env, exists later,
     List.filter is_probe (snd (start_ollama_server env)) = HttpGet tags_url 5 :: later) /\
  (forall env, Forall daemon_endpoint (snd (start_ollama_server env))) /\
  (forall env, Forall (fun e => is_probe e = false) (snd (detect_vram env))) /\
  (forall env, Forall (fun e => is_probe e = false) (snd (install_ollama env))) /\
  (forall st ev, user_event ev = true ->
     (exists more, threads (step st ev) = threads st ++ more) /\
     after_queue (step st ev) = after_queue st).
Proof.
  split; [|split; [|split; [|split; [|split; [|split; [|split; [|split]]]]]]].
  - intros. rewrite process_ai_response_log. reflexivity.
  - intros st H. apply (send_message_sends st H).
  - intros fetch.
    destruct (get_available_models_cases fetch) as (_ & Hcount & _ & Hget & _).
    cbv zeta in Hcount, Hget. split.
    + rewrite (requests_of_gets 30 _ Hget), Hcount. reflexivity.
    + unfold deciding_attempt.
      destruct (retryable (fetch 0%nat)); [destruct (retryable (fetch 1%nat))|]; lia.
  - exact get_available_models_endpoints.
  - exact start_ollama_server_first_probe.
  - exact start_ollama_server_endpoints.
  - exact detect_vram_no_request.
  - exact install_ollama_no_request.
  - exact no_cancellation.
Qed.

(** C4, at the failing input.  The Return key is bound to send_message
    whatever the state of the buttons: two messages sent with it, the first
    not yet answered, leave two requests in flight while both buttons are
    disabled; a click on the disabled button sends nothing. *)
Theorem C4_two_requests_in_flight :
  threads (run_events (initial_gui "llama2" default_config) two_returns)
    = ["first"; "second"] /\
  in_flight (run_events (initial_gui "llama2" default_config) two_returns) = 2%nat /\
  send_btn (run_events (initial_gui "llama2" default_config) two_returns) = DISABLED /\
  upload_btn (run_events (initial_gui "llama2" default_config) two_returns) = DISABLED /\
  in_flight (run_events (initial_gui "llama2" default_config)
               [TypeText "first"; ClickSend; TypeText "second"; ClickSend]) = 1%nat.
Proof. repeat split. Qed.

(** Between a send and the display of an answer the two buttons stay
    disabled: only the event loop running a queued call enables them. *)
Lemma buttons_stay_disabled (st : gui) (ev : event) :
  ev <> RunQueued ->
  send_btn st = DISABLED -> upload_btn st = DISABLED ->
  send_btn (step st ev) = DISABLED /\ upload_btn (step st ev) = DISABLED.
Proof.
  intros Hev Hs Hu.
  destruct ev; cbn [step]; rewrite ?Hs, ?Hu; cbn iota;
    try (exfalso; apply Hev; reflexivity);
    try (split; cbn; first [assumption|reflexivity]).
  - unfold send_message. destruct (negb (nonempty (strip (input_entry st))));
      [split; assumption|split; reflexivity].
  - destruct (threads st !! i); [|split; assumption].
    destruct (process_ai_response _ _ _ _). split; cbn; assumption.
Qed.

(** ** The preference file *)

(** Induction on Python values, through their lists. *)
Lemma pyval_nested_ind (P : pyval -> Prop) :
  P PNone -> (forall b, P (PBool b)) -> (forall n, P (PInt n)) -> (forall s, P (PStr s)) ->
  (forall items, Forall P items -> P (PList items)) ->
  (forall items, Forall P items -> P (PTuple items)) ->
  (forall entries, Forall (fun kv => P (snd kv)) entries -> P (PDict entries)) ->
  forall v, P v.
Proof.
  intros HN HB HI HS HL HT HD.
  fix IH 1. intros [ |b|n|s|items|items|entries].
  - exact HN.
  - apply HB.
  - apply HI.
  - apply HS.
  - apply HL. induction items as [|x items IHitems]; constructor; [apply IH|exact IHitems].
  - apply HT. induction items as [|x items IHitems]; constructor; [apply IH|exact IHitems].
  - apply HD. induction entries as [|[k x] entries IHentries]; constructor;
      [apply IH|exact IHentries].
Qed.

(** Through the file a value comes back with its tuples as lists. *)
Lemma of_to_json (v : pyval) : of_json (to_json v) = listified v.
Proof.
  induction v as [ |b|n|s|items IH|items IH|entries IH] using pyval_nested_ind;
    simpl; try reflexivity.
  - f_equal. induction IH as [|x items Hx _ IHitems]; simpl; [reflexivity|].
    rewrite Hx, IHitems. reflexivity.
  - f_equal. induction IH as [|x items Hx _ IHitems]; simpl; [reflexivity|].
    rewrite Hx, IHitems. reflexivity.
  - f_equal. induction IH as [|[k x] entries Hx _ IHentries]; simpl; [reflexivity|].
    simpl in Hx. rewrite Hx, IHentries. reflexivity.
Qed.

(** A value without tuples comes back as it was. *)
Lemma listified_tuple_free (v : pyval) : tuple_free v = true -> listified v = v.
Proof.
  induction v as [ |b|n|s|items IH|items IH|entries IH] using pyval_nested_ind;
    simpl; try reflexivity; try discriminate.
  - intros H. f_equal. induction IH as [|x items Hx _ IHitems]; simpl; [reflexivity|].
    simpl in H. apply andb_true_iff in H. destruct H as [H1 H2].
    rewrite (Hx H1), (IHitems H2). reflexivity.
  - intros H. f_equal. induction IH as [|[k x] entries Hx _ IHentries]; simpl; [reflexivity|].
    simpl in H, Hx. apply andb_true_iff in H. destruct H as [H1 H2].
    rewrite (Hx H1), (IHentries H2). reflexivity.
Qed.

(** [update] with entries of distinct keys: the entries win, the rest
    stays. *)
Lemma dict_update_lookup (saved : list (string * pyval)) (cfg : gmap string pyval)
  (k : string) :
  NoDup (saved.*1) ->
  dict_update cfg saved !! k =
    match (list_to_map saved : gmap string pyval) !! k with
    | Some v => Some v
    | None => cfg !! k
    end.
Proof.
  revert cfg. induction saved as [|[k0 v0] saved IH]; intros cfg Hnd.
  - reflexivity.
  - cbn [fmap list_fmap fst] in Hnd. apply NoDup_cons in Hnd. destruct Hnd as [Hk0 Hnd].
    unfold dict_update in *. cbn [fold_left fst snd]. rewrite (IH _ Hnd).
    cbn [list_to_map foldr fst snd uncurry].
    destruct (decide (k0 = k)) as [->|Hne].
    + rewrite (not_elem_of_list_to_map_1 _ _ Hk0), !lookup_insert_eq. reflexivity.
    + rewrite !lookup_insert_ne by exact Hne. reflexivity.
Qed.

Lemma saved_entries (cfg : gmap string pyval) :
  map (fun kv : string * json => (fst kv, of_json (snd kv)))
    (map (fun kv : string * pyval => (fst kv, to_json (snd kv))) (map_to_list cfg))
  = prod_map id listified <$> map_to_list cfg.
Proof.
  rewrite map_map. apply map_ext. intros [k v]. simpl. rewrite of_to_json. reflexivity.
Qed.

Lemma keys_listified (l : list (string * pyval)) :
  (prod_map id listified <$> l).*1 = l.*1.
Proof.
  induction l as [|[k v] l IH]; [reflexivity|]. cbn. f_equal. exact IH.
Qed.

Lemma load_save_lookup (cfg : gmap string pyval) (file : config_file) (k : string) :
  load_config default_config true (save_config cfg true file) !! k =
    match cfg !! k with
    | Some v => Some (listified v)
    | None => default_config !! k
    end.
Proof.
  unfold load_config, save_config. rewrite saved_entries.
  rewrite dict_update_lookup.
  - rewrite list_to_map_fmap, list_to_map_to_list, lookup_fmap.
    destruct (cfg !! k); reflexivity.
  - rewrite keys_listified. apply NoDup_fst_map_to_list.
Qed.

(** C9, as amended.  The file being writable and readable, save_config
    followed by load_config on a fresh default config gives, key by key, the
    saved value with its tuples turned into lists, and the default value of
    a default key the saved config lacks.  A font saved as the pair
    (family, size) comes back as the list [family, size]; a value without
    tuples comes back equal; the whole config comes back equal when it
    holds the six default keys and no tuple. *)
Theorem C9_round_trip_listifies (cfg : gmap string pyval) (file : config_file) :
  let loaded := load_config default_config true (save_config cfg true file) in
  (forall k,
     loaded !! k = match cfg !! k with
                   | Some v => Some (listified v)
                   | None => default_config !! k
                   end) /\
  (forall k family size,
     cfg !! k = Some (PTuple [PStr family; PInt size]) ->
     loaded !! k = Some (PList [PStr family; PInt size])) /\
  (forall k v, cfg !! k = Some v -> tuple_free v = true -> loaded !! k = Some v) /\
  (dom default_config ⊆ dom cfg ->
   (forall k v, cfg !! k = Some v -> tuple_free v = true) ->
   loaded = cfg).
Proof.
  cbv zeta. split; [|split; [|split]].
  - intros k. apply load_save_lookup.
  - intros k family size H. rewrite load_save_lookup, H. reflexivity.
  - intros k v H Hfree. rewrite load_save_lookup, H, (listified_tuple_free _ Hfree).
    reflexivity.
  - intros Hdom Hfree. apply map_eq. intros k. rewrite load_save_lookup.
    destruct (cfg !! k) as [v|] eqn:Hk.
    + rewrite (listified_tuple_free _ (Hfree _ _ Hk)). reflexivity.
    + apply not_elem_of_dom in Hk.
      apply not_elem_of_dom. intros Hin. apply Hk. apply Hdom. exact Hin.
Qed.

(** C9, as stated, fails on the default config itself: the font saved as
    the pair ('Arial', 12) is loaded as the list ['Arial', 12]. *)
Lemma C9_counterexample_default_config :
  load_config default_config true (save_config default_config true Absent) !! "user_font"
    = Some (PList [PStr "Arial"; PInt 12]) /\
  default_config !! "user_font" = Some (PTuple [PStr "Arial"; PInt 12]).
Proof. split; vm_compute; reflexivity. Qed.

(** ** Values handed on by composed blocks *)

Section Hands_on.

Context {E R : Type} (QR : R -> Prop).

Lemma hands_on_bind {A B} (QA : A -> Prop) (QB : B -> Prop)
  (m : prog E R A) (k : A -> prog E R B) :
  hands_on QR QA m -> (forall a, QA a -> hands_on QR QB (k a)) ->
  hands_on QR QB (bind m k).
Proof.
  unfold hands_on. intros Hm Hk. destruct m as [[a| |r|e] l]; simpl in *; trivial.
  specialize (Hk a Hm). destruct (k a) as [f l']. exact Hk.
Qed.

Lemma hands_on_try_except {A} (QA : A -> Prop)
  (m : prog E R A) (h : exn -> option (prog E R A)) :
  hands_on QR QA m ->
  (forall e, match h e with Some k => hands_on QR QA k | None => True end) ->
  hands_on QR QA (try_except m h).
Proof.
  unfold hands_on. intros Hm Hh. destruct m as [[a| |r|e] l]; simpl in *; trivial.
  specialize (Hh e). destruct (h e) as [[f l']|]; simpl in *; trivial.
Qed.

Lemma hands_on_for_each {X S} (QS : S -> Prop) (xs : list X) (s : S)
  (body : S -> X -> prog E R S) :
  QS s -> (forall s x, QS s -> hands_on QR QS (body s x)) ->
  hands_on QR QS (for_each xs s body).
Proof.
  unfold hands_on. intros Hs Hb. revert s Hs.
  induction xs as [|x xs IH]; intros s Hs; simpl; trivial.
  specialize (Hb s x Hs). destruct (body s x) as [[s'| |r|e] l]; simpl in *; trivial.
  specialize (IH s' Hb). destruct (for_each xs s' body) as [f l']. exact IH.
Qed.

Lemma hands_on_weaken {A} (QA QA' : A -> Prop) (m : prog E R A) :
  (forall a, QA a -> QA' a) -> hands_on QR QA m -> hands_on QR QA' m.
Proof.
  unfold hands_on. intros H. destruct (fst m); trivial. apply H.
Qed.

End Hands_on.

Lemma round_double_number (q : Q) : is_number (round_double q).
Proof.
  unfold round_double. destruct (Qnum q) as [|a|a]; [reflexivity| |];
    unfold round_pos; cbv zeta;
    match goal with |- context [if ?b then PosInf else _] => destruct b end;
    reflexivity.
Qed.

Lemma num_div_1024_number (x : pynum) : is_number x -> is_number (num_div_1024 x).
Proof.
  destruct x as [q| | |]; intros H; try exact H. apply round_double_number.
Qed.

Lemma int_div_1024_returns (n : Z) (k : pynum -> prog effect pynum unit) :
  (forall x, is_number x -> hands_on is_number (fun _ : unit => True) (k x)) ->
  hands_on is_number (fun _ : unit => True) (bind (int_div_1024 n) k).
Proof.
  intros Hk. unfold int_div_1024. destruct (div_1024 n) as [q| | |]; try exact I.
  specialize (Hk (Fin q) eq_refl). unfold hands_on, bind, pure in *.
  destruct (k (Fin q)) as [f l]. exact Hk.
Qed.

Lemma nvidia_block_number (c : completed) :
  hands_on is_number (fun _ : unit => True) (nvidia_block c).
Proof.
  unfold nvidia_block.
  destruct (returncode c =? 0)%Z; [|exact I].
  destruct (split_lines (strip (stdout c))) as [|l0 ls]; [exact I|].
  destruct (nonempty l0); [|exact I]. destruct (py_int l0); [|exact I].
  apply int_div_1024_returns. intros x Hx. exact Hx.
Qed.

Lemma amd_block_number (c : completed) :
  hands_on is_number (fun _ : unit => True) (amd_block c).
Proof.
  unfold amd_block. destruct (returncode c =? 0)%Z; [|exact I].
  apply hands_on_for_each; [exact I|]. intros [] line _.
  destruct (contains "Total" line && contains "MB" line); [|exact I].
  apply hands_on_try_except.
  - unfold amd_line. apply hands_on_for_each; [exact I|]. intros [] [i part] _.
    unfold amd_turn.
    destruct (isdigit part && (0 <? i)%nat && String.eqb (nth (i - 1) (str_split line) "") "Total");
      [|exact I].
    destruct (py_int part); [|exact I].
    apply int_div_1024_returns. intros x Hx. exact Hx.
  - intros e. destruct (is_value_error e); exact I.
Qed.

Lemma first_number_number (line : string) :
  hands_on is_number (fun found : option pynum =>
                        match found with Some x => is_number x | None => True end)
    (first_number line).
Proof.
  unfold first_number.
  destruct (find _ (str_split line)) as [part|]; [|exact I].
  unfold py_float. destruct (existsb is_ascii_digit (chars part)); [|exact I].
  destruct (float_int 0 (chars part)); [|exact I]. apply round_double_number.
Qed.

Lemma apple_line_number (v : pynum) (line : string) :
  is_number v -> hands_on is_number is_number (apple_line v line).
Proof.
  intros Hv. unfold apple_line.
  destruct (contains "VRAM" line || contains "Memory" line); [|exact Hv].
  apply hands_on_try_except.
  - apply hands_on_bind with (QA := is_number).
    + destruct (contains "GB" line); [|destruct (contains "MB" line)].
      * eapply hands_on_bind; [apply first_number_number|].
        intros [x|] Hx; [exact Hx|exact Hv].
      * eapply hands_on_bind; [apply first_number_number|].
        intros [x|] Hx; [apply num_div_1024_number; exact Hx|exact Hv].
      * exact Hv.
    + intros v' Hv'. destruct (num_gt v' (of_int 0)); exact Hv'.
  - intros e. destruct (is_value_error e); [exact Hv|exact I].
Qed.

Lemma apple_block_number (env : gpu_env) (v : pynum) :
  is_number v -> hands_on is_number is_number (apple_block env v).
Proof.
  intros Hv. unfold apple_block.
  destruct (String.eqb (sys_platform env) "darwin"); [|exact Hv].
  apply hands_on_try_except; [|intros e; exact Hv].
  apply hands_on_bind with (QA := fun _ => True).
  - unfold run. destruct (system_profiler env); exact I.
  - intros c _. apply hands_on_for_each; [exact Hv|].
    intros s x Hs. apply apple_line_number. exact Hs.
Qed.

(** detect_vram answers with a float that is not NaN, whatever the tools
    do. *)
Lemma detect_vram_number (env : gpu_env) :
  exists v, fst (detect_vram env) = Returned v /\ is_number v.
Proof.
  assert (H : hands_on is_number (fun _ : unit => True)
                (vram_gb' <-
                   try_except
                     (nvidia_result <- run nvidia_argv (Some 10) (nvidia_smi env) ;;
                      nvidia_block nvidia_result ;;;
                      amd_result <- run rocm_argv (Some 10) (rocm_smi env) ;;
                      amd_block amd_result ;;;
                      vram_gb' <- apple_block env (of_int 0) ;;
                      if num_eq vram_gb' (of_int 0) then
                        print Warning "No dedicated GPU detected - using CPU mode" ;;;
                        ret (of_int 0)
                      else pure vram_gb')
                     (fun e =>
                        if is_timeout_expired e then
                          Some (print Warning "GPU detection timed out" ;;; pure (of_int 0))
                        else
                          Some (print Warning
                                  (String.append "Could not detect VRAM: " (exn_text e)) ;;;
                                pure (of_int 0))) ;;
                 ret vram_gb')).
  { apply hands_on_bind with (QA := is_number); [|intros v Hv; exact Hv].
    apply hands_on_try_except.
    - apply hands_on_bind with (QA := fun _ => True).
      { unfold run. destruct (nvidia_smi env); exact I. }
      intros c _. apply hands_on_bind with (QA := fun _ => True);
        [apply nvidia_block_number|intros _ _].
      apply hands_on_bind with (QA := fun _ => True).
      { unfold run. destruct (rocm_smi env); exact I. }
      intros c' _. apply hands_on_bind with (QA := fun _ => True);
        [apply amd_block_number|intros _ _].
      apply hands_on_bind with (QA := is_number);
        [apply apple_block_number; reflexivity|].
      intros v Hv. destruct (num_eq v (of_int 0)); [reflexivity|exact Hv].
    - intros e. destruct (is_timeout_expired e); reflexivity. }
  destruct (detect_vram_returns env) as [v Hret].
  unfold detect_vram in *. unfold hands_on in H.
  match type of H with
  | match fst ?m with _ => _ end => destruct m as [[a| |r|e] l]
  end; simpl in *; inversion Hret; subst.
  - exists (of_int 0). split; reflexivity.
  - exists (of_int 0). split; reflexivity.
  - exists v. split; [reflexivity|exact H].
Qed.

Lemma hands_on_weaken_ret {E R A} (QR QR' : R -> Prop) (QA : A -> Prop) (m : prog E R A) :
  (forall r, QR r -> QR' r) -> hands_on QR QA m -> hands_on QR' QA m.
Proof.
  unfold hands_on. intros H. destruct (fst m); trivial. apply H.
Qed.

(** X1.  detect_vram never raises and never answers NaN: whatever the
    three tools answer, and also when they cannot be started, it returns a
    float that compares as a number.  The number need not be finite: on a
    Mac whose [system_profiler] reports 400 digits of memory, [float] gives
    the infinity and detect_vram returns it. *)
Theorem detect_vram_answers_a_number (env : gpu_env) :
  (exists v, fst (detect_vram env) = Returned v /\ is_nan v = false) /\
  fst (detect_vram apple_huge) = Returned PosInf.
Proof.
  split; [exact (detect_vram_number env)|]. vm_compute. reflexivity.
Qed.

(** X2.  detect_vram starts the tools in a fixed order: [nvidia-smi] first
    and always; [rocm-smi] only after it; [system_profiler] only after both
    and only on macOS; no tool is started twice. *)
Theorem detect_vram_runs_tools_in_order (env : gpu_env) :
  exists later not_run,
    commands (snd (detect_vram env)) = nvidia_argv :: later /\
    tools_of (sys_platform env) = commands (snd (detect_vram env)) ++ not_run.
Proof. exact (detect_vram_order env). Qed.

(** X3.  When [nvidia-smi] exits 0 and the first line of its stripped
    output is not empty and is an integer literal [n] for [int], detect_vram
    starts no other tool.  If [n / 1024] fits a double it prints the success
    line and returns the quotient, rounded to the nearest double; if not,
    the OverflowError of the division is caught by the outer handler, which
    prints a warning and returns 0. *)
Theorem detect_vram_nvidia_first_line (env : gpu_env) (c : completed) (l0 : string)
  (ls : list string) (n : Z) :
  nvidia_smi env = Returned c ->
  returncode c = 0 ->
  split_lines (strip (stdout c)) = l0 :: ls ->
  nonempty l0 = true ->
  py_int l0 = Some n ->
  detect_vram env =
    match div_1024 n with
    | Fin q =>
        (Returned (Fin q),
         [Run nvidia_argv (Some 10);
          Print Success [Lit "Detected NVIDIA GPU with "; Float1 (Fin q); Lit "GB VRAM"]])
    | _ =>
        (Returned (of_int 0),
         [Run nvidia_argv (Some 10);
          Print Warning
            [Lit "Could not detect VRAM: integer division result too large for a float"]])
    end.
Proof.
  intros Hrun Hrc Hlines Hne Hint.
  destruct (div_1024 n) as [q| | |] eqn:Hdiv.
  - exact (detect_vram_nvidia env c l0 ls n q Hrun Hrc Hlines Hne Hint Hdiv).
  - apply (detect_vram_nvidia_overflow env c l0 ls n Hrun Hrc Hlines Hne Hint).
    rewrite Hdiv. reflexivity.
  - apply (detect_vram_nvidia_overflow env c l0 ls n Hrun Hrc Hlines Hne Hint).
    rewrite Hdiv. reflexivity.
  - apply (detect_vram_nvidia_overflow env c l0 ls n Hrun Hrc Hlines Hne Hint).
    rewrite Hdiv. reflexivity.
Qed.

Lemma detect_vram_nvidia_first_line_witness :
  detect_vram (nvidia_machine "24576
24576
") =
    (Returned (Fin 24),
     [Run nvidia_argv (Some 10);
      Print Success [Lit "Detected NVIDIA GPU with "; Float1 (Fin 24); Lit "GB VRAM"]]).
Proof.
  apply (detect_vram_nvidia_first_line (nvidia_machine "24576
24576
") (Completed 0 "24576
24576
" "") "24576" ["24576"] 24576); reflexivity.
Defined.

(** X4.  When [nvidia-smi] runs and exits with a failure, [rocm-smi] exits
    0, and the first output line holding both "Total" and "MB" has the token
    "Total" followed by a token of digits that [int] reads as [n], no token
    before being digits, detect_vram returns [n / 1024] rounded to the
    nearest double.  If the quotient is beyond the doubles, the
    OverflowError passes the inner handler and the answer is 0. *)
Theorem detect_vram_amd_total_token (env : gpu_env) (c c' : completed)
  (before after : list string) (line : string) (ps qs : list string) (tok : string)
  (n : Z) :
  nvidia_smi env = Returned c ->
  returncode c <> 0 ->
  rocm_smi env = Returned c' ->
  returncode c' = 0 ->
  split_lines (stdout c') = before ++ line :: after ->
  Forall (fun l => contains "Total" l && contains "MB" l = false) before ->
  contains "Total" line = true ->
  contains "MB" line = true ->
  str_split line = ps ++ "Total" :: tok :: qs ->
  Forall (fun p => isdigit p = false) ps ->
  isdigit tok = true ->
  py_int tok = Some n ->
  fst (detect_vram env) =
    Returned (match div_1024 n with Fin q => Fin q | _ => of_int 0 end).
Proof. apply detect_vram_amd. Qed.

Lemma detect_vram_amd_total_token_witness :
  fst (detect_vram amd_machine_with_nvidia_smi) = Returned (Fin 8).
Proof.
  apply (detect_vram_amd_total_token amd_machine_with_nvidia_smi
           (Completed 9 "" "NVIDIA-SMI has failed")
           (Completed 0 "GPU[0] : VRAM Total 8192 MB" "")
           [] [] "GPU[0] : VRAM Total 8192 MB" ["GPU[0]"; ":"; "VRAM"] ["MB"] "8192" 8192);
    try reflexivity; try discriminate.
  - constructor.
  - repeat constructor.
Defined.

(** X5.  When [nvidia-smi] cannot be run ([subprocess.run] raises: the tool
    is missing, or its time limit is hit), detect_vram prints one warning and
    returns 0; neither [rocm-smi] nor [system_profiler] is started. *)
Theorem detect_vram_nvidia_not_runnable (env : gpu_env) (e : exn) :
  nvidia_smi env = Raised e ->
  detect_vram env =
    (Returned (of_int 0),
     [Run nvidia_argv (Some 10);
      Print Warning
        [Lit (if is_timeout_expired e then "GPU detection timed out"
              else String.append "Could not detect VRAM: " (exn_text e))]]).
Proof.
  intros H. unfold detect_vram, run. rewrite H. cbn [emit raise bind try_except].
  destruct (is_timeout_expired e); reflexivity.
Qed.

Lemma detect_vram_nvidia_not_runnable_witness :
  detect_vram amd_machine =
    (Returned (of_int 0),
     [Run nvidia_argv (Some 10);
      Print Warning
        [Lit "Could not detect VRAM: [Errno 2] No such file or directory: 'nvidia-smi'"]]).
Proof.
  apply (detect_vram_nvidia_not_runnable amd_machine
           (Exn FileNotFoundError "[Errno 2] No such file or directory: 'nvidia-smi'")).
  reflexivity.
Defined.

(** X6.  When [nvidia-smi] exits 0 with a first line that is not an integer
    (such as "[N/A]"), the ValueError of [int] ends the detection: 0 is
    returned and [rocm-smi] is not started. *)
Theorem detect_vram_nvidia_unreadable (env : gpu_env) (c : completed) (l0 : string)
  (ls : list string) :
  nvidia_smi env = Returned c ->
  returncode c = 0 ->
  split_lines (strip (stdout c)) = l0 :: ls ->
  nonempty l0 = true ->
  py_int l0 = None ->
  fst (detect_vram env) = Returned (of_int 0) /\
  commands (snd (detect_vram env)) = [nvidia_argv].
Proof.
  intros Hrun Hrc Hlines Hne Hint.
  assert (Hclass : is_timeout_expired (int_error l0) = false)
    by (unfold is_timeout_expired, int_error; destruct (over_limit l0); reflexivity).
  unfold detect_vram, run, nvidia_block.
  rewrite Hrun. cbn [emit pure bind]. rewrite Hrc, Hlines, Hne, Hint.
  cbn [Z.eqb raise bind try_except app]. rewrite Hclass.
  split; reflexivity.
Qed.

Lemma detect_vram_nvidia_unreadable_witness :
  fst (detect_vram (nvidia_machine "[N/A]")) = Returned (of_int 0) /\
  commands (snd (detect_vram (nvidia_machine "[N/A]"))) = [nvidia_argv].
Proof.
  apply (detect_vram_nvidia_unreadable _ (Completed 0 "[N/A]" "") "[N/A]" []);
    reflexivity.
Defined.

(** X7.  The number detect_vram hands to get_recommended_models is never
    NaN, so on a detected [vram_gb] the recommendation follows the tier table
    as the specification states it (vram_gb >= 8; 4 <= vram_gb < 8;
    vram_gb < 4 with vram_gb > 0 or ram_gb >= 8; otherwise), for every
    [ram_gb]. *)
Theorem detected_vram_follows_the_table (env : gpu_env) (v ram_gb : pynum) :
  fst (detect_vram env) = Returned v ->
  names (get_recommended_models v ram_gb) = spec_tier v ram_gb.
Proof.
  intros H. destruct (detect_vram_number env) as (v' & Hv' & Hnumber).
  rewrite Hv' in H. inversion H; subst. apply tier_of_code_number. exact Hnumber.
Qed.

Lemma detected_vram_follows_the_table_witness :
  names (get_recommended_models (div_1024 8192) NaN) = spec_tier (div_1024 8192) NaN.
Proof.
  apply (detected_vram_follows_the_table amd_machine_with_nvidia_smi). reflexivity.
Defined.

(** ** The menu of install_recommended_models *)

Lemma picked_later (recommendations : list recommendation) (k : keyboard)
  (typed : list keyboard) (x : string) :
  picked recommendations typed x -> picked recommendations (k :: typed) x.
Proof.
  intros [H|[text [H1 H2]]]; [left; exact H|right].
  exists text. split; [right; exact H1|exact H2].
Qed.

Lemma select_model_picks (install : string -> option string)
  (recommendations : list recommendation) (typed : list keyboard) :
  hands_on (fun res => res = None \/
                       exists x, res = install x /\ picked recommendations typed x)
    (fun _ : unit => True) (select_model install recommendations typed).
Proof.
  remember (length typed) as n eqn:Hn.
  revert typed Hn. induction n as [n IH] using lt_wf_ind. intros typed Hn.
  assert (Hrec : forall k typed', typed = k :: typed' \/ (exists k', typed = k :: k' :: typed') ->
            hands_on (fun res => res = None \/
                                 exists x, res = install x /\ picked recommendations typed x)
              (fun _ : unit => True) (select_model install recommendations typed')).
  { intros k typed' Hshape.
    eapply hands_on_weaken_ret; [|eapply (IH (length typed')); [|reflexivity]].
    - intros res [H|[x [H1 H2]]]; [left; exact H|right]. exists x. split; [exact H1|].
      destruct Hshape as [->|[k' ->]]; repeat apply picked_later; exact H2.
    - subst n. destruct Hshape as [->|[k' ->]]; simpl; lia. }
  destruct typed as [|[text| |] rest]; cbn [select_model].
  - exact I.
  - apply hands_on_bind with (QA := fun _ => True); [exact I|intros _ _].
    destruct (String.eqb (strip text) "5"); [left; reflexivity|].
    destruct (String.eqb (strip text) "4").
    + apply hands_on_bind with (QA := fun _ => True); [exact I|intros _ _].
      destruct rest as [|[text'| |] rest']; try exact I; [|left; reflexivity].
      destruct (nonempty (strip text')).
      * right. exists (strip text'). split; [reflexivity|]. right.
        exists text'. split; [right; left; reflexivity|reflexivity].
      * apply hands_on_bind with (QA := fun _ => True); [exact I|intros _ _].
        apply (Hrec (Line text) rest'). right. exists (Line text'). reflexivity.
    + destruct (py_int (strip text)) as [n'|].
      * destruct ((0 <=? n' - 1)%Z && (n' - 1 <? Z.of_nat (length recommendations))%Z).
        -- destruct (nth_error recommendations (Z.to_nat (n' - 1))) as [selected|] eqn:Hnth;
             [|exact I].
           right. exists (name selected). split; [reflexivity|]. left.
           unfold names. apply in_map. eapply nth_error_In. exact Hnth.
        -- apply hands_on_bind with (QA := fun _ => True); [exact I|intros _ _].
           apply (Hrec (Line text) rest). left. reflexivity.
      * apply hands_on_bind with (QA := fun _ => True); [exact I|intros _ _].
        apply (Hrec (Line text) rest). left. reflexivity.
  - apply hands_on_bind with (QA := fun _ => True); [exact I|intros _ _].
    left. reflexivity.
  - exact I.
Qed.

(** X8.  Whatever is typed at the menu, select_model only ever asks
    install_specific_model for a model the user picked: one of the
    recommended names, or a name typed at a prompt (stripped); otherwise it
    returns None or ends with the EOFError of [input]. *)
Theorem select_model_installs_only_picked (install : string -> option string)
  (recommendations : list recommendation) (typed : list keyboard)
  (res : option string) :
  fst (select_model install recommendations typed) = Ret res ->
  res = None \/ exists x, res = install x /\ picked recommendations typed x.
Proof.
  intros H. pose proof (select_model_picks install recommendations typed) as Hp.
  unfold hands_on in Hp. rewrite H in Hp. exact Hp.
Qed.

Lemma select_model_installs_only_picked_witness :
  Some "phi" = None \/
  exists x, Some "phi" = Some x /\
            picked (get_recommended_models (of_int 0) (of_int 16))
              [Line "seven"; Line " 3 "] x.
Proof.
  apply (select_model_installs_only_picked Some
           (get_recommended_models (of_int 0) (of_int 16)) [Line "seven"; Line " 3 "]).
  reflexivity.
Defined.

(** X9.  At the menu of install_recommended_models, a line that reads as
    the number 1, 2 or 3 (whitespace, a sign or leading zeros allowed) makes
    the function install the recommendation of that rank for the detected
    hardware, and return what install_specific_model returns. *)
Theorem menu_number_installs_that_entry (ram : option (outcome (Z * Z)))
  (env : gpu_env) (install : string -> option string) (text : string)
  (rest : list keyboard) (v : pynum) (k : nat) :
  fst (detect_vram env) = Returned v ->
  py_int (strip text) = Some (Z.of_nat k + 1) ->
  (k < 3)%nat ->
  fst (install_recommended_models ram env install (Line text :: rest)) =
    Returned (install (nth k (names (get_recommended_models v (ram_total_of ram))) "")).
Proof.
  intros Hv Hint Hk.
  assert (H5 : String.eqb (strip text) "5" = false).
  { destruct (String.eqb_spec (strip text) "5") as [E|]; [|reflexivity].
    rewrite E in Hint. change (py_int "5") with (Some 5) in Hint.
    inversion Hint. lia. }
  assert (H4 : String.eqb (strip text) "4" = false).
  { destruct (String.eqb_spec (strip text) "4") as [E|]; [|reflexivity].
    rewrite E in Hint. change (py_int "4") with (Some 4) in Hint.
    inversion Hint. lia. }
  unfold install_recommended_models, get_system_info.
  destruct (detect_vram env) as [o l]. cbn [fst] in Hv. subst o.
  assert (Hram : exists available_gb,
                 (let '(total, available) :=
                    match ram with
                    | Some (Returned (total, available)) =>
                        match gib total, gib available with
                        | Fin total_gb, Fin available_gb => (Fin total_gb, Fin available_gb)
                        | _, _ => (of_int 4, of_int 2)
                        end
                    | Some (Raised _) => (of_int 4, of_int 2)
                    | None => (of_int 4, of_int 2)
                    end in
                  v0 <- @invoke effect (option string) pynum (Returned v, l) ;;
                  pure (SystemInfo total available v0)) =
                 (Next (SystemInfo (ram_total_of ram) available_gb v), l)).
  { destruct ram as [[[total available]|e]|];
      [unfold ram_total_of; destruct (gib total), (gib available)| |];
      eexists; cbn; rewrite app_nil_r; reflexivity. }
  destruct Hram as [available_gb Hram].
  rewrite Hram. cbn [print emit bind pure vram_gb ram_total_gb].
  pose proof (get_recommended_models_length v (ram_total_of ram)) as Hlen.
  destruct (get_recommended_models v (ram_total_of ram)) as [|r1 [|r2 [|r3 [|r4 rs]]]];
    try discriminate Hlen.
  cbn [length seq combine for_each emit bind pure fst snd select_model].
  rewrite H5, H4, Hint.
  replace (Z.of_nat k + 1 - 1) with (Z.of_nat k) by lia.
  destruct k as [|[|[|k]]]; [| | |lia]; reflexivity.
Qed.

Lemma menu_number_installs_that_entry_witness :
  fst (install_recommended_models None amd_machine_with_nvidia_smi Some
         [Line (String.append " 02" line_feed)]) =
    Returned (Some (nth 1 (names (get_recommended_models (div_1024 8192)
                                    (ram_total_of None))) "")).
Proof.
  apply (menu_number_installs_that_entry None amd_machine_with_nvidia_smi Some
           (String.append " 02" line_feed) [] (div_1024 8192) 1);
    [reflexivity|reflexivity|lia].
Defined.

(** ** start_ollama_server as a whole *)

Lemma total_sleep_app (l1 l2 : list effect) :
  total_sleep (l1 ++ l2) = total_sleep l1 + total_sleep l2.
Proof.
  induction l1 as [|e l1 IH]; [reflexivity|].
  destruct e; cbn [app total_sleep]; rewrite IH; lia.
Qed.

Lemma total_sleep_progress (attempt : nat) : total_sleep (progress attempt) = 0.
Proof. unfold progress. destruct (attempt mod 5 =? 0)%nat; reflexivity. Qed.

(** One attempt sleeps a second at most, or two when it returns True. *)
Lemma poll_once_sleep (env : server_env) (attempt : nat) :
  (fst (poll_once env attempt) = Ret true /\
   total_sleep (snd (poll_once env attempt)) = 2 /\
   ok_200 (probe env attempt) = true) \/
  ((fst (poll_once env attempt) = Next tt \/ fst (poll_once env attempt) = Ret false) /\
   0 <= total_sleep (snd (poll_once env attempt)) <= 1).
Proof.
  rewrite poll_once_cases. unfold ok_200.
  destruct (probe env attempt) as [r|e].
  - destruct (status_code r =? 200)%Z; [left|right]; cbn; repeat split; auto; lia.
  - right. destruct (is_connection_error e); [destruct (poll_in_attempt env attempt)|];
      cbn [fst snd total_sleep]; rewrite ?total_sleep_app, ?total_sleep_progress;
      cbn [total_sleep]; split; auto; lia.
Qed.

(** The loop ends by falling through or by returning; it returns True only
    on an attempt answered 200; it sleeps one second per attempt at most, and
    one more when it returns True. *)
Lemma poll_loop_sleep (env : server_env) (xs : list nat) :
  (fst (poll_loop env xs) = Next tt /\
   0 <= total_sleep (snd (poll_loop env xs)) <= Z.of_nat (length xs)) \/
  (fst (poll_loop env xs) = Ret false /\
   0 <= total_sleep (snd (poll_loop env xs)) <= Z.of_nat (length xs)) \/
  (fst (poll_loop env xs) = Ret true /\
   0 <= total_sleep (snd (poll_loop env xs)) <= Z.of_nat (length xs) + 1 /\
   exists i, In i xs /\ ok_200 (probe env i) = true).
Proof.
  induction xs as [|x xs IH]; [left; cbn; split; [reflexivity|lia]|].
  rewrite poll_loop_cons. cbn [length].
  destruct (poll_once_sleep env x) as [(Hf & Hs & Hok)|([Hf|Hf] & Hs)];
    destruct (poll_once env x) as [f l]; cbn [fst snd] in *; subst f.
  - right. right. cbn [fst snd]. split; [reflexivity|]. split; [lia|].
    exists x. split; [left; reflexivity|exact Hok].
  - destruct (poll_loop env xs) as [f' l']. cbn [fst snd] in *.
    rewrite total_sleep_app.
    destruct IH as [(-> & IH)|[(-> & IH)|(-> & IH & i & Hi & Hok)]].
    + left. split; [reflexivity|lia].
    + right. left. split; [reflexivity|lia].
    + right. right. split; [reflexivity|]. split; [lia|].
      exists i. split; [right; exact Hi|exact Hok].
  - right. left. cbn [fst snd]. split; [reflexivity|lia].
Qed.

Lemma loop_ran_out_sleep (env : server_env) :
  fst (loop_ran_out env) = Ret false /\ total_sleep (snd (loop_ran_out env)) = 0.
Proof.
  unfold loop_ran_out.
  destruct (communicate_late env) as [[out err]|e]; [destruct (nonempty err)|];
    split; reflexivity.
Qed.

(** Lines 947-990 return a boolean: True only on an attempt answered 200,
    after 46 seconds of sleep at most. *)
Lemma wait_for_server_sleep (env : server_env) :
  exists b,
    fst (wait_for_server env) = Ret b /\
    0 <= total_sleep (snd (wait_for_server env)) <= 46 /\
    (b = true -> exists i, (i < max_attempts)%nat /\ ok_200 (probe env i) = true).
Proof.
  rewrite wait_for_server_unfold.
  destruct (loop_ran_out_sleep env) as [Hg Hgs].
  pose proof (poll_loop_sleep env attempts) as H.
  change (Z.of_nat (length attempts)) with 45 in H.
  destruct (poll_loop env attempts) as [f l], (loop_ran_out env) as [g lg].
  cbn [fst snd] in *. subst g.
  destruct H as [(-> & H)|[(-> & H)|(-> & H & i & Hi & Hok)]]; cbn [bind fst snd].
  - exists false. rewrite total_sleep_app, Hgs. repeat split; try lia; discriminate.
  - exists false. repeat split; try lia; discriminate.
  - exists true. repeat split; try lia. intros _. exists i. split; [|exact Hok].
    unfold attempts in Hi. apply in_seq in Hi. lia.
Qed.

(** The function in terms of what lines 947-990 do. *)
Lemma start_ollama_server_cases (env : server_env) :
  (exists r, fst (start_ollama_server env) = Returned r) /\
  0 <= total_sleep (snd (start_ollama_server env)) <= 53 /\
  (fst (start_ollama_server env) = Returned true ->
     ok_200 (first_probe env) = true \/
     exists i, (i < max_attempts)%nat /\ ok_200 (probe env i) = true).
Proof.
  destruct (wait_for_server_sleep env) as (b & Hf & Hs & Hb).
  unfold start_ollama_server, http_get, run, ok_200.
  destruct (wait_for_server env) as [f lw]. cbn [fst snd] in *. subst f.
  assert (Hright : Returned b = Returned true ->
            (exists i, (i < max_attempts)%nat /\
               match probe env i with
               | Returned r => (status_code r =? 200)%Z
               | Raised _ => false
               end = true)).
  { intros H. inversion H. apply Hb. assumption. }
  destruct (first_probe env) as [r|e]; cbn [emit pure raise bind try_except print].
  - destruct (status_code r =? 200)%Z eqn:Hst; cbn [emit pure raise bind try_except print ret].
    + cbn. split; [eauto|]. split; [lia|]. intros _. left. reflexivity.
    + destruct (String.eqb (srv_platform env) "win32"), (kill_answer env) as [c|e],
        (popen_answer env) as [e'|], (poll_after_start env) as [rc|],
        (communicate_early env) as [out err];
        try destruct (nonempty err);
        cbn; rewrite ?total_sleep_app; cbn [total_sleep];
        (split; [eauto|]); (split; [lia|]);
        intros H; first [discriminate H | right; apply Hright; exact H].
  - destruct (String.eqb (srv_platform env) "win32"), (kill_answer env) as [c|e0],
      (popen_answer env) as [e'|], (poll_after_start env) as [rc|],
      (communicate_early env) as [out err];
      try destruct (nonempty err);
      cbn; rewrite ?total_sleep_app; cbn [total_sleep];
      (split; [eauto|]); (split; [lia|]);
      intros H; first [discriminate H | right; apply Hright; exact H].
Qed.

(** X10.  start_ollama_server never raises: whatever the probes, the kill
    command, [Popen] and the process do, it returns a boolean. *)
Theorem start_ollama_server_never_raises (env : server_env) :
  exists r, fst (start_ollama_server env) = Returned r.
Proof. exact (proj1 (start_ollama_server_cases env)). Qed.

(** X11.  start_ollama_server returns True only when a probe of
    [GET /api/tags] was answered with HTTP 200: the probe before the start,
    or one of the 45 probes after it. *)
Theorem start_ollama_server_true_means_200 (env : server_env) :
  fst (start_ollama_server env) = Returned true ->
  ok_200 (first_probe env) = true \/
  exists i, (i < max_attempts)%nat /\ ok_200 (probe env i) = true.
Proof. exact (proj2 (proj2 (start_ollama_server_cases env))). Qed.

Lemma start_ollama_server_true_means_200_witness :
  ok_200 (first_probe slow_server) = true \/
  exists i, (i < max_attempts)%nat /\ ok_200 (probe slow_server i) = true.
Proof. apply (start_ollama_server_true_means_200 slow_server). reflexivity. Defined.

(** X12.  When the first probe is answered with HTTP 200 the server is left
    alone: start_ollama_server returns True after that one request, without
    killing, starting or polling any process and without sleeping. *)
Theorem running_server_is_left_alone (env : server_env) :
  ok_200 (first_probe env) = true ->
  start_ollama_server env =
    (Returned true,
     [Print Header [Lit "STARTING OLLAMA SERVER"];
      HttpGet tags_url 5;
      Print Success [Lit "Ollama server is already running"]]).
Proof.
  unfold ok_200, start_ollama_server, http_get.
  destruct (first_probe env) as [r|e]; [|discriminate].
  intros H. cbn [emit pure bind]. rewrite H. reflexivity.
Qed.

Lemma running_server_is_left_alone_witness :
  start_ollama_server running_server =
    (Returned true,
     [Print Header [Lit "STARTING OLLAMA SERVER"];
      HttpGet tags_url 5;
      Print Success [Lit "Ollama server is already running"]]).
Proof. apply running_server_is_left_alone. reflexivity. Defined.

(** X13.  start_ollama_server sleeps 53 seconds at most in total: 2 after
    the kill, 5 after the start, one after each failed probe and 2 after the
    probe that succeeds; a server answering at the 45th probe reaches the
    bound. *)
Theorem start_ollama_server_sleeps_at_most_53 (env : server_env) :
  0 <= total_sleep (snd (start_ollama_server env)) <= 53 /\
  total_sleep (snd (start_ollama_server late_server)) = 53.
Proof.
  split; [exact (proj1 (proj2 (start_ollama_server_cases env)))|].
  vm_compute. reflexivity.
Qed.

(** ** The window over runs of events *)

Lemma add_message_frame (st : gui) (sender : string) (message : pyval)
  (color : option string) :
  chat_state (add_message st sender message color) = DISABLED /\
  send_btn (add_message st sender message color) = send_btn st /\
  upload_btn (add_message st sender message color) = upload_btn st /\
  uploaded (add_message st sender message color) = uploaded st /\
  threads (add_message st sender message color) = threads st /\
  after_queue (add_message st sender message color) = after_queue st /\
  input_entry (add_message st sender message color) = input_entry st.
Proof.
  unfold add_message.
  destruct (String.eqb sender "You"); [|destruct (String.eqb sender "Agent")];
    repeat split.
Qed.

(** The two buttons go together, and the chat is read-only after each
    event. *)
Lemma step_keeps_buttons_together (st : gui) (ev : event) :
  send_btn st = upload_btn st -> chat_state st = DISABLED ->
  send_btn (step st ev) = upload_btn (step st ev) /\ chat_state (step st ev) = DISABLED.
Proof.
  intros Hb Hc. destruct ev; cbn [step].
  - split; assumption.
  - unfold send_message. destruct (negb (nonempty (strip (input_entry st))));
      split; auto.
  - destruct (send_btn st) eqn:E; [|split; congruence].
    unfold send_message. destruct (negb (nonempty (strip (input_entry st))));
      split; cbn; congruence.
  - destruct (upload_btn st) eqn:E; [|split; congruence].
    unfold upload_file. destruct (nonempty file_path); [|split; congruence].
    destruct read; split; cbn; congruence.
  - split; cbn; auto.
  - destruct (threads st !! i); [|split; assumption].
    destruct (process_ai_response _ _ _ _). split; cbn; assumption.
  - destruct (after_queue st) as [|[response_text|error_msg] rest]; [split; assumption| |];
      split; reflexivity.
Qed.

(** X14.  In every state the window reaches from its start, whatever the
    events, the Send and Upload buttons are in the same state (both enabled
    or both disabled) and the chat display is read-only. *)
Theorem buttons_go_together (name : string) (cfg : gmap string pyval)
  (evs : list event) :
  send_btn (run_events (initial_gui name cfg) evs)
    = upload_btn (run_events (initial_gui name cfg) evs) /\
  chat_state (run_events (initial_gui name cfg) evs) = DISABLED.
Proof.
  unfold run_events.
  assert (H : forall st, send_btn st = upload_btn st -> chat_state st = DISABLED ->
            send_btn (fold_left step evs st) = upload_btn (fold_left step evs st) /\
            chat_state (fold_left step evs st) = DISABLED).
  { induction evs as [|ev evs IH]; intros st Hb Hc; [split; assumption|].
    cbn [fold_left]. destruct (step_keeps_buttons_together st ev Hb Hc) as [Hb' Hc'].
    apply IH; assumption. }
  apply H; reflexivity.
Qed.

Lemma step_keeps_disabled (st : gui) (ev : event) :
  is_run_queued ev = false ->
  send_btn st = DISABLED -> upload_btn st = DISABLED ->
  send_btn (step st ev) = DISABLED /\ upload_btn (step st ev) = DISABLED.
Proof.
  intros Hev Hs Hu.
  destruct ev; try discriminate Hev; cbn [step]; rewrite ?Hs, ?Hu; cbn iota;
    try (split; cbn; first [assumption|reflexivity]).
  - unfold send_message. destruct (negb (nonempty (strip (input_entry st))));
      [split; assumption|split; reflexivity].
  - destruct (threads st !! i); [|split; assumption].
    destruct (process_ai_response _ _ _ _). split; cbn; assumption.
Qed.

(** X15.  Once the two buttons are disabled, they stay disabled through
    every run of events in which the event loop shows no queued answer:
    typing, Return, clicks, Clear Chat and finishing workers do not enable
    them. *)
Theorem buttons_wait_for_the_answer (st : gui) (evs : list event) :
  forallb (fun ev => negb (is_run_queued ev)) evs = true ->
  send_btn st = DISABLED -> upload_btn st = DISABLED ->
  send_btn (run_events st evs) = DISABLED /\ upload_btn (run_events st evs) = DISABLED.
Proof.
  unfold run_events. revert st.
  induction evs as [|ev evs IH]; intros st Hevs Hs Hu; [split; assumption|].
  cbn [forallb fold_left] in *. apply andb_true_iff in Hevs. destruct Hevs as [Hev Hevs].
  apply negb_true_iff in Hev.
  destruct (step_keeps_disabled st ev Hev Hs Hu) as [Hs' Hu'].
  apply IH; assumption.
Qed.

Lemma buttons_wait_for_the_answer_witness :
  send_btn (run_events (send_message (set_input (initial_gui "llama2" default_config) "hi"))
              [ClickClear; TypeText "again"; ClickSend;
               WorkerRuns 0 (Raised (Exn RequestsReadTimeout "Read timed out."))])
    = DISABLED /\
  upload_btn (run_events (send_message (set_input (initial_gui "llama2" default_config) "hi"))
              [ClickClear; TypeText "again"; ClickSend;
               WorkerRuns 0 (Raised (Exn RequestsReadTimeout "Read timed out."))])
    = DISABLED.
Proof.
  apply (buttons_wait_for_the_answer
           (send_message (set_input (initial_gui "llama2" default_config) "hi")));
    reflexivity.
Defined.

Lemma step_uploaded (st : gui) (ev : event) :
  (uploaded st <> None -> uploaded (step st ev) <> None) /\
  (is_upload ev = false -> uploaded (step st ev) = uploaded st).
Proof.
  destruct ev; cbn [step is_upload].
  - split; auto.
  - unfold send_message. destruct (negb (nonempty (strip (input_entry st))));
      split; auto.
  - destruct (send_btn st); [|split; auto].
    unfold send_message. destruct (negb (nonempty (strip (input_entry st))));
      split; auto.
  - split; [|discriminate]. destruct (upload_btn st); [|auto].
    unfold upload_file. destruct (nonempty file_path); [|auto].
    destruct read; cbn; [discriminate|auto].
  - split; auto.
  - destruct (threads st !! i); [|split; auto].
    destruct (process_ai_response _ _ _ _). split; auto.
  - destruct (after_queue st) as [|[response_text|error_msg] rest]; split; auto.
Qed.

(** X16.  An uploaded file stays the context of later questions: no event
    removes it (Clear Chat, a cancelled or failed upload, an answer, an
    error), and only a new upload changes it. *)
Theorem uploaded_file_is_kept (st : gui) (evs : list event) :
  (uploaded st <> None -> uploaded (run_events st evs) <> None) /\
  (forallb (fun ev => negb (is_upload ev)) evs = true ->
   uploaded (run_events st evs) = uploaded st).
Proof.
  unfold run_events. revert st.
  induction evs as [|ev evs IH]; intros st; [split; auto|].
  cbn [fold_left forallb]. destruct (step_uploaded st ev) as [H1 H2].
  destruct (IH (step st ev)) as [IH1 IH2]. split.
  - intros H. apply IH1, H1, H.
  - intros H. apply andb_true_iff in H. destruct H as [Hev Hevs].
    apply negb_true_iff in Hev. rewrite (IH2 Hevs). apply H2, Hev.
Qed.

Lemma length_delete_lookup {A} (l : list A) (i : nat) (x : A) :
  l !! i = Some x -> S (length (delete i l)) = length l.
Proof.
  revert i. induction l as [|y l IH]; intros [|i] H; try discriminate; cbn.
  - reflexivity.
  - f_equal. apply IH. exact H.
Qed.

(** X17.  Requests are neither lost nor doubled by the window: an event
    changes the number of requests in flight by one up when it sends a
    message, by one down when it puts a queued answer on display, and not at
    all otherwise; in particular a finishing worker turns one started
    request into exactly one queued answer. *)
Theorem requests_in_flight_are_accounted (st : gui) (ev : event) :
  (in_flight (step st ev) + (if displays st ev then 1 else 0)
   = in_flight st + (if sends st ev then 1 else 0))%nat.
Proof.
  unfold in_flight. destruct ev; cbn [step sends displays].
  - cbn. lia.
  - unfold send_message. destruct (nonempty (strip (input_entry st))); cbn [negb].
    + cbn. rewrite length_app. cbn. lia.
    + lia.
  - destruct (send_btn st); [|lia].
    unfold send_message. destruct (nonempty (strip (input_entry st))); cbn [negb].
    + cbn. rewrite length_app. cbn. lia.
    + lia.
  - assert (Hup : length (threads (upload_file st file_path read)) = length (threads st) /\
                  length (after_queue (upload_file st file_path read))
                  = length (after_queue st)).
    { unfold upload_file. destruct (nonempty file_path); [|split; reflexivity].
      destruct read; split; reflexivity. }
    destruct (upload_btn st); lia.
  - cbn. lia.
  - destruct (threads st !! i) as [user_input|] eqn:Hi; [|lia].
    rewrite process_ai_response_log. cbn.
    pose proof (length_delete_lookup _ _ _ Hi) as Hlen.
    rewrite length_app. cbn. lia.
  - destruct (after_queue st) as [|[response_text|error_msg] rest] eqn:Hq;
      cbn; rewrite ?Hq; cbn; lia.
Qed.

(** ** The preference file, again *)

Lemma listified_is_tuple_free (v : pyval) : tuple_free (listified v) = true.
Proof.
  induction v as [ |b|n|s|items IH|items IH|entries IH] using pyval_nested_ind;
    simpl; try reflexivity.
  - induction IH as [|x items Hx _ IHitems]; simpl; [reflexivity|].
    rewrite Hx, IHitems. reflexivity.
  - induction IH as [|x items Hx _ IHitems]; simpl; [reflexivity|].
    rewrite Hx, IHitems. reflexivity.
  - induction IH as [|[k x] entries Hx _ IHentries]; simpl; [reflexivity|].
    simpl in Hx. rewrite Hx, IHentries. reflexivity.
Qed.

Lemma load_save_fmap (cfg : gmap string pyval) (file : config_file) :
  dom default_config ⊆ dom cfg ->
  load_config default_config true (save_config cfg true file) = listified <$> cfg.
Proof.
  intros Hdom. apply map_eq. intros k. rewrite load_save_lookup, lookup_fmap.
  destruct (cfg !! k) as [v|] eqn:Hk; [reflexivity|].
  apply not_elem_of_dom in Hk. cbn. apply not_elem_of_dom. intros Hin.
  apply Hk, Hdom, Hin.
Qed.

Lemma dict_update_keeps (saved : list (string * pyval)) (cfg : gmap string pyval)
  (k : string) :
  (is_Some (cfg !! k) -> is_Some (dict_update cfg saved !! k)) /\
  (k ∉ saved.*1 -> dict_update cfg saved !! k = cfg !! k).
Proof.
  revert cfg. induction saved as [|[k0 v0] saved IH]; intros cfg.
  - split; [tauto|reflexivity].
  - unfold dict_update in *. cbn [fold_left fst snd fmap list_fmap].
    destruct (IH (<[k0 := v0]> cfg)) as [IH1 IH2]. split.
    + intros Hk. apply IH1. destruct (decide (k0 = k)) as [->|Hne].
      * rewrite lookup_insert_eq. eauto.
      * rewrite lookup_insert_ne by exact Hne. exact Hk.
    + intros Hk. apply not_elem_of_cons in Hk. destruct Hk as [Hne Hk].
      rewrite (IH2 Hk). apply lookup_insert_ne. congruence.
Qed.

(** X18.  Once a config holding the six default keys has been through the
    file, a second save and load gives it back unchanged: the tuples are
    turned into lists the first time and nothing changes after. *)
Theorem second_round_trip_is_stable (cfg : gmap string pyval) (file file' : config_file) :
  dom default_config ⊆ dom cfg ->
  let loaded := load_config default_config true (save_config cfg true file) in
  load_config default_config true (save_config loaded true file') = loaded /\
  (forall k v, loaded !! k = Some v -> tuple_free v = true).
Proof.
  intros Hdom loaded. subst loaded. rewrite (load_save_fmap cfg file Hdom). split.
  - rewrite load_save_fmap.
    + rewrite <- map_fmap_compose. apply map_fmap_ext. intros k v _. cbn.
      apply listified_tuple_free, listified_is_tuple_free.
    + rewrite dom_fmap_L. exact Hdom.
  - intros k v Hk. rewrite lookup_fmap in Hk.
    destruct (cfg !! k) as [w|]; [|discriminate]. cbn in Hk.
    injection Hk as <-. apply listified_is_tuple_free.
Qed.

Lemma second_round_trip_is_stable_witness :
  dom default_config ⊆ dom default_config /\
  load_config default_config true
    (save_config (load_config default_config true (save_config default_config true Absent))
                 true NotJson)
  = load_config default_config true (save_config default_config true Absent).
Proof.
  split; [reflexivity|].
  apply (second_round_trip_is_stable default_config Absent NotJson). reflexivity.
Defined.

Lemma update_pairs_keeps (items : list json) (cfg : gmap string pyval) (k : string) :
  (is_Some (cfg !! k) -> is_Some (update_pairs cfg items !! k)) /\
  (~ In k (document_keys (JArr items)) -> update_pairs cfg items !! k = cfg !! k).
Proof.
  revert cfg. induction items as [|item items IH]; intros cfg.
  - split; [tauto|reflexivity].
  - cbn [update_pairs document_keys flat_map].
    destruct (pair_of item) as [k0 v0| |].
    + destruct (IH (<[k0 := v0]> cfg)) as [IH1 IH2]. split.
      * intros Hk. apply IH1. destruct (decide (k0 = k)) as [->|Hne].
        -- rewrite lookup_insert_eq. eauto.
        -- rewrite lookup_insert_ne by exact Hne. exact Hk.
      * intros Hk. cbn [app] in Hk. rewrite IH2.
        -- apply lookup_insert_ne. intros ->. apply Hk. left. reflexivity.
        -- intros Hin. apply Hk. right. exact Hin.
    + apply IH.
    + split; [tauto|reflexivity].
Qed.

Lemma update_from_keeps (j : json) (cfg : gmap string pyval) (k : string) :
  (is_Some (cfg !! k) -> is_Some (update_from cfg j !! k)) /\
  (~ In k (document_keys j) -> update_from cfg j !! k = cfg !! k).
Proof.
  destruct j as [ |b|n|s|items|members]; try (split; [tauto|reflexivity]).
  - apply update_pairs_keeps.
  - cbn [update_from document_keys].
    destruct (dict_update_keeps
                (map (fun kv : string * json => (fst kv, of_json (snd kv))) members) cfg k)
      as [H1 H2].
    split; [exact H1|]. intros Hk. apply H2. intros Hin. apply Hk.
    rewrite <- list_fmap_compose in Hin.
    apply list_elem_of_fmap in Hin. destruct Hin as ([k1 v1] & -> & Hx).
    apply in_map_iff. exists (k1, v1). split; [reflexivity|].
    apply list_elem_of_In. exact Hx.
Qed.

(** X19.  load_config never loses a key: whatever chat_config.json holds
    (nothing, text that is not JSON, an object, or another JSON document
    such as an array of pairs) and whether it can be read or not, every key
    of the config is still there afterwards, and a key the document cannot
    set keeps its value.  An array of pairs does set its keys, up to the
    first element [dict.update] refuses.  So the six default keys are
    present after the constructor has loaded the file. *)
Theorem load_config_keeps_the_keys (cfg : gmap string pyval) (readable : bool)
  (file : config_file) :
  dom cfg ⊆ dom (load_config cfg readable file) /\
  (forall k, ~ In k (file_keys file) -> load_config cfg readable file !! k = cfg !! k) /\
  load_config default_config true
    (OtherDocument (JArr [JArr [JStr "bg_color"; JStr "#000000"]; JInt 7;
                          JArr [JStr "text_color"; JStr "#000000"]]))
    = <["bg_color" := PStr "#000000"]> default_config.
Proof.
  split; [|split].
  - intros k Hk. apply elem_of_dom in Hk. apply elem_of_dom.
    unfold load_config. destruct file as [ | |members|j]; try exact Hk.
    + destruct readable; [|exact Hk]. apply dict_update_keeps. exact Hk.
    + destruct readable; [|exact Hk]. apply update_from_keeps. exact Hk.
  - intros k Hk. unfold load_config. destruct file as [ | |members|j]; try reflexivity.
    + destruct readable; [|reflexivity].
      apply (update_from_keeps (JObj members) cfg k). exact Hk.
    + destruct readable; [|reflexivity]. apply update_from_keeps. exact Hk.
  - reflexivity.
Qed.

(** ** The configuration dialog *)

Lemma dict_item_known (d : list (string * string)) (name : string) :
  known_name d name = true -> exists code, dict_item d name = Returned code /\ In (name, code) d.
Proof.
  unfold known_name, dict_item. induction d as [|[n c] d IH]; cbn [existsb find fst].
  - discriminate.
  - destruct (String.eqb n name) eqn:E.
    + intros _. apply String.eqb_eq in E. subst n. exists c. split; [reflexivity|left; reflexivity].
    + cbn [orb]. intros H. destruct (IH H) as (code & H1 & H2).
      exists code. split; [exact H1|right; exact H2].
Qed.

Lemma dict_item_unknown (d : list (string * string)) (name : string) :
  known_name d name = false -> dict_item d name = Raised (key_error name).
Proof.
  unfold known_name, dict_item. induction d as [|[n c] d IH]; cbn [existsb find fst].
  - reflexivity.
  - destruct (String.eqb n name); [discriminate|]. cbn [orb]. exact IH.
Qed.

(** The name found for a code of a table whose codes are distinct is the
    name the code stands under. *)
Lemma get_color_name_of_item (d : list (string * string)) (name code : string) :
  List.NoDup (map snd d) -> In (name, code) d ->
  dict_item d name = Returned code ->
  get_color_name (PStr code) d = Returned name.
Proof.
  unfold get_color_name, dict_item.
  assert (G : forall d, List.NoDup (map snd d) -> In (name, code) d ->
              find (fun item : string * string => is_code (PStr code) (snd item)) d
              = Some (name, code)).
  { clear d. induction d as [|[n c] d IH]; intros Hnd Hin; [destruct Hin|].
    cbn [find is_code snd]. cbn [map snd] in Hnd. apply List.NoDup_cons_iff in Hnd.
    destruct Hnd as [Hc Hnd]. destruct Hin as [Heq|Hin].
    - injection Heq as -> ->. rewrite String.eqb_refl. reflexivity.
    - destruct (String.eqb c code) eqn:E.
      + apply String.eqb_eq in E. subst c. exfalso. apply Hc.
        apply (in_map snd) in Hin. exact Hin.
      + apply IH; assumption. }
  intros Hnd Hin _. rewrite (G d Hnd Hin). reflexivity.
Qed.

Lemma get_color_name_unknown (d : list (string * string)) (color_code : pyval) :
  known_code d color_code = false ->
  get_color_name color_code d =
    match d with
    | (name, _) :: _ => Returned name
    | [] => Raised (Exn OtherException "list index out of range")
    end.
Proof.
  unfold get_color_name, known_code. intros H.
  assert (G : find (fun item : string * string => is_code color_code (snd item)) d = None).
  { induction d as [|[n c] d IH]; [reflexivity|]. cbn [existsb find snd] in *.
    destruct (is_code color_code c); [discriminate|]. apply IH. exact H. }
  rewrite G. reflexivity.
Qed.

Lemma colors_distinct : List.NoDup (map snd colors).
Proof.
  cbn. repeat (apply List.NoDup_cons; [cbn; intuition discriminate|]). apply List.NoDup_nil.
Qed.

Lemma bg_colors_distinct : List.NoDup (map snd bg_colors).
Proof.
  cbn. repeat (apply List.NoDup_cons; [cbn; intuition discriminate|]). apply List.NoDup_nil.
Qed.

(** What Apply sets, the sizes being numbers and the three names names of
    their tables. *)
Lemma chosen_entries_known (ch : choices) (user_size agent_size : Z) :
  user_size_var ch = Returned user_size ->
  agent_size_var ch = Returned agent_size ->
  known_name colors (user_color_var ch) = true ->
  known_name colors (agent_color_var ch) = true ->
  known_name bg_colors (bg_color_var ch) = true ->
  exists user_color agent_color bg_color,
    chosen_entries ch =
      Returned [("user_font", PTuple [PStr (user_font_var ch); PInt user_size]);
                ("user_color", PStr user_color);
                ("agent_font", PTuple [PStr (agent_font_var ch); PInt agent_size]);
                ("agent_color", PStr agent_color);
                ("bg_color", PStr bg_color)] /\
    get_color_name (PStr user_color) colors = Returned (user_color_var ch) /\
    get_color_name (PStr agent_color) colors = Returned (agent_color_var ch) /\
    get_color_name (PStr bg_color) bg_colors = Returned (bg_color_var ch).
Proof.
  intros Hus Has Hu Ha Hb.
  destruct (dict_item_known _ _ Hu) as (uc & Huc & Huin).
  destruct (dict_item_known _ _ Ha) as (ac & Hac & Hain).
  destruct (dict_item_known _ _ Hb) as (bc & Hbc & Hbin).
  exists uc, ac, bc. split; [|split; [|split]].
  - unfold chosen_entries. rewrite Hus, Has, Huc, Hac, Hbc. reflexivity.
  - apply get_color_name_of_item; [apply colors_distinct|assumption..].
  - apply get_color_name_of_item; [apply colors_distinct|assumption..].
  - apply get_color_name_of_item; [apply bg_colors_distinct|assumption..].
Qed.

Lemma preselected_of_entries (cfg : gmap string pyval)
  (user_font agent_font : pyval) (uf us af asz : pyval) (uc ac bc : string)
  (un an bn : string) :
  cfg !! "user_font" = Some user_font ->
  py_item user_font 0 = Returned uf -> py_item user_font 1 = Returned us ->
  cfg !! "user_color" = Some (PStr uc) ->
  cfg !! "agent_font" = Some agent_font ->
  py_item agent_font 0 = Returned af -> py_item agent_font 1 = Returned asz ->
  cfg !! "agent_color" = Some (PStr ac) ->
  cfg !! "bg_color" = Some (PStr bc) ->
  get_color_name (PStr uc) colors = Returned un ->
  get_color_name (PStr ac) colors = Returned an ->
  get_color_name (PStr bc) bg_colors = Returned bn ->
  preselected cfg = Returned (Preselection uf us un af asz an bn).
Proof.
  intros H1 H2 H3 H4 H5 H6 H7 H8 H9 H10 H11 H12.
  unfold preselected, config_item.
  rewrite H1. cbn [and_then]. rewrite H2. cbn [and_then]. rewrite H3. cbn [and_then].
  rewrite H4. cbn [and_then]. rewrite H10. cbn [and_then].
  rewrite H5. cbn [and_then]. rewrite H6. cbn [and_then]. rewrite H7. cbn [and_then].
  rewrite H8. cbn [and_then]. rewrite H11. cbn [and_then].
  rewrite H9. cbn [and_then]. rewrite H12. reflexivity.
Qed.

Lemma dict_update_five (cfg : gmap string pyval) (v1 v2 v3 v4 v5 : pyval) :
  let cfg' := dict_update cfg [("user_font", v1); ("user_color", v2); ("agent_font", v3);
                               ("agent_color", v4); ("bg_color", v5)] in
  cfg' !! "user_font" = Some v1 /\ cfg' !! "user_color" = Some v2 /\
  cfg' !! "agent_font" = Some v3 /\ cfg' !! "agent_color" = Some v4 /\
  cfg' !! "bg_color" = Some v5.
Proof.
  cbv zeta. unfold dict_update. cbn [fold_left fst snd].
  repeat split;
    repeat first [ rewrite lookup_insert_eq; reflexivity
                 | rewrite lookup_insert_ne by discriminate ].
Qed.

(** X20.  Apply followed by reopening the dialog shows the choices again,
    in the same session and after a restart that loads the file: the sizes
    being numbers and the colour names names of their tables, Apply
    succeeds, and the dialog opened on the new config, or on the config a
    fresh start loads from the written file, is preselected with the fonts,
    sizes and colour names chosen. *)
Theorem dialog_reopens_with_the_choices (cfg : gmap string pyval) (ch : choices)
  (user_size agent_size : Z) (file : config_file) :
  user_size_var ch = Returned user_size ->
  agent_size_var ch = Returned agent_size ->
  known_name colors (user_color_var ch) = true ->
  known_name colors (agent_color_var ch) = true ->
  known_name bg_colors (bg_color_var ch) = true ->
  let applied := apply_config cfg ch true file in
  fst applied = Returned tt /\
  preselected (fst (snd applied)) = Returned (shown ch user_size agent_size) /\
  preselected (load_config default_config true (snd (snd applied)))
    = Returned (shown ch user_size agent_size).
Proof.
  intros Hus Has Hu Ha Hb applied. subst applied.
  destruct (chosen_entries_known ch user_size agent_size Hus Has Hu Ha Hb)
    as (uc & ac & bc & Hent & Hgu & Hga & Hgb).
  unfold apply_config. rewrite Hent. cbn [fst snd].
  destruct (dict_update_five cfg
              (PTuple [PStr (user_font_var ch); PInt user_size]) (PStr uc)
              (PTuple [PStr (agent_font_var ch); PInt agent_size]) (PStr ac) (PStr bc))
    as (E1 & E2 & E3 & E4 & E5).
  split; [reflexivity|]. split.
  - eapply preselected_of_entries; eauto; reflexivity.
  - eapply preselected_of_entries;
      try (rewrite load_save_lookup;
           first [rewrite E1|rewrite E2|rewrite E3|rewrite E4|rewrite E5]; reflexivity);
      eauto; reflexivity.
Qed.

Lemma dialog_reopens_with_the_choices_witness :
  preselected
    (load_config default_config true
       (snd (snd (apply_config default_config
                    (Choices "Verdana" (Returned 14) "Cyan" "Georgia" (Returned 10)
                             "Orange" "Black")
                    true Absent))))
  = Returned (Preselection (PStr "Verdana") (PInt 14) "Cyan"
                           (PStr "Georgia") (PInt 10) "Orange" "Black").
Proof.
  apply (dialog_reopens_with_the_choices default_config
           (Choices "Verdana" (Returned 14) "Cyan" "Georgia" (Returned 10) "Orange" "Black")
           14 10 Absent); reflexivity.
Defined.

Lemma known_name_dict_item (d : list (string * string)) (name : string) :
  known_name d name = true <-> exists code, dict_item d name = Returned code.
Proof.
  split.
  - intros H. destruct (dict_item_known d name H) as (code & Hc & _). exists code. exact Hc.
  - intros [code Hc]. destruct (known_name d name) eqn:E; [reflexivity|].
    rewrite (dict_item_unknown d name E) in Hc. discriminate.
Qed.

(** X21.  Apply is all or nothing.  It succeeds exactly when both sizes
    are numbers and the three colour names are names of their tables;
    otherwise it raises and leaves the config and the file as they were.  A
    colour name typed into the first colour box that is in no table raises
    the KeyError of that name, the size beside it being a number. *)
Theorem apply_config_all_or_nothing (cfg : gmap string pyval) (ch : choices)
  (writable : bool) (file : config_file) :
  let applied := apply_config cfg ch writable file in
  (fst applied = Returned tt <->
     (exists user_size, user_size_var ch = Returned user_size) /\
     (exists agent_size, agent_size_var ch = Returned agent_size) /\
     known_name colors (user_color_var ch) = true /\
     known_name colors (agent_color_var ch) = true /\
     known_name bg_colors (bg_color_var ch) = true) /\
  (fst applied = Returned tt \/ snd applied = (cfg, file)) /\
  (forall user_size,
     user_size_var ch = Returned user_size ->
     known_name colors (user_color_var ch) = false ->
     fst applied = Raised (key_error (user_color_var ch))).
Proof.
  cbv zeta. split; [|split].
  - rewrite !known_name_dict_item. unfold apply_config, chosen_entries. split.
    + destruct (user_size_var ch) as [us|]; cbn [and_then fst]; [|discriminate].
      destruct (dict_item colors (user_color_var ch)) as [uc|]; cbn [and_then fst];
        [|discriminate].
      destruct (agent_size_var ch) as [asz|]; cbn [and_then fst]; [|discriminate].
      destruct (dict_item colors (agent_color_var ch)) as [ac|]; cbn [and_then fst];
        [|discriminate].
      destruct (dict_item bg_colors (bg_color_var ch)) as [bc|]; cbn [and_then fst];
        [|discriminate].
      intros _. eauto 10.
    + intros ([us ->] & [asz ->] & [uc ->] & [ac ->] & [bc ->]). reflexivity.
  - unfold apply_config. destruct (chosen_entries ch); [left|right]; reflexivity.
  - intros user_size Hus Hu. unfold apply_config, chosen_entries.
    rewrite Hus. cbn [and_then]. rewrite (dict_item_unknown _ _ Hu). reflexivity.
Qed.

(** X22.  A colour of the config that is in no table (a file edited by
    hand) is shown as the first name of the table, 'Green', and Apply with
    that name left as shown replaces the colour by '#00ff00'. *)
Theorem unknown_colour_is_reset (cfg : gmap string pyval) (color_code : pyval)
  (pre : preselection) (ch : choices) (writable : bool) (file : config_file) :
  cfg !! "user_color" = Some color_code ->
  known_code colors color_code = false ->
  preselected cfg = Returned pre ->
  user_color_var ch = pre_user_color pre ->
  fst (apply_config cfg ch writable file) = Returned tt ->
  pre_user_color pre = "Green" /\
  fst (snd (apply_config cfg ch writable file)) !! "user_color" = Some (PStr "#00ff00").
Proof.
  intros Hc Hunknown Hpre Hch Hok.
  assert (Hgreen : pre_user_color pre = "Green").
  { assert (Hitem : config_item cfg "user_color" = Returned color_code)
      by (unfold config_item; rewrite Hc; reflexivity).
    pose proof (get_color_name_unknown colors color_code Hunknown) as Hname.
    cbn [colors] in Hname. unfold preselected in Hpre.
    destruct (config_item cfg "user_font") as [user_font|]; cbn [and_then] in Hpre;
      [|discriminate].
    destruct (py_item user_font 0); cbn [and_then] in Hpre; [|discriminate].
    destruct (py_item user_font 1); cbn [and_then] in Hpre; [|discriminate].
    rewrite Hitem in Hpre. cbn [and_then] in Hpre.
    rewrite Hname in Hpre. cbn [and_then] in Hpre.
    repeat match type of Hpre with
           | and_then ?a _ = _ => destruct a; cbn [and_then] in Hpre; [|discriminate]
           end.
    injection Hpre as <-. reflexivity. }
  split; [exact Hgreen|].
  unfold apply_config in *. rewrite Hgreen in Hch.
  unfold chosen_entries in *. rewrite Hch in *.
  destruct (user_size_var ch) as [us|]; cbn [and_then fst snd] in *; [|discriminate].
  change (dict_item colors "Green") with (@Returned string "#00ff00") in *.
  cbn [and_then] in *.
  destruct (agent_size_var ch) as [asz|]; cbn [and_then fst snd] in *; [|discriminate].
  destruct (dict_item colors (agent_color_var ch)) as [ac|]; cbn [and_then fst snd] in *;
    [|discriminate].
  destruct (dict_item bg_colors (bg_color_var ch)) as [bc|]; cbn [and_then fst snd] in *;
    [|discriminate].
  apply dict_update_five.
Qed.

Lemma unknown_colour_is_reset_witness :
  fst (snd (apply_config (<["user_color" := PStr "#123456"]> default_config)
              (Choices "Arial" (Returned 12) "Green" "Arial" (Returned 12) "Red" "Dark")
              true Absent)) !! "user_color" = Some (PStr "#00ff00").
Proof.
  apply (unknown_colour_is_reset (<["user_color" := PStr "#123456"]> default_config)
           (PStr "#123456")
           (Preselection (PStr "Arial") (PInt 12) "Green" (PStr "Arial") (PInt 12) "Red" "Dark")
           (Choices "Arial" (Returned 12) "Green" "Arial" (Returned 12) "Red" "Dark")
           true Absent); reflexivity.
Defined.

(** ** AnimatedGIF *)

Lemma create_fallback_image_lengths (env : gif_env) (g : animated_gif) :
  length (delays g) = length (frames g) ->
  length (delays (fst (create_fallback_image env g)))
    = length (frames (fst (create_fallback_image env g))).
Proof.
  intros H. unfold create_fallback_image.
  destruct (has_pil env); [destruct (fallback_photo env)|]; cbn; auto.
Qed.

Lemma read_frames_lengths (rest : list gif_frame) (first : gif_frame) (g : animated_gif) :
  length (delays g) = length (frames g) ->
  length (delays (snd (read_frames first rest g)))
    = length (frames (snd (read_frames first rest g))).
Proof.
  revert first g. induction rest as [|next rest IH]; intros first g H;
    cbn [read_frames]; destruct (photo first) as [image|e]; cbn [snd]; auto.
  - cbn. rewrite !length_app, H. reflexivity.
  - apply IH. cbn. rewrite !length_app, H. reflexivity.
Qed.

Lemma read_frames_all (rest : list gif_frame) (first : gif_frame) (g : animated_gif)
  (images : list nat) :
  map photo (first :: rest) = map (@Returned nat) images ->
  read_frames first rest g =
    (Returned tt,
     set_frames g (frames g ++ map Some images)
                  (delays g ++ map (fun fr => default 100 (duration fr)) (first :: rest))).
Proof.
  revert first g images. induction rest as [|next rest IH]; intros first g images H;
    destruct images as [|image images]; try discriminate;
    cbn [map] in H; injection H as Hfirst Hrest; cbn [read_frames]; rewrite Hfirst.
  - destruct images; [|discriminate]. reflexivity.
  - rewrite (IH next _ images Hrest). cbn [set_frames frames delays current_frame animation].
    rewrite <- !app_assoc. reflexivity.
Qed.

Lemma load_lengths (env : gif_env) :
  length (delays (fst (load env))) = length (frames (fst (load env))).
Proof.
  unfold load, load_gif. destruct (has_pil env) eqn:Hpil; cbn [negb].
  - destruct (open_gif env) as [[first rest]|e].
    + pose proof (read_frames_lengths rest first new_gif eq_refl) as H.
      destruct (read_frames first rest new_gif) as [[u|e] g]; cbn [snd fst] in *;
        [exact H|].
      pose proof (create_fallback_image_lengths env g H) as H'.
      destruct (create_fallback_image env g). exact H'.
    + pose proof (create_fallback_image_lengths env new_gif eq_refl) as H'.
      destruct (create_fallback_image env new_gif). exact H'.
  - apply create_fallback_image_lengths. reflexivity.
Qed.

(** X23.  After the constructor the object holds as many delays as frames,
    whatever Pillow does; without Pillow it holds the one placeholder frame;
    and when the file opens and every frame converts, it holds the frames of
    the file in their order, each with the duration of its own [info], 100
    where there is none. *)
Theorem load_gif_pairs_frames_and_delays (env : gif_env) :
  let g := fst (load env) in
  length (delays g) = length (frames g) /\
  (has_pil env = false -> frames g = [None] /\ delays g = [1000]) /\
  (forall first rest images,
     has_pil env = true ->
     open_gif env = Returned (first, rest) ->
     map photo (first :: rest) = map (@Returned nat) images ->
     frames g = map Some images /\
     delays g = map (fun fr => default 100 (duration fr)) (first :: rest)).
Proof.
  cbv zeta. unfold load, load_gif. split; [|split].
  - apply load_lengths.
  - intros Hpil. rewrite Hpil. cbn [negb]. unfold create_fallback_image.
    rewrite Hpil. split; reflexivity.
  - intros first rest images -> -> Hall. cbn [negb].
    rewrite (read_frames_all rest first new_gif images Hall). split; reflexivity.
Qed.

Lemma animate_plays (g : animated_gif) (image : nat) (rest : list (option nat)) :
  frames g = Some image :: rest ->
  (current_frame g < length (frames g))%nat ->
  length (delays g) = length (frames g) ->
  let next := (S (current_frame g) mod length (frames g))%nat in
  animate g =
    (Returned tt,
     AnimatedGif (frames g) (delays g) next (Some (nth next (delays g) 100)),
     [ConfigureImage (nth (current_frame g) (frames g) None);
      AfterAnimate (nth next (delays g) 100)]).
Proof.
  intros Hf Hc Hd next. unfold animate. rewrite Hf. rewrite <- Hf.
  destruct (nth_error (frames g) (current_frame g)) as [shown|] eqn:E.
  - rewrite (nth_error_nth _ _ None E). fold next.
    assert (Hn : (next <? length (delays g))%nat = true).
    { apply Nat.ltb_lt. rewrite Hd. apply Nat.mod_upper_bound. lia. }
    rewrite Hn. reflexivity.
  - apply nth_error_None in E. lia.
Qed.

(** [n] calls of animate in a row, on an animation that can play. *)
Lemma animate_times_cycles (n : nat) (g : animated_gif) (image : nat)
  (rest : list (option nat)) :
  frames g = Some image :: rest ->
  (current_frame g < length (frames g))%nat ->
  length (delays g) = length (frames g) ->
  let played := animate_times n g in
  let len := length (frames g) in
  fst (fst played) = Returned tt /\
  frames (snd (fst played)) = frames g /\
  delays (snd (fst played)) = delays g /\
  current_frame (snd (fst played)) = ((current_frame g + n) mod len)%nat /\
  images_shown (snd played)
    = map (fun j => nth ((current_frame g + j) mod len)%nat (frames g) None) (seq 0 n) /\
  delays_asked (snd played)
    = map (fun j => nth ((current_frame g + j + 1) mod len)%nat (delays g) 100) (seq 0 n).
Proof.
  revert g. induction n as [|n IH]; intros g Hf Hc Hd; cbv zeta.
  - cbn [animate_times fst snd seq map images_shown delays_asked flat_map].
    rewrite Nat.add_0_r, Nat.mod_small by exact Hc. repeat split; reflexivity.
  - cbn [animate_times]. rewrite (animate_plays g image rest Hf Hc Hd). cbv zeta.
    set (next := (S (current_frame g) mod length (frames g))%nat).
    set (g1 := AnimatedGif (frames g) (delays g) next (Some (nth next (delays g) 100))).
    assert (Hlen : (0 < length (frames g))%nat) by lia.
    assert (Hnext : (next < length (frames g))%nat)
      by (apply Nat.mod_upper_bound; lia).
    destruct (IH g1 Hf Hnext Hd) as (H1 & H2 & H3 & H4 & H5 & H6).
    destruct (animate_times n g1) as [[r g2] later]. cbn [fst snd] in *.
    change (frames g1) with (frames g) in *. change (delays g1) with (delays g) in *.
    change (current_frame g1) with next in *.
    assert (Hshift : forall j,
              ((next + j) mod length (frames g) = (current_frame g + S j) mod length (frames g))%nat).
    { intros j. unfold next. rewrite Nat.Div0.add_mod_idemp_l. f_equal. lia. }
    split; [exact H1|]. split; [exact H2|]. split; [exact H3|]. split; [|split].
    + rewrite H4, Hshift. reflexivity.
    + cbn [app images_shown flat_map]. fold (images_shown later). rewrite H5.
      cbn [seq map]. rewrite Nat.add_0_r, (Nat.mod_small _ _ Hc). f_equal.
      rewrite <- seq_shift, map_map. apply map_ext. intros j. rewrite Hshift. reflexivity.
    + cbn [app delays_asked flat_map]. fold (delays_asked later). rewrite H6.
      cbn [seq map]. rewrite Nat.add_0_r. replace (current_frame g + 1)%nat with (S (current_frame g)) by lia.
      fold next. f_equal.
      rewrite <- seq_shift, map_map. apply map_ext. intros j.
      replace (next + j + 1)%nat with (next + S j)%nat by lia.
      rewrite Hshift. do 2 f_equal. lia.
Qed.

(** X24.  An animation that can play keeps playing: with a first frame
    that is an image, the index within the frames and as many delays as
    frames, [n] calls of animate in a row never raise, leave the frames and
    delays alone, and show the frames in their cyclic order from the current
    one.  The pause asked after showing a frame is the delay of the frame
    that follows it, not its own. *)
Theorem animation_cycles (n : nat) (g : animated_gif) (image : nat)
  (rest : list (option nat)) :
  frames g = Some image :: rest ->
  (current_frame g < length (frames g))%nat ->
  length (delays g) = length (frames g) ->
  let played := animate_times n g in
  let len := length (frames g) in
  fst (fst played) = Returned tt /\
  frames (snd (fst played)) = frames g /\
  delays (snd (fst played)) = delays g /\
  current_frame (snd (fst played)) = ((current_frame g + n) mod len)%nat /\
  images_shown (snd played)
    = map (fun j => nth ((current_frame g + j) mod len)%nat (frames g) None) (seq 0 n) /\
  delays_asked (snd played)
    = map (fun j => nth ((current_frame g + j + 1) mod len)%nat (delays g) 100) (seq 0 n).
Proof. exact (animate_times_cycles n g image rest). Qed.

Lemma animation_cycles_witness :
  images_shown (snd (animate_times 5 (AnimatedGif [Some 7; Some 8; Some 9]%nat [10; 20; 30] 0 None)))
    = [Some 7; Some 8; Some 9; Some 7; Some 8]%nat /\
  delays_asked (snd (animate_times 5 (AnimatedGif [Some 7; Some 8; Some 9]%nat [10; 20; 30] 0 None)))
    = [20; 30; 10; 20; 30].
Proof.
  pose proof (animation_cycles 5 (AnimatedGif [Some 7; Some 8; Some 9]%nat [10; 20; 30] 0 None)
                7%nat [Some 8; Some 9]%nat eq_refl) as H.
  cbv zeta in H. cbn [frames delays current_frame length] in H.
  destruct (H ltac:(lia) eq_refl) as (_ & _ & _ & _ & H5 & H6).
  split; [exact H5|exact H6].
Defined.

Lemma animate_times_idle (n : nat) (g : animated_gif) :
  match frames g with Some _ :: _ => False | _ => True end ->
  animate_times n g = (Returned tt, g, []).
Proof.
  intros H. induction n as [|n IH]; [reflexivity|]. cbn [animate_times].
  unfold animate. destruct (frames g) as [|[image|] rest]; try contradiction;
    rewrite IH; reflexivity.
Qed.

Lemma create_fallback_image_current (env : gif_env) (g : animated_gif) :
  current_frame (fst (create_fallback_image env g)) = current_frame g.
Proof.
  unfold create_fallback_image.
  destruct (has_pil env); [destruct (fallback_photo env)|]; reflexivity.
Qed.

Lemma read_frames_current (rest : list gif_frame) (first : gif_frame) (g : animated_gif) :
  current_frame (snd (read_frames first rest g)) = current_frame g.
Proof.
  revert first g. induction rest as [|next rest IH]; intros first g;
    cbn [read_frames]; destruct (photo first); try reflexivity.
  rewrite IH. reflexivity.
Qed.

Lemma load_current (env : gif_env) : current_frame (fst (load env)) = 0%nat.
Proof.
  unfold load, load_gif. destruct (has_pil env); cbn [negb].
  - destruct (open_gif env) as [[first rest]|e].
    + pose proof (read_frames_current rest first new_gif) as H.
      destruct (read_frames first rest new_gif) as [[u|e] g]; cbn [snd fst] in *;
        [exact H|].
      pose proof (create_fallback_image_current env g) as H'.
      destruct (create_fallback_image env g). cbn [fst] in *. rewrite H', H. reflexivity.
    + pose proof (create_fallback_image_current env new_gif) as H'.
      destruct (create_fallback_image env new_gif). exact H'.
  - apply create_fallback_image_current.
Qed.

(** X25.  The ball never stops the program: whatever Pillow does with the
    file, start_animation on the freshly built object and any number of
    later calls of animate return without raising, and every pause asked of
    [root.after] is one of the delays the object holds, never the spare
    100. *)
Theorem animation_never_raises (env : gif_env) (n : nat) :
  let g := fst (load env) in
  let started := start_animation g in
  let played := animate_times n (snd (fst started)) in
  fst (fst started) = Returned tt /\
  fst (fst played) = Returned tt /\
  (forall delay, In delay (delays_asked (snd started ++ snd played)) -> In delay (delays g)).
Proof.
  cbv zeta. pose proof (load_lengths env) as Hd. pose proof (load_current env) as Hc.
  set (g := fst (load env)) in *. unfold start_animation.
  destruct (frames g) as [|[image|] rest] eqn:Hf; rewrite <- ?Hf in Hd.
  - cbn [fst snd]. rewrite animate_times_idle by (rewrite Hf; exact I).
    cbn. tauto.
  - assert (Hlt : (current_frame g < length (frames g))%nat)
      by (rewrite Hc, Hf; cbn; lia).
    rewrite (animate_plays g image rest Hf Hlt Hd). cbv zeta. cbn [fst snd].
    set (next := (S (current_frame g) mod length (frames g))%nat).
    set (g1 := AnimatedGif (frames g) (delays g) next (Some (nth next (delays g) 100))).
    assert (Hnext : (next < length (frames g))%nat)
      by (apply Nat.mod_upper_bound; lia).
    destruct (animate_times_cycles n g1 image rest Hf Hnext Hd)
      as (H1 & _ & _ & _ & _ & H6).
    split; [reflexivity|]. split; [exact H1|].
    intros delay Hin. cbn [app delays_asked flat_map] in Hin.
    fold (delays_asked (snd (animate_times n g1))) in Hin.
    destruct Hin as [<-|Hin].
    + apply nth_In. rewrite Hd. exact Hnext.
    + rewrite H6 in Hin. apply in_map_iff in Hin. destruct Hin as (j & <- & _).
      apply nth_In. change (delays g1) with (delays g). change (frames g1) with (frames g).
      rewrite Hd. apply Nat.mod_upper_bound. lia.
  - cbn [fst snd]. rewrite animate_times_idle by (rewrite Hf; exact I).
    cbn. tauto.
Qed.

(** ** check_gpu_availability, install_ollama and ensure_ollama_running *)

(** X26.  check_gpu_availability never raises, and it stops at the first
    tool that cannot be run: when [nvidia-smi] cannot be started the answer
    is "Unknown (Error: ...)" with the text of that exception and no other
    tool is tried, although a later one might have found a card.  It says
    "CPU Only" only after both [nvidia-smi] and [rocm-smi] ran and ended
    with a non-zero exit status. *)
Theorem check_gpu_availability_stops_at_missing_tool (env : probe_env) :
  (exists label, fst (check_gpu_availability env) = Returned label) /\
  (forall e, nvidia_probe env = Raised e ->
     check_gpu_availability env
       = (Returned (unknown_gpu e), [Run ["nvidia-smi"] (Some 10)])) /\
  (succeeded (nvidia_probe env) = true ->
     check_gpu_availability env = (Returned "NVIDIA GPU", [Run ["nvidia-smi"] (Some 10)])) /\
  (fst (check_gpu_availability env) = Returned "CPU Only" ->
     (exists c, nvidia_probe env = Returned c /\ returncode c <> 0) /\
     (exists c, rocm_probe env = Returned c /\ returncode c <> 0)).
Proof.
  unfold check_gpu_availability, run, succeeded.
  destruct env as [nv amd platform prof]. cbn [nvidia_probe rocm_probe probe_platform profiler_probe].
  split; [|split; [|split]].
  - destruct nv as [c|e]; [|eexists; reflexivity].
    cbn -[String.eqb contains Z.eqb unknown_gpu].
    destruct (returncode c =? 0)%Z; [eexists; reflexivity|].
    destruct amd as [c'|e']; [|eexists; reflexivity].
    cbn -[String.eqb contains Z.eqb unknown_gpu].
    destruct (returncode c' =? 0)%Z; [eexists; reflexivity|].
    destruct (String.eqb platform "darwin"); [|eexists; reflexivity].
    destruct prof as [p|e'']; [|eexists; reflexivity].
    cbn -[String.eqb contains Z.eqb unknown_gpu].
    destruct (contains "Apple" (stdout p)); eexists; reflexivity.
  - intros e ->. reflexivity.
  - destruct nv as [c|e]; [|discriminate]. intros H.
    cbn -[String.eqb contains Z.eqb unknown_gpu]. rewrite H. reflexivity.
  - destruct nv as [c|e]; [|discriminate].
    cbn -[String.eqb contains Z.eqb unknown_gpu].
    destruct (returncode c =? 0)%Z eqn:Hc; [discriminate|].
    destruct amd as [c'|e']; [|cbn; unfold unknown_gpu; intros H; discriminate H].
    cbn -[String.eqb contains Z.eqb unknown_gpu].
    destruct (returncode c' =? 0)%Z eqn:Hc'; [discriminate|].
    intros _. apply Z.eqb_neq in Hc, Hc'. split; eexists; split; eauto.
Qed.

Lemma check_ollama_installed_value (env : install_env) :
  check_ollama_installed env = (Returned (found env), [Run ["which"; "ollama"] None]).
Proof.
  unfold check_ollama_installed, found, run.
  destruct (which_ollama env) as [c|e]; [|reflexivity].
  cbn -[Z.eqb]. destruct (returncode c =? 0)%Z; [reflexivity|].
  destruct (local_copy env); reflexivity.
Qed.

Lemma install_ollama_value (env : install_env) :
  fst (install_ollama env) = Returned (found env || installer_succeeds env).
Proof.
  unfold install_ollama. rewrite check_ollama_installed_value.
  unfold installer_succeeds, succeeded, run.
  destruct (found env); [reflexivity|]. cbn [orb].
  destruct (String.eqb (inst_platform env) "linux").
  - destruct (curl_script env) as [c|e]; [|reflexivity].
    cbn -[Z.eqb String.append]. destruct (returncode c =? 0)%Z; [|reflexivity].
    destruct (run_script env) as [c'|e']; [|reflexivity].
    cbn -[Z.eqb String.append]. destruct (returncode c' =? 0)%Z; reflexivity.
  - destruct (String.eqb (inst_platform env) "darwin"); [|reflexivity].
    destruct (brew_install env) as [c|e]; [|reflexivity].
    cbn -[Z.eqb String.append]. destruct (returncode c =? 0)%Z; reflexivity.
Qed.

(** X27.  install_ollama never raises and returns True exactly when the
    program was found or the installer of the platform ran through with
    exit status 0.  When the program is found nothing is run but [which];
    on Linux a download that fails stops the installation before the script
    is run. *)
Theorem install_ollama_result (env : install_env) :
  fst (install_ollama env) = Returned (found env || installer_succeeds env) /\
  (found env = true ->
     commands (snd (install_ollama env)) = [["which"; "ollama"]]) /\
  (found env = false -> inst_platform env = "linux" ->
     succeeded (curl_script env) = false ->
     commands (snd (install_ollama env))
       = [["which"; "ollama"]; ["curl"; "-fsSL"; installer_url]]).
Proof.
  split; [apply install_ollama_value|]. split.
  - intros H. unfold install_ollama. rewrite check_ollama_installed_value, H. reflexivity.
  - intros H Hp Hc. unfold install_ollama. rewrite check_ollama_installed_value, H, Hp.
    unfold succeeded, run in *. destruct (curl_script env) as [c|e]; [|reflexivity].
    cbn -[Z.eqb String.append]. rewrite Hc. reflexivity.
Qed.

(** X28.  ensure_ollama_running returns False only when the program was
    not found and could not be installed, and then no request is sent and no
    server is started.  Otherwise a server that failed to start does not
    make it fail: it asks for the Enter key and returns True; Ctrl-C or the
    end of the input at that prompt is raised to the caller. *)
Theorem ensure_ollama_running_result (ienv : install_env) (senv : server_env)
  (typed : list keyboard) :
  let r := ensure_ollama_running ienv senv typed in
  (found ienv || installer_succeeds ienv = false ->
     fst r = Returned false /\ Forall (fun e => is_probe e = false) (snd r)) /\
  (found ienv || installer_succeeds ienv = true ->
     fst (start_ollama_server senv) = Returned true -> fst r = Returned true) /\
  (found ienv || installer_succeeds ienv = true ->
     fst (start_ollama_server senv) = Returned false ->
     fst r = match typed with
             | Line _ :: _ => Returned true
             | Interrupt :: _ => Raised keyboard_interrupt
             | _ => Raised eof
             end).
Proof.
  cbv zeta. unfold ensure_ollama_running. rewrite check_ollama_installed_value.
  pose proof (install_ollama_value ienv) as Hi.
  pose proof (install_ollama_no_request ienv) as Hq.
  destruct (install_ollama ienv) as [oi li]. cbn [fst snd] in Hi, Hq. subst oi.
  destruct (start_ollama_server senv) as [os ls]. cbn [fst].
  split; [|split].
  - intros H. apply orb_false_iff in H. destruct H as [Hf Hs]. rewrite Hf, Hs.
    cbn. split; [reflexivity|]. constructor; [reflexivity|].
    apply Forall_app. split; [exact Hq|repeat constructor].
  - intros H ->. destruct (found ienv); cbn in *; [reflexivity|].
    rewrite H. reflexivity.
  - intros H ->. destruct (found ienv); cbn [orb] in H.
    + destruct typed as [|[text| |] rest]; reflexivity.
    + rewrite H. destruct typed as [|[text| |] rest]; reflexivity.
Qed.

(** ** SystemChecker.install_python_dependencies *)

Lemma pip_loop (env : pip_env) (dependencies : list string) :
  let loop := for_each dependencies tt (fun _ dep => pip_turn env dep) in
  pip_commands (snd loop) = map (pip_argv env) (attempted env dependencies) /\
  sets_has_psutil (snd loop) = false /\
  (if forallb (pip_done env) dependencies
   then fst loop = Next tt
   else fst loop = Ret false \/ exists e, fst loop = Throw e).
Proof.
  cbv zeta. induction dependencies as [|dep rest IH].
  - repeat split; reflexivity.
  - cbn [for_each forallb attempted map].
    assert (Hturn : pip_turn env dep =
              match pip_install env dep with
              | PipDone =>
                  (Next tt,
                   [Shell (Print Info [Lit "Installing "; Lit dep; Lit "..."]);
                    Shell (Run (pip_argv env dep) None);
                    Shell (Print Success [Lit "Successfully installed "; Lit dep])])
              | PipCalledProcessError text =>
                  (Ret false,
                   [Shell (Print Info [Lit "Installing "; Lit dep; Lit "..."]);
                    Shell (Run (pip_argv env dep) None);
                    Shell (Print Error [Lit "Failed to install "; Lit dep; Lit ": ";
                                        Lit text])])
              | PipRaised e =>
                  (Throw e,
                   [Shell (Print Info [Lit "Installing "; Lit dep; Lit "..."]);
                    Shell (Run (pip_argv env dep) None)])
              end)
      by (unfold pip_turn; destruct (pip_install env dep); reflexivity).
    rewrite Hturn. clear Hturn. unfold pip_done at 1 2.
    destruct (pip_install env dep) as [ |text|e]; cbn [fst snd andb].
    + destruct IH as (IH1 & IH2 & IH3).
      destruct (for_each rest tt (fun _ dep0 => pip_turn env dep0)) as [f l].
      cbn [fst snd] in *. split; [|split].
      * cbn. f_equal. exact IH1.
      * cbn. exact IH2.
      * exact IH3.
    + repeat split; try reflexivity. left. reflexivity.
    + repeat split; try reflexivity. right. eexists. reflexivity.
Qed.

Lemma pip_commands_frame (h : dep_effect) (l t : list dep_effect) :
  pip_commands [h] = [] -> pip_commands t = [] ->
  pip_commands (h :: l ++ t) = pip_commands l.
Proof.
  intros Hh Ht. change (h :: l ++ t) with ([h] ++ l ++ t).
  unfold pip_commands in *. rewrite !flat_map_app, Hh, Ht, app_nil_r. reflexivity.
Qed.

Lemma sets_has_psutil_frame (h : dep_effect) (l t : list dep_effect) :
  sets_has_psutil [h] = false -> sets_has_psutil l = false ->
  sets_has_psutil (h :: l ++ t) = sets_has_psutil t.
Proof.
  intros Hh Hl. change (h :: l ++ t) with ([h] ++ l ++ t).
  unfold sets_has_psutil in *. rewrite !existsb_app, Hh, Hl. reflexivity.
Qed.

(** X29.  install_python_dependencies runs pip for the packages in order
    and stops at the first one whose pip does not end with exit status 0:
    the later packages are not tried.  It returns True exactly when every
    pip ended with exit status 0, and sets HAS_PSUTIL only then, when
    "psutil" was among the packages and can be imported. *)
Theorem install_python_dependencies_stops_at_first_failure (env : pip_env)
  (dependencies : list string) :
  let r := install_python_dependencies env dependencies in
  pip_commands (snd r) = map (pip_argv env) (attempted env dependencies) /\
  (fst r = Returned true <-> forallb (pip_done env) dependencies = true) /\
  (sets_has_psutil (snd r) = true <->
     forallb (pip_done env) dependencies = true /\
     existsb (String.eqb "psutil") dependencies = true /\
     import_psutil env = true).
Proof.
  cbv zeta. unfold install_python_dependencies.
  change (fun (_ : unit) (dep : string) => _) with (fun (_ : unit) dep => pip_turn env dep).
  destruct (pip_loop env dependencies) as (H1 & H2 & H3).
  destruct (for_each dependencies tt (fun _ dep => pip_turn env dep)) as [f l].
  cbn [fst snd] in *.
  destruct (forallb (pip_done env) dependencies).
  - subst f. cbn [emit bind fst snd app call].
    destruct (existsb (String.eqb "psutil") dependencies);
      [destruct (import_psutil env)|]; cbn [emit bind ret pure fst snd app call];
      rewrite pip_commands_frame, sets_has_psutil_frame by (reflexivity || exact H2);
      (split; [exact H1|split; [tauto|]]); cbn.
    + tauto.
    + split; [discriminate|]. intros (_ & _ & H). discriminate H.
    + split; [discriminate|]. intros (_ & H & _). discriminate H.
  - destruct H3 as [->|[e ->]]; cbn [emit bind fst snd app call];
      rewrite <- (app_nil_r l);
      rewrite pip_commands_frame, sets_has_psutil_frame by (reflexivity || exact H2);
      (split; [exact H1|split; [split; discriminate|]]); cbn;
      (split; [discriminate|]); intros (H & _); discriminate H.
Qed.

(** ** install_specific_model *)


